(** * MindAid: the diagnosis questionnaire and the counseling history

    A shallow embedding of the chat handlers of MindAid
    ([src/mindaid/main.py], [src/mindaid/diagnosis.py],
    [src/mindaid/counseling.py], with the parts of [auth.py] and
    [ml_models.py] they call), and the properties of the questionnaire
    state machine stated over it.

    Python dictionaries are finite maps ([gmap]); a handler is a function in
    a state-and-exception monad, so that what a handler has written before an
    exception is raised stays written, as it does in Python. *)

From Stdlib Require Import ZArith Ascii String List Lia.
From stdpp Require Import base option list strings gmap fin_maps.

Local Open Scope string_scope.
Local Open Scope Z_scope.

(** ** Python values the handlers compute with *)

(** The exceptions that can travel through the handlers. *)
Inductive exn : Type :=
| ValueError (what : string)
| IndexError
| AttributeError
| DatabaseError
| ServiceError
| HTTPException (status_code : Z) (detail : string).

(** [str.lower()] on the ASCII letters.  A message is a byte string here; the
    handlers only compare the lowered message with [yes], [no], [y] and [n],
    and no character outside ASCII lowers to one of these letters. *)
Definition lower_ascii (c : ascii) : ascii :=
  let n := nat_of_ascii c in
  if ((65 <=? n) && (n <=? 90))%nat then ascii_of_nat (n + 32) else c.

Fixpoint lower (s : string) : string :=
  match s with
  | EmptyString => EmptyString
  | String c r => String (lower_ascii c) (lower r)
  end.

(** [x in [a, b, ...]] on strings. *)
Definition str_in (x : string) (l : list string) : bool :=
  existsb (String.eqb x) l.

(** [int(s)] for a [str] in base ten.  A string is the UTF-8 form of the
    text.  Python first turns every white space outside ASCII into a space
    and every decimal digit outside ASCII into its ASCII digit; at the first
    other character outside ASCII the text ends with a question mark.  Then
    white space around the number is dropped, one sign is allowed, the
    digits may be separated by single underscores, and a number of more
    than 4300 digits is refused (the default limit since Python 3.11).  The
    characters are those of Unicode 14.0, the version of Python 3.11; the
    messages of the two errors are given without the text they quote. *)
Definition code (c : ascii) : Z := Z.of_nat (nat_of_ascii c).

(** [str.isspace] outside ASCII. *)
Definition unicode_spaces : list Z :=
  [0x85; 0xA0; 0x1680; 0x2000; 0x2001; 0x2002; 0x2003; 0x2004; 0x2005;
   0x2006; 0x2007; 0x2008; 0x2009; 0x200A; 0x2028; 0x2029; 0x202F; 0x205F;
   0x3000].

(** The zeros of the decimal digits outside ASCII (category Nd); each is
    followed by its digits 1 to 9. *)
Definition decimal_zeros : list Z :=
  [0x660; 0x6F0; 0x7C0; 0x966; 0x9E6; 0xA66; 0xAE6; 0xB66; 0xBE6; 0xC66;
   0xCE6; 0xD66; 0xDE6; 0xE50; 0xED0; 0xF20; 0x1040; 0x1090; 0x17E0;
   0x1810; 0x1946; 0x19D0; 0x1A80; 0x1A90; 0x1B50; 0x1BB0; 0x1C40; 0x1C50;
   0xA620; 0xA8D0; 0xA900; 0xA9D0; 0xA9F0; 0xAA50; 0xABF0; 0xFF10; 0x104A0;
   0x10D30; 0x11066; 0x110F0; 0x11136; 0x111D0; 0x112F0; 0x11450; 0x114D0;
   0x11650; 0x116C0; 0x11730; 0x118E0; 0x11950; 0x11C50; 0x11D50; 0x11DA0;
   0x16A60; 0x16AC0; 0x16B50; 0x1D7CE; 0x1D7D8; 0x1D7E2; 0x1D7EC; 0x1D7F6;
   0x1E140; 0x1E2F0; 0x1E950; 0x1FBF0].

Definition space_or_digit (cp : Z) : option ascii :=
  if existsb (Z.eqb cp) unicode_spaces then Some " "%char
  else match find (fun zero => (zero <=? cp) && (cp <=? zero + 9)) decimal_zeros with
       | Some zero => Some (ascii_of_nat (Z.to_nat (48 + (cp - zero))))
       | None => None
       end.

(** A byte that continues a character, without its two marking bits. *)
Definition continuation (c : ascii) : option Z :=
  if (128 <=? code c) && (code c <=? 191) then Some (code c - 128) else None.

(** The character [cp], read from a form that encodes the characters from
    [least] on, in front of [rest]. *)
Definition put (cp least : Z) (rest : string) : string :=
  if cp <? least then "?"
  else match space_or_digit cp with
       | Some a => String a rest
       | None => "?"
       end.

Fixpoint to_ascii (s : string) : string :=
  match s with
  | EmptyString => EmptyString
  | String c r =>
      if code c <? 127 then String c (to_ascii r)
      else
        match r with
        | EmptyString => "?"
        | String c1 r1 =>
            match continuation c1 with
            | None => "?"
            | Some x1 =>
                if (194 <=? code c) && (code c <=? 223)
                then put ((code c - 192) * 64 + x1) 128 (to_ascii r1)
                else
                  match r1 with
                  | EmptyString => "?"
                  | String c2 r2 =>
                      match continuation c2 with
                      | None => "?"
                      | Some x2 =>
                          if (224 <=? code c) && (code c <=? 239)
                          then put (((code c - 224) * 64 + x1) * 64 + x2) 2048
                                   (to_ascii r2)
                          else
                            match r2 with
                            | EmptyString => "?"
                            | String c3 r3 =>
                                match continuation c3 with
                                | None => "?"
                                | Some x3 =>
                                    if (240 <=? code c) && (code c <=? 244)
                                    then put ((((code c - 240) * 64 + x1) * 64
                                               + x2) * 64 + x3) 65536
                                             (to_ascii r3)
                                    else "?"
                                end
                            end
                      end
                  end
            end
        end
  end.

(** The white space [int] skips: tab to carriage return, and the space. *)
Definition is_space (c : ascii) : bool :=
  ((9 <=? code c) && (code c <=? 13)) || (code c =? 32).

Definition digit_of (c : ascii) : option Z :=
  if (48 <=? code c) && (code c <=? 57) then Some (code c - 48) else None.

Fixpoint lstrip (s : string) : string :=
  match s with
  | EmptyString => EmptyString
  | String c r => if is_space c then lstrip r else s
  end.

Fixpoint rev_onto (s acc : string) : string :=
  match s with
  | EmptyString => acc
  | String c r => rev_onto r (String c acc)
  end.

(** The digits and underscores at the start of [s]: the number read so far,
    how many digits it has, and what follows; [None] when two underscores
    meet or an underscore comes last. *)
Fixpoint int_digits (s : string) (acc digits : Z) (after_underscore : bool)
    : option (Z * Z * string) :=
  match s with
  | EmptyString =>
      if after_underscore then None else Some (acc, digits, EmptyString)
  | String c r =>
      match digit_of c with
      | Some d => int_digits r (10 * acc + d) (digits + 1) false
      | None =>
          if Ascii.eqb c "_"
          then if after_underscore then None else int_digits r acc digits true
          else if after_underscore then None else Some (acc, digits, s)
      end
  end.

Definition invalid_literal : exn :=
  ValueError "invalid literal for int() with base 10".
Definition exceeds_the_limit : exn :=
  ValueError "Exceeds the limit (4300 digits) for integer string conversion".

Definition int (s : string) : exn + Z :=
  let t := lstrip (to_ascii s) in
  let '(sign, t) :=
    match t with
    | String "+" r => (1, r)
    | String "-" r => (-1, r)
    | _ => (1, t)
    end in
  match t with
  | String "_" _ => inl invalid_literal
  | _ =>
      match int_digits t 0 0 false with
      | None => inl invalid_literal
      | Some (n, digits, rest) =>
          if 4300 <? digits then inl exceeds_the_limit
          else if digits =? 0 then inl invalid_literal
          else match lstrip rest with
               | EmptyString => inr (sign * n)
               | _ => inl invalid_literal
               end
      end
  end.

(** [l[i]] on a Python list: a negative index counts from the end, an index
    out of range raises [IndexError]. *)
Definition py_index {A} (l : list A) (i : Z) : exn + A :=
  let n := Z.of_nat (length l) in
  let j := if i <? 0 then i + n else i in
  if (0 <=? j) && (j <? n)
  then match l !! Z.to_nat j with
       | Some x => inr x
       | None => inl IndexError
       end
  else inl IndexError.

(** [sep.join(l)]. *)
Fixpoint join (sep : string) (l : list string) : string :=
  match l with
  | [] => EmptyString
  | [x] => x
  | x :: r => x +:+ sep +:+ join sep r
  end.

(** ** The stored data *)

(** A row of table [users], with the columns the chat handlers touch.
    [history] is [None] when the column is NULL. *)
Record user_row : Type := mkRow {
  disorder : string;
  severity : string;
  history : option string
}.

Definition update_disorder (d : string) (r : user_row) : user_row :=
  mkRow d (severity r) (history r).
Definition update_severity (v : string) (r : user_row) : user_row :=
  mkRow (disorder r) v (history r).
Definition update_history (h : string) (r : user_row) : user_row :=
  mkRow (disorder r) (severity r) (Some h).

(** What a handler shares with the rest of the process besides its own
    session: the table [users], the chat histories LangChain keeps in
    [ml_models.store] (the contents of the messages of each session id, in
    order), and, as a ghost record, the arguments [predict_disorder] was
    called with so far. *)
Record outside : Type := mkOutside {
  users : gmap string user_row;
  store : gmap string (list string);
  classifier_calls : list string
}.

Definition with_users (f : gmap string user_row -> gmap string user_row)
    (o : outside) : outside :=
  mkOutside (f (users o)) (store o) (classifier_calls o).
Definition with_store (f : gmap string (list string) -> gmap string (list string))
    (o : outside) : outside :=
  mkOutside (users o) (f (store o)) (classifier_calls o).
Definition with_call (text : string) (o : outside) : outside :=
  mkOutside (users o) (store o) (classifier_calls o ++ [text]).

(** The services behind the handlers, which the code treats as black boxes:
    the BERT classifier (tokenizer, model and argmax), the retrieval chain
    with its LLM, and whether SQLite answers during the request. *)
Record services : Type := mkServices {
  model_loaded : bool;
  model_argmax : string -> exn + nat;
  counsel_loaded : bool;
  rag_answer : string -> list string -> exn + string;
  db_available : bool
}.

(** ** The handler monad: state of type [S * outside], and exceptions *)

Definition M (S A : Type) : Type := S * outside -> (S * outside) * (exn + A).

Definition ret {S A} (a : A) : M S A := fun st => (st, inr a).
Definition raise {S A} (e : exn) : M S A := fun st => (st, inl e).
Definition bind {S A B} (m : M S A) (k : A -> M S B) : M S B :=
  fun st =>
    match m st with
    | (st', inr a) => k a st'
    | (st', inl e) => (st', inl e)
    end.
Definition try_except {S A} (m : M S A) (handler : exn -> M S A) : M S A :=
  fun st =>
    match m st with
    | (st', inl e) => handler e st'
    | r => r
    end.
Definition lift {S A} (r : exn + A) : M S A := fun st => (st, r).

Declare Scope handler_scope.
Delimit Scope handler_scope with handler.
Notation "'do' x <- m ; k" := (bind m (fun x => k))
  (at level 10, x name, m at level 100, k at level 200) : handler_scope.
Local Open Scope handler_scope.

Definition get_sess {S} : M S S := fun st => (st, inr (fst st)).
Definition update_sess {S} (f : S -> S) : M S unit :=
  fun st => ((f (fst st), snd st), inr tt).
Definition get_outside {S} : M S outside := fun st => (st, inr (snd st)).
Definition update_outside {S} (f : outside -> outside) : M S unit :=
  fun st => ((fst st, f (snd st)), inr tt).

Section Services.
Context (E : services).

(** [database.get_db()]: opening the connection. *)
Definition get_db {S} : M S unit :=
  if db_available E then ret tt else raise DatabaseError.

(** [cursor.execute("UPDATE users SET col = ? WHERE username = ?")] with
    its [commit]: the row of [username] is changed when there is one. *)
Definition execute_update {S} (f : user_row -> user_row) (username : string)
    : M S unit :=
  if db_available E
  then update_outside (with_users (alter f username))
  else raise DatabaseError.

(** [SELECT history FROM users WHERE username = ?] followed by
    [result[0] if result and result[0] else ""]. *)
Definition select_current_history {S} (username : string) : M S string :=
  if db_available E
  then do o <- get_outside;
       ret (match users o !! username with
            | Some r => default EmptyString (history r)
            | None => EmptyString
            end)
  else raise DatabaseError.

(** [ml_models.predict_disorder]. *)
Definition class_labels : list string :=
  ["Addiction"; "Anxiety"; "Depression"; "PTSD"].

Definition predict_disorder {S} (user_input : string) : M S string :=
  do _ <- update_outside (with_call user_input);
  if negb (model_loaded E)
  then raise (ValueError "Diagnosis model not loaded")
  else
    do max_index <- lift (model_argmax E user_input);
    match class_labels !! max_index with
    | Some label => ret label
    | None => raise IndexError
    end.

(** [ml_models.get_counseling_response]: [RunnableWithMessageHistory]
    fetches the history of [session_id], creating it when the store has
    none, runs the chain on the input and the messages so far, and on
    success appends the input and the answer to the history. *)
Definition get_counseling_response {S} (user_input session_id : string)
    : M S string :=
  if negb (counsel_loaded E)
  then raise (ValueError "Counseling models not loaded")
  else
    do o <- get_outside;
    let messages := default [] (store o !! session_id) in
    do _ <- update_outside (with_store (insert session_id messages));
    do answer <- lift (rag_answer E user_input messages);
    do _ <- update_outside
         (with_store (insert session_id (messages ++ [user_input; answer])%list));
    ret answer.
End Services.

(** ** [auth.get_current_user] *)

(** The [session] cookie of a request, as [get_current_user] tells cookies
    apart.  An object whose [username] member is neither a string nor null is
    outside the model; [create_session_response] always stores a string. *)
Inductive session_cookie : Type :=
| NoCookie                                (* absent, or the empty string *)
| NotJson                                 (* [json.loads] raises [JSONDecodeError] *)
| JsonObject (username : option string)   (* an object and its [username] member *)
| JsonOther.                              (* a number, string, array, boolean or null *)

Definition get_current_user (c : session_cookie) : exn + string :=
  match c with
  | NoCookie => inl (HTTPException 401 "Not authenticated")
  | NotJson => inl (HTTPException 401 "Invalid session")
  | JsonObject (Some u) =>
      if String.eqb u EmptyString
      then inl (HTTPException 401 "Invalid session")
      else inr u
  | JsonObject None => inl (HTTPException 401 "Invalid session")
  | JsonOther => inl AttributeError
  end.

(** [try: username = get_current_user(request) except HTTPException:
    username = "guest"], as the three chat handlers start. *)
Definition username_or_guest (c : session_cookie) : exn + string :=
  match get_current_user c with
  | inl (HTTPException _ _) => inr "guest"
  | r => r
  end.

(** ** [main.py]: the [/get] handler *)

Module Main.

(** A value of [user_sessions]. *)
Record session : Type := mkSession {
  InDiagnosis : bool;
  InCounselor : bool;
  total : Z;
  userScore : Z;
  userText_diagnosis : string;
  predicted_class : option string
}.

Definition set_total (v : Z) (s : session) : session :=
  mkSession (InDiagnosis s) (InCounselor s) v (userScore s)
            (userText_diagnosis s) (predicted_class s).
Definition add_total (d : Z) (s : session) : session :=
  set_total (total s + d) s.
Definition add_userScore (d : Z) (s : session) : session :=
  mkSession (InDiagnosis s) (InCounselor s) (total s) (userScore s + d)
            (userText_diagnosis s) (predicted_class s).
Definition append_text (t : string) (s : session) : session :=
  mkSession (InDiagnosis s) (InCounselor s) (total s) (userScore s)
            (userText_diagnosis s +:+ t) (predicted_class s).
Definition set_predicted_class (d : string) (s : session) : session :=
  mkSession (InDiagnosis s) (InCounselor s) (total s) (userScore s)
            (userText_diagnosis s) (Some d).

(** The session [get_response] creates for a user name it has not seen. *)
Definition new_session : session :=
  mkSession false false 0 0 EmptyString None.

(** The session the [/diagnosis] page stores: the narrative starts as one
    space. *)
Definition diagnosis_session : session :=
  mkSession true false 1 0 " " None.

(** The session the [/counsel] page stores. *)
Definition counsel_session : session :=
  mkSession false true 0 0 EmptyString None.

Definition is_class (s : session) (name : string) : bool :=
  match predicted_class s with
  | Some d => String.eqb d name
  | None => false
  end.

(** *** The replies *)

Definition ask_triggers : string :=
  "Can you share any recent events or experiences that might have triggered these feelings or symptoms?".
Definition ask_traumas : string :=
  "Have you experienced any significant traumas in the past, or do you have any habits or behaviors that you think might be affecting your mental health?".

Definition intro_anxiety : string :=
  "Now could please answer a few symptoms related questions, to help me diagnose the severity of you disorder? <br> Answer 0 : For Not At All <br> Answer 1: If several days <br> Answer 2: If More than half the days <br> Answer 3: If Nearly every day <br> <br>  Feeling nervous, anxious, or on edge ? <br><br> NOTE: Please provide Numerical Input !".
Definition intro_ptsd : string :=
  "Now could please answer a few symptoms related questions, to help me diagnose the severity of you disorder? <br> NOTE: Please Answer in 'yes' or 'no' ! <br><br> Sometimes things happen to people that are unusually or especially frightening, horrible, or traumatic. <br> For example: <br> - A serious accident or fire <br> - A physical or sexual assualt or abuse <br> - Seeing someone getting killed or get seriously injured <br> - Having a loved one die through homicide or sucide <br><br> Have you ever experienced this kind of event? ".
Definition intro_depression : string :=
  "Now could please answer a few symptoms related questions, to help me diagnose the severity of you disorder? <br> Answer 0 : For Not At All <br> Answer 1: If several days <br> Answer 2: If More than half the days <br> Answer 3: If Nearly every day <br> <br>Little interest or pleasure in doing things ? <br><br> NOTE: Please provide Numerical Input !".
Definition intro_addiction : string :=
  "Now could please answer a few symptoms related questions, to help me diagnose the severity of you disorder? <br> Answer 0 : For Not At All <br> Answer 1: For Sometimes <br> Answer 2: For Often <br> Answer 3: For Always <br> <br>  How often do you have strong urges or cravings to use the substance or engage in the behavior? <br><br> NOTE: Please provide Numerical input !".

Definition you_have (d intro : string) : string :=
  "You have: " +:+ d +:+ "<br>" +:+ intro.

Definition reprompt_likert : string :=
  "Please Provide Answers in Required Format !".
Definition reprompt_yes_no : string :=
  "Please Provide Answer in Required Format".
Definition thank_you : string :=
  "Thank you for using our website. Refresh the page for another diagnosis".
Definition visit_a_page : string :=
  "Please visit the diagnosis or counseling page to start a session.".
Definition generic_failure : string :=
  "I'm sorry, I'm having trouble responding right now. Please try again later.".
Definition ptsd_no_trauma : string :=
  "PTSDs are generally caused due to a traumatic event. I would recommend you to consult our PTSD Mental Health Counsellor or Consider taking Professional Help.".

Definition refer_or_try (d level : string) : string :=
  "The Severity of your " +:+ d +:+ " Disorder is " +:+ level +:+
  ".<br>You can refer to professional help or You can also try our " +:+ d +:+
  " Health Counsellor".
Definition recommend_and_try (d level : string) : string :=
  "The Severity of your " +:+ d +:+ " Disorder is " +:+ level +:+
  ".<br>I recommend taking professional help. Along with that You can also try our " +:+
  d +:+ " Health Counsellor".
Definition try_but_recommend (d level : string) : string :=
  "The Severity of your " +:+ d +:+ " Disorder is " +:+ level +:+
  ".<br>You can try our " +:+ d +:+
  " Health Counsellor, but I strongly recommend taking professional help".
Definition recommend_however (d level : string) : string :=
  "The Severity of your " +:+ d +:+ " Disorder is " +:+ level +:+
  ".<br>I strongly recommend taking professional help however you can also try our " +:+
  d +:+ " Health Counsellor".

(** *** The severity tables: the label stored and the message returned *)

Definition anxiety_result (score : Z) : string * string :=
  if (0 <=? score) && (score <=? 4)
  then ("Minimal", refer_or_try "Anxiety" "Minimal")
  else if (5 <=? score) && (score <=? 9)
  then ("Mild", refer_or_try "Anxiety" "Mild")
  else if (10 <=? score) && (score <=? 14)
  then ("Moderate", recommend_and_try "Anxiety" "Moderate")
  else ("Severe", try_but_recommend "Anxiety" "Severe").

Definition depression_result (score : Z) : string * string :=
  if (0 <=? score) && (score <=? 4)
  then ("Minimal", refer_or_try "Depression" "Minimal")
  else if (5 <=? score) && (score <=? 9)
  then ("Mild", refer_or_try "Depression" "Mild")
  else if (10 <=? score) && (score <=? 14)
  then ("Moderate", recommend_and_try "Depression" "Moderate")
  else if (15 <=? score) && (score <=? 19)
  then ("Moderately Severe", try_but_recommend "Depression" "Moderately Severe")
  else ("Severe", recommend_however "Depression" "Quite Severe").

Definition ptsd_result (score : Z) : string * string :=
  if (0 <=? score) && (score <? 3)
  then ("Mild", refer_or_try "PTSD" "Mild")
  else ("Moderate/Severe", try_but_recommend "PTSD" "Moderate/Severe").

Definition addiction_result (score : Z) : string * string :=
  if (0 <=? score) && (score <=? 6)
  then ("Mild", refer_or_try "Addiction" "Mild")
  else if (7 <=? score) && (score <=? 15)
  then ("Moderate", refer_or_try "Addiction" "Moderate")
  else if (16 <=? score) && (score <=? 24)
  then ("Mildly Severe", recommend_and_try "Addiction" "Mildly Severe")
  else ("Severe", try_but_recommend "Addiction" "Severe").

Definition likert_answers : list string := ["0"; "1"; "2"; "3"].
Definition yes_answers : list string :=
  ["yes"; "yES"; "yEs"; "yeS"; "YeS"; "YEs"].
Definition no_answers : list string := ["no"; "nO"].

(** *** The items after the first, which the introduction asks *)

Definition gad_2 : string :=
  "Not being able to stop or control worrying".
Definition gad_3 : string :=
  "Worrying too much about different things".
Definition gad_4 : string :=
  "Trouble relaxing".
Definition gad_5 : string :=
  "Being so restless that it is hard to sit still".
Definition gad_6 : string :=
  "Becoming easily annoyed or irritable".
Definition gad_7 : string :=
  "Feeling afraid, as if something awful might happen".
Definition phq_2 : string :=
  "Feeling down, depressed, or hopeless".
Definition phq_3 : string :=
  "Trouble falling or staying asleep, or sleeping too much".
Definition phq_4 : string :=
  "Feeling tired or having little energy".
Definition phq_5 : string :=
  "Poor appetite or overeating".
Definition phq_6 : string :=
  "Feeling bad about yourself or that you are a failure or have let yourself or your family down".
Definition phq_7 : string :=
  "Trouble concentrating on things, such as reading the newspaper or watching television".
Definition phq_8 : string :=
  "Moving or speaking so slowly that other people could not have noticed. Or the opposite being so figety or restless that you have been moving around a lot more than usual".
Definition phq_9 : string :=
  "Thoughts that you would be better off dead, or of hurting yourself".
Definition addiction_2 : string :=
  "How often do you find it difficult to control or stop using the substance or engaging in the behavior?".
Definition addiction_3 : string :=
  "How often do you need to use more of the substance or engage more in the behavior to achieve the same effect?".
Definition addiction_4 : string :=
  "How often do you experience physical or emotional withdrawal symptoms when you try to stop using the substance or engaging in the behavior?".
Definition addiction_5 : string :=
  "How often do you neglect your responsibilities at work, school, or home due to your use of the substance or engagement in the behavior?".
Definition addiction_6 : string :=
  "How often do you continue to use the substance or engage in the behavior despite knowing it causes problems in your life?".
Definition addiction_7 : string :=
  "How often do you spend a lot of time obtaining, using, or recovering from the substance or behavior?".
Definition addiction_8 : string :=
  "How often do you lose interest in other activities or hobbies because of your use of the substance or engagement in the behavior?".
Definition addiction_9 : string :=
  "How often do you continue to use the substance or engage in the behavior in situations where it is physically dangerous (e.g., driving, operating machinery)?".
Definition addiction_10 : string :=
  "How often do you feel guilty or ashamed about your use of the substance or engagement in the behavior?".
Definition pcptsd_2 : string :=
  "Had nightmares about it or thought about it when you did not want to?".
Definition pcptsd_3 : string :=
  "Tried hard not to think about it or went out of your way to avoid situations that reminded you of it?".
Definition pcptsd_4 : string :=
  "Were constantly on guard, watchful or easily startled?".
Definition pcptsd_5 : string :=
  "Felt numb or detached from others, activities, or your surroundings?".
Definition pcptsd_6 : string :=
  "Felt guilty or unable to stop blaming yourself or others for the event or any problems the event may have caused".

Section Handler.
Context (E : services) (username : string) (msg : string).

(** [session['userScore'] += int(msg); session['total'] += 1; return q]. *)
Definition score_and_ask (q : string) : M session (option string) :=
  do n <- lift (int msg);
  do _ <- update_sess (add_userScore n);
  do _ <- update_sess (add_total 1);
  ret (Some q).

(** The last item of a Likert questionnaire: the score is completed, the
    counter becomes -1, and the severity read from [table] is stored. *)
Definition score_and_finish (table : Z -> string * string)
    : M session (option string) :=
  do n <- lift (int msg);
  do _ <- update_sess (add_userScore n);
  do _ <- update_sess (set_total (-1));
  do _ <- get_db E;
  do s <- get_sess;
  let '(label, message) := table (userScore s) in
  do _ <- execute_update E (update_severity label) username;
  ret (Some message).

(** A branch that returns [None] has executed no [return]: the handler goes
    on to the statement after the [if] chain. *)
Definition anxiety_items : M session (option string) :=
  do s <- get_sess;
  if str_in msg likert_answers then
    if total s =? 4 then
      score_and_ask gad_2
    else if total s =? 5 then
      score_and_ask gad_3
    else if total s =? 6 then
      score_and_ask gad_4
    else if total s =? 7 then
      score_and_ask gad_5
    else if total s =? 8 then
      score_and_ask gad_6
    else if total s =? 9 then
      score_and_ask gad_7
    else if total s =? 10 then
      score_and_finish anxiety_result
    else ret None
  else ret (Some reprompt_likert).

Definition depression_items : M session (option string) :=
  do s <- get_sess;
  if str_in msg likert_answers then
    if total s =? 4 then
      score_and_ask phq_2
    else if total s =? 5 then
      score_and_ask phq_3
    else if total s =? 6 then
      score_and_ask phq_4
    else if total s =? 7 then
      score_and_ask phq_5
    else if total s =? 8 then
      score_and_ask phq_6
    else if total s =? 9 then
      score_and_ask phq_7
    else if total s =? 10 then
      score_and_ask phq_8
    else if total s =? 11 then
      score_and_ask phq_9
    else if total s =? 12 then
      score_and_finish depression_result
    else ret None
  else ret (Some reprompt_likert).

Definition addiction_items : M session (option string) :=
  do s <- get_sess;
  if str_in msg likert_answers then
    if total s =? 4 then
      score_and_ask addiction_2
    else if total s =? 5 then
      score_and_ask addiction_3
    else if total s =? 6 then
      score_and_ask addiction_4
    else if total s =? 7 then
      score_and_ask addiction_5
    else if total s =? 8 then
      score_and_ask addiction_6
    else if total s =? 9 then
      score_and_ask addiction_7
    else if total s =? 10 then
      score_and_ask addiction_8
    else if total s =? 11 then
      score_and_ask addiction_9
    else if total s =? 12 then
      score_and_ask addiction_10
    else if total s =? 13 then
      score_and_finish addiction_result
    else ret None
  else ret (Some reprompt_likert).

(** A yes/no item of the PTSD questionnaire after the first: [yes] scores a
    point, either answer moves on to [q]. *)
Definition ptsd_item (q : string) : M session (option string) :=
  if str_in (lower msg) yes_answers then
    do _ <- update_sess (add_userScore 1);
    do _ <- update_sess (add_total 1);
    ret (Some q)
  else if str_in (lower msg) no_answers then
    do _ <- update_sess (add_total 1);
    ret (Some q)
  else ret (Some reprompt_yes_no).

Definition ptsd_items : M session (option string) :=
  do s <- get_sess;
  if total s =? 4 then
    if str_in (lower msg) no_answers then
      do _ <- update_sess (set_total 15);
      do _ <- get_db E;
      do _ <- execute_update E (update_severity "Minimal") username;
      ret (Some ptsd_no_trauma)
    else if str_in (lower msg) yes_answers then
      do _ <- update_sess (add_total 1);
      ret (Some pcptsd_2)
    else ret (Some reprompt_yes_no)
  else if total s =? 5 then
    ptsd_item pcptsd_3
  else if total s =? 6 then
    ptsd_item pcptsd_4
  else if total s =? 7 then
    ptsd_item pcptsd_5
  else if total s =? 8 then
    ptsd_item pcptsd_6
  else if total s =? 9 then
    do answered <-
      (if str_in (lower msg) yes_answers then
         do _ <- update_sess (add_userScore 1);
         do _ <- update_sess (set_total (-1));
         ret true
       else if str_in (lower msg) no_answers then
         do _ <- update_sess (set_total (-1));
         ret true
       else ret false);
    if (answered : bool) then
      do _ <- get_db E;
      do s' <- get_sess;
      let '(label, message) := ptsd_result (userScore s') in
      do _ <- execute_update E (update_severity label) username;
      ret (Some message)
    else ret (Some reprompt_yes_no)
  else ret None.

(** Step 3: the narrative is complete, the classifier is called on it and
    the disorder is stored. *)
Definition classify : M session (option string) :=
  do _ <- update_sess (add_total 1);
  do _ <- update_sess (append_text (" " +:+ msg));
  do s <- get_sess;
  do d <- predict_disorder E (userText_diagnosis s);
  do _ <- update_sess (set_predicted_class d);
  do _ <- get_db E;
  do _ <- execute_update E (update_disorder d) username;
  if String.eqb d "Anxiety" then ret (Some (you_have d intro_anxiety))
  else if String.eqb d "PTSD" then ret (Some (you_have d intro_ptsd))
  else if String.eqb d "Depression" then ret (Some (you_have d intro_depression))
  else if String.eqb d "Addiction" then ret (Some (you_have d intro_addiction))
  else ret None.

Definition questionnaire : M session (option string) :=
  do s <- get_sess;
  if is_class s "Anxiety" then anxiety_items
  else if is_class s "Depression" then depression_items
  else if is_class s "PTSD" then ptsd_items
  else if is_class s "Addiction" then addiction_items
  else ret None.

Definition diagnosis_workflow : M session string :=
  do s <- get_sess;
  do returned <-
    (if total s =? 1 then
       do _ <- update_sess (add_total 1);
       do _ <- update_sess (append_text msg);
       ret (Some ask_triggers)
     else if total s =? 2 then
       do _ <- update_sess (add_total 1);
       do _ <- update_sess (append_text (" " +:+ msg));
       ret (Some ask_traumas)
     else if total s =? 3 then classify
     else if 4 <=? total s then questionnaire
     else ret None);
  match returned with
  | Some reply => ret reply
  | None => ret thank_you
  end.

Definition counseling_workflow : M session string :=
  let session_id := "counsel_" +:+ username in
  do ai_response <- get_counseling_response E msg session_id;
  do _ <- get_db E;
  do o <- get_outside;
  do history <-
    match store o !! session_id with
    | Some messages => ret (join " | " messages)
    | None =>
        do current_history <- select_current_history E username;
        let new_entry := "User: " +:+ msg +:+ " | AI: " +:+ ai_response in
        ret (if String.eqb current_history EmptyString
             then new_entry
             else current_history +:+ " | " +:+ new_entry)
    end;
  do _ <- execute_update E (update_history history) username;
  ret ai_response.

(** The body of the handler's [try]. *)
Definition respond : M session string :=
  do s <- get_sess;
  if InDiagnosis s && negb (InCounselor s) then diagnosis_workflow
  else if negb (InDiagnosis s) && InCounselor s then counseling_workflow
  else ret visit_a_page.

End Handler.

(** [get_response]: the user name (or [guest]), the session of that name,
    created when missing, and the body under [except Exception]. *)
Definition get_response (E : services) (msg : string) (cookie : session_cookie)
    (w : gmap string session * outside)
    : (gmap string session * outside) * (exn + string) :=
  match username_or_guest cookie with
  | inl e => (w, inl e)
  | inr username =>
      let user_sessions :=
        match w.1 !! username with
        | Some _ => w.1
        | None => <[username := new_session]> w.1
        end in
      let session := default new_session (user_sessions !! username) in
      let '((session', o'), r) :=
        try_except (respond E username msg) (fun _ => ret generic_failure)
                   (session, w.2) in
      ((<[username := session']> user_sessions, o'), r)
  end.

(** The [/diagnosis] page: a signed-in user gets a fresh diagnosis session,
    anyone else is redirected. *)
Definition diagnosis_page (cookie : session_cookie)
    (w : gmap string session * outside)
    : (gmap string session * outside) * (exn + string) :=
  match get_current_user cookie with
  | inl (HTTPException _ _) => (w, inr "redirect:/")
  | inl e => (w, inl e)
  | inr username =>
      ((<[username := diagnosis_session]> w.1, w.2), inr "diagnosis.html")
  end.

End Main.

(** ** [diagnosis.py]: the [/diagnosis/chat] handler *)

Module Diagnosis.

(** A value of [diagnosis_sessions]. *)
Record session : Type := mkSession {
  step : Z;
  user_input : string;
  score : Z;
  disorder : option string
}.

Definition set_step (v : Z) (s : session) : session :=
  mkSession v (user_input s) (score s) (disorder s).
Definition add_step (d : Z) (s : session) : session :=
  set_step (step s + d) s.
Definition set_score (v : Z) (s : session) : session :=
  mkSession (step s) (user_input s) v (disorder s).
Definition append_input (t : string) (s : session) : session :=
  mkSession (step s) (user_input s +:+ t) (score s) (disorder s).
Definition set_disorder (d : string) (s : session) : session :=
  mkSession (step s) (user_input s) (score s) (Some d).

Definition new_session : session := mkSession 1 EmptyString 0 None.

(** [models.DiagnosisRequest] and [models.DiagnosisResponse]. *)
Record DiagnosisRequest : Type := mkRequest {
  req_user_input : string;
  req_step : Z
}.

Record DiagnosisResponse : Type := mkResponse {
  message : string;
  resp_disorder : option string;
  resp_severity : option string;
  completed : bool
}.

Definition ask_triggers : string :=
  "Can you share any recent events or experiences that might have triggered these feelings or symptoms?".
Definition ask_traumas : string :=
  "Have you experienced any significant traumas in the past, or do you have any habits or behaviors that you think might be affecting your mental health?".
Definition diagnosis_completed : string :=
  "Diagnosis completed. Please consult a healthcare professional.".

Definition anxiety_questions : list string :=
  [ "Not being able to stop or control worrying";
    "Worrying too much about different things";
    "Trouble relaxing";
    "Being so restless that it is hard to sit still";
    "Becoming easily annoyed or irritable";
    "Feeling afraid, as if something awful might happen" ].

Definition ptsd_questions : list string :=
  [ "Tried hard not to think about it or went out of your way to avoid situations that reminded you of it?";
    "Were constantly on guard, watchful or easily startled?";
    "Felt numb or detached from others, activities, or your surroundings?";
    "Felt guilty or unable to stop blaming yourself or others?" ].

Definition calculate_anxiety_severity (score : Z) : string :=
  if score <=? 4 then "Minimal"
  else if score <=? 9 then "Mild"
  else if score <=? 14 then "Moderate"
  else "Severe".

Section Handler.
Context (E : services) (username : string).

Definition save_severity (severity : string) : M session unit :=
  do _ <- get_db E;
  execute_update E (update_severity severity) username.

Definition is_disorder (d : option string) (name : string) : bool :=
  match d with
  | Some x => String.eqb x name
  | None => false
  end.

Definition handle_questionnaire_response (d : option string) (answer : string)
    : M session DiagnosisResponse :=
  do s <- get_sess;
  let step0 := step s in
  let score0 := score s in
  if is_disorder d "Anxiety" then
    do n <- lift (int answer);
    let score1 := score0 + n in
    if step0 - 3 <? Z.of_nat (length anxiety_questions) then
      do _ <- update_sess (add_step 1);
      do _ <- update_sess (set_score score1);
      do q <- lift (py_index anxiety_questions (step0 - 4));
      ret (mkResponse q None None false)
    else
      let severity := calculate_anxiety_severity score1 in
      do _ <- update_sess (set_step (-1));
      do _ <- get_db E;
      do _ <- execute_update E (update_severity severity) username;
      ret (mkResponse ("The severity of your Anxiety Disorder is " +:+ severity +:+ ".")
                      d (Some severity) true)
  else if is_disorder d "PTSD" then
    if step0 =? 4 then
      if str_in (lower answer) ["no"; "n"] then
        let severity := "Minimal" in
        do _ <- update_sess (set_step (-1));
        do _ <- save_severity severity;
        ret (mkResponse "PTSD requires a traumatic event. Consider consulting a counselor."
                        d (Some severity) true)
      else
        do _ <- update_sess (set_step 5);
        ret (mkResponse "Had nightmares about it or thought about it when you did not want to?"
                        None None false)
    else
      let score1 := score0 + (if str_in (lower answer) ["yes"; "y"] then 1 else 0) in
      if step0 - 4 <? Z.of_nat (length ptsd_questions) then
        do _ <- update_sess (add_step 1);
        do _ <- update_sess (set_score score1);
        do q <- lift (py_index ptsd_questions (step0 - 5));
        ret (mkResponse q None None false)
      else
        let severity := if 3 <=? score1 then "Moderate/Severe" else "Mild" in
        do _ <- update_sess (set_step (-1));
        do _ <- save_severity severity;
        ret (mkResponse ("The severity of your PTSD is " +:+ severity +:+ ".")
                        d (Some severity) true)
  else ret (mkResponse diagnosis_completed None None true).

(** The body of the handler's [try]; [None] is Python's [None], returned
    when no branch of the [if] chain returns. *)
Definition respond (r : DiagnosisRequest) : M session (option DiagnosisResponse) :=
  let answer := req_user_input r in
  let step0 := req_step r in
  if step0 =? 1 then
    do _ <- update_sess (append_input answer);
    do _ <- update_sess (set_step 2);
    ret (Some (mkResponse ask_triggers None None false))
  else if step0 =? 2 then
    do _ <- update_sess (append_input (" " +:+ answer));
    do _ <- update_sess (set_step 3);
    ret (Some (mkResponse ask_traumas None None false))
  else if step0 =? 3 then
    do _ <- update_sess (append_input (" " +:+ answer));
    do s <- get_sess;
    do d <- predict_disorder E (user_input s);
    do _ <- update_sess (set_disorder d);
    do _ <- update_sess (set_step 4);
    do _ <- get_db E;
    do _ <- execute_update E (update_disorder d) username;
    if String.eqb d "Anxiety" then
      ret (Some (mkResponse ("You have: " +:+ d +:+ ". Now could you answer a few symptoms related questions to help diagnose the severity? Answer 0: Not at all, 1: Several days, 2: More than half the days, 3: Nearly every day. Feeling nervous, anxious, or on edge?")
                            (Some d) None false))
    else if String.eqb d "PTSD" then
      ret (Some (mkResponse ("You have: " +:+ d +:+ ". Have you ever experienced a traumatic event? (yes/no)")
                            (Some d) None false))
    else if String.eqb d "Depression" then
      ret (Some (mkResponse ("You have: " +:+ d +:+ ". Little interest or pleasure in doing things? (0-3 scale)")
                            (Some d) None false))
    else if String.eqb d "Addiction" then
      ret (Some (mkResponse ("You have: " +:+ d +:+ ". How often do you have strong urges or cravings? (0: Never, 1: Sometimes, 2: Often, 3: Always)")
                            (Some d) None false))
    else ret None
  else if 4 <=? step0 then
    do s <- get_sess;
    do resp <- handle_questionnaire_response (disorder s) answer;
    ret (Some resp)
  else ret None.

End Handler.

Definition internal_server_error : exn :=
  HTTPException 500 "Internal server error".

(** [diagnosis_chat]: the session is looked up under
    [diagnosis_<username>], and the branch is chosen by the step the request
    carries. *)
Definition diagnosis_chat (E : services) (r : DiagnosisRequest)
    (cookie : session_cookie) (w : gmap string session * outside)
    : (gmap string session * outside) * (exn + option DiagnosisResponse) :=
  match username_or_guest cookie with
  | inl e => (w, inl e)
  | inr username =>
      let session_key := "diagnosis_" +:+ username in
      let diagnosis_sessions :=
        match w.1 !! session_key with
        | Some _ => w.1
        | None => <[session_key := new_session]> w.1
        end in
      let session := default new_session (diagnosis_sessions !! session_key) in
      let '((session', o'), res) :=
        try_except (respond E username r)
                   (fun _ => raise internal_server_error) (session, w.2) in
      ((<[session_key := session']> diagnosis_sessions, o'), res)
  end.

End Diagnosis.

(** ** [counseling.py]: the [/counsel/chat] handler *)

Module Counseling.

(** [models.CounselingRequest] and [models.CounselingResponse]. *)
Record CounselingRequest : Type := mkRequest {
  req_user_input : string;
  req_session_id : string
}.

Record CounselingResponse : Type := mkResponse {
  message : string;
  session_id : string
}.

Definition internal_server_error : exn :=
  HTTPException 500 "Internal server error".

Section Handler.
Context (E : services) (username : string).

(** The body of the handler's [try]. *)
Definition respond (r : CounselingRequest) : M unit CounselingResponse :=
  let answer := req_user_input r in
  let sid :=
    if String.eqb (req_session_id r) EmptyString
    then "counsel_" +:+ username
    else req_session_id r in
  do ai_response <- get_counseling_response E answer sid;
  do _ <- get_db E;
  do current_history <- select_current_history E username;
  let new_entry := "User: " +:+ answer +:+ " | AI: " +:+ ai_response in
  let updated_history :=
    if String.eqb current_history EmptyString
    then new_entry
    else current_history +:+ " | " +:+ new_entry in
  do _ <- execute_update E (update_history updated_history) username;
  ret (mkResponse ai_response sid).

End Handler.

Definition counsel_chat (E : services) (r : CounselingRequest)
    (cookie : session_cookie) (o : outside)
    : outside * (exn + CounselingResponse) :=
  match username_or_guest cookie with
  | inl e => (o, inl e)
  | inr username =>
      let '((_, o'), res) :=
        try_except (respond E username r)
                   (fun _ => raise internal_server_error) (tt, o) in
      (o', res)
  end.

End Counseling.

(** ** Runs: a client sending several messages in a row *)

(** The replies of [/get] to the messages [msgs], sent one after the other
    with the same cookie, and the state they leave. *)
Fixpoint get_responses (E : services) (cookie : session_cookie)
    (msgs : list string) (w : gmap string Main.session * outside)
    : (gmap string Main.session * outside) * list (exn + string) :=
  match msgs with
  | [] => (w, [])
  | msg :: rest =>
      let '(w1, reply) := Main.get_response E msg cookie w in
      let '(w2, replies) := get_responses E cookie rest w1 in
      (w2, reply :: replies)
  end.

(** The same for [/diagnosis/chat]. *)
Fixpoint diagnosis_chats (E : services) (cookie : session_cookie)
    (reqs : list Diagnosis.DiagnosisRequest)
    (w : gmap string Diagnosis.session * outside)
    : (gmap string Diagnosis.session * outside)
      * list (exn + option Diagnosis.DiagnosisResponse) :=
  match reqs with
  | [] => (w, [])
  | r :: rest =>
      let '(w1, reply) := Diagnosis.diagnosis_chat E r cookie w in
      let '(w2, replies) := diagnosis_chats E cookie rest w1 in
      (w2, reply :: replies)
  end.

(** The sum of the answers of a Likert questionnaire, as [int] reads them;
    an answer [int] rejects counts for nothing. *)
Definition answer_value (msg : string) : Z :=
  match int msg with
  | inr n => n
  | inl _ => 0
  end.

Definition answers_total (msgs : list string) : Z :=
  foldr (fun msg acc => answer_value msg + acc) 0 msgs.


(** The classifier raises on [text]: the model is not loaded, the model
    itself raises, or its argmax is no index of [class_labels]. *)
Definition classifier_raises (E : services) (text : string) : Prop :=
  model_loaded E = false \/
  (exists e, model_argmax E text = inl e) \/
  (exists i, model_argmax E text = inr i /\ class_labels !! i = None).

(** [new] is [old] with something appended. *)
Definition extends (old new : string) : Prop :=
  exists rest : string, new = old +:+ rest.

(** ** Yes/no answers of a run *)

(** One point for an answer whose lower-case form is [yes]. *)
Definition yes_value (msg : string) : Z :=
  if String.eqb (lower msg) "yes" then 1 else 0.

Definition yes_total (msgs : list string) : Z :=
  foldr (fun msg acc => yes_value msg + acc) 0 msgs.

(** The answers the PTSD items of [/get] accept. *)
Definition yes_or_no (msg : string) : Prop :=
  lower msg = "yes" \/ lower msg = "no".

(** ** The items of the questionnaires of [/get] *)

(** The items after the first, which the reply to the classification asks:
    the item at position [i] is the reply to a valid answer given when the
    counter is [4 + i]. *)
Definition anxiety_later_items : list string :=
  [Main.gad_2; Main.gad_3; Main.gad_4; Main.gad_5; Main.gad_6; Main.gad_7].

Definition depression_later_items : list string :=
  [Main.phq_2; Main.phq_3; Main.phq_4; Main.phq_5; Main.phq_6; Main.phq_7;
   Main.phq_8; Main.phq_9].

Definition addiction_later_items : list string :=
  [Main.addiction_2; Main.addiction_3; Main.addiction_4; Main.addiction_5;
   Main.addiction_6; Main.addiction_7; Main.addiction_8; Main.addiction_9;
   Main.addiction_10].

Definition ptsd_later_items : list string :=
  [Main.pcptsd_2; Main.pcptsd_3; Main.pcptsd_4; Main.pcptsd_5; Main.pcptsd_6].

(** ** The bound on the score of a [/get] session *)

(** No score before the first item, at most three points for each item
    answered, and never more than the thirty points of the longest
    questionnaire. *)
Definition score_bounded (s : Main.session) : Prop :=
  0 <= Main.userScore s <= 30 /\
  (0 <= Main.total s <= 3 -> Main.userScore s = 0) /\
  (4 <= Main.total s <= 13 -> Main.userScore s <= 3 * (Main.total s - 4)).

(** ** More of Python's strings *)

(** [s.startswith(prefix)] and [s.endswith(suffix)]. *)
Fixpoint startswith (s prefix : string) {struct prefix} : bool :=
  match prefix with
  | EmptyString => true
  | String p prefix' =>
      match s with
      | EmptyString => false
      | String c s' => Ascii.eqb c p && startswith s' prefix'
      end
  end.

Definition endswith (s suffix : string) : bool :=
  startswith (rev_onto s EmptyString) (rev_onto suffix EmptyString).

(** [s[start:stop]]: a negative index counts from the end, and both indices
    are brought into the string. *)
Definition py_slice (s : string) (start stop : Z) : string :=
  let n := Z.of_nat (String.length s) in
  let clamp (i : Z) := if i <? 0 then Z.max (i + n) 0 else Z.min i n in
  let a := clamp start in
  let b := clamp stop in
  String.substring (Z.to_nat a) (Z.to_nat (b - a)) s.

(** ** What a page handler returns *)

(** A value of a template's context: a string, a boolean or [None]. *)
Inductive context_value : Type :=
| Text (s : string)
| Flag (b : bool)
| Null.

(** What a response does to the [session] cookie of the browser.  A cookie
    that is set is given as [get_current_user] will read it on the next
    request. *)
Inductive cookie_change : Type :=
| KeepCookie
| SetCookie (c : session_cookie)
| DeleteCookie.

(** A redirection or a rendered template with its context (the [request]
    entry apart). *)
Inductive page : Type :=
| RedirectResponse (url : string) (status_code : Z) (cookie : cookie_change)
| TemplateResponse (name : string) (context : list (string * context_value)).

(** ** The [users] table with its columns *)

(** [signup], [login] and [home] depend on the columns of the [users] table,
    which the chat handlers above do not: for them the table is modelled as
    SQLite holds it, the names of its columns and its rows in the order of
    insertion.  A value is a text or [NULL]. *)
Module Sql.

Definition value : Type := option string.

Record table : Type := mkTable {
  columns : list string;
  primary_key : option string;
  records : list (list value)
}.

(** The position of a column; SQLite compares the names of columns without
    regard to case. *)
Fixpoint column_index (name : string) (cols : list string) : option nat :=
  match cols with
  | [] => None
  | c :: cols' =>
      if String.eqb (lower c) (lower name) then Some 0%nat
      else S <$> column_index name cols'
  end.

Fixpoint column_indexes (names cols : list string) : option (list nat) :=
  match names with
  | [] => Some []
  | name :: names' =>
      match column_index name cols, column_indexes names' cols with
      | Some i, Some rest => Some (i :: rest)
      | _, _ => None
      end
  end.

Definition cell (row : list value) (i : nat) : value :=
  default None (row !! i).

Definition holds (v : value) (text : string) : bool :=
  match v with
  | Some x => String.eqb x text
  | None => false
  end.

(** [SELECT cols FROM users WHERE username = ?] and [fetchone()]: an error
    when the table or one of the columns is missing, otherwise the first row
    whose [username] is the given text, if there is one. *)
Definition select_one (db : option table) (cols : list string)
    (username : string) : exn + option (list value) :=
  match db with
  | None => inl DatabaseError
  | Some t =>
      match column_index "username" (columns t),
            column_indexes cols (columns t) with
      | Some k, Some wanted =>
          inr (match List.filter (fun row => holds (cell row k) username)
                                 (records t) with
               | row :: _ => Some (map (cell row) wanted)
               | [] => None
               end)
      | _, _ => inl DatabaseError
      end
  end.

(** [INSERT INTO users VALUES (?, ..., ?)] and [commit()]: an error when the
    table is missing, when it has not as many columns as there are values,
    and when a row already holds the value given for the primary key;
    otherwise the row is added. *)
Definition insert_values (db : option table) (values : list value)
    : exn + option table :=
  match db with
  | None => inl DatabaseError
  | Some t =>
      if negb (length values =? length (columns t))%nat
      then inl DatabaseError
      else
        let taken :=
          match primary_key t with
          | Some key =>
              match column_index key (columns t) with
              | Some k =>
                  match cell values k with
                  | Some text =>
                      existsb (fun row => holds (cell row k) text) (records t)
                  | None => false
                  end
              | None => false
              end
          | None => false
          end in
        if taken then inl DatabaseError
        else inr (Some (mkTable (columns t) (primary_key t)
                                (records t ++ [values])))
  end.

End Sql.

(** ** [database.py] *)

Module Database.

(** The columns of [CREATE TABLE IF NOT EXISTS users]. *)
Definition users_columns : list string :=
  ["username"; "password"; "date"; "firstname"; "lastname"; "email";
   "disorder"; "severity"; "history"].

(** [init_db], as far as the [users] table goes: a table that exists is
    left as it is. *)
Definition init_db (db : option Sql.table) : option Sql.table :=
  match db with
  | Some t => Some t
  | None => Some (Sql.mkTable users_columns (Some "username") [])
  end.

End Database.

(** The tables [signup] is written for, going by the values it inserts and
    by what [login] and [home] select: eight columns, of which the first is
    [username], the second [password], the third [date], the seventh
    [disorder] and the eighth [severity], and no primary key other than the
    first column. *)
Definition column_at (t : Sql.table) (name : string) (i : nat) : bool :=
  match Sql.column_index name (Sql.columns t) with
  | Some j => (j =? i)%nat
  | None => false
  end.

Definition fits_signup (t : Sql.table) : bool :=
  (length (Sql.columns t) =? 8)%nat
  && column_at t "username" 0 && column_at t "password" 1
  && column_at t "date" 2 && column_at t "disorder" 6
  && column_at t "severity" 7
  && match Sql.primary_key t with
     | Some key => column_at t key 0
     | None => true
     end.

(** ** [auth.py] *)

(** The two functions of the [bcrypt] package; [hashpw] stands for
    [bcrypt.hashpw(password, bcrypt.gensalt())], with the salt that call
    draws. *)
Record bcrypt : Type := mkBcrypt {
  hashpw : string -> exn + string;
  checkpw : string -> string -> exn + bool
}.

Module Auth.
Section Bcrypt.
Context (B : bcrypt).

Definition hash_password (password : string) : exn + string :=
  match hashpw B password with
  | inr hashed => inr hashed
  | inl _ => inl (HTTPException 500 "Password hashing failed")
  end.

(** [hashed_password] is what the table holds: on [NULL] the call of
    [encode] raises inside the [try]. *)
Definition verify_password (password : string) (hashed_password : Sql.value)
    : bool :=
  match hashed_password with
  | Some hashed =>
      match checkpw B password hashed with
      | inr b => b
      | inl _ => false
      end
  | None => false
  end.

Definition authenticate_user (username password : string)
    (db_conn : option Sql.table) : bool :=
  match Sql.select_one db_conn ["password"] username with
  | inr (Some result) => verify_password password (Sql.cell result 0)
  | inr None => false
  | inl _ => false
  end.

End Bcrypt.

(** The cookie holds the JSON text of an object with the members
    [username] and [created_at]. *)
Definition create_session_response (username redirect_url : string) : page :=
  RedirectResponse redirect_url 302 (SetCookie (JsonObject (Some username))).

Definition clear_session_response (redirect_url : string) : page :=
  RedirectResponse redirect_url 302 DeleteCookie.

End Auth.

(** ** The pages of [main.py] and of the routers *)

(** A value of a form, [None] when the field is missing: [not value]. *)
Definition missing (v : option string) : bool :=
  match v with
  | Some text => String.eqb text EmptyString
  | None => true
  end.

Definition shown_value (v : Sql.value) : context_value :=
  match v with
  | Some text => Text text
  | None => Null
  end.

Definition failure (name message : string) : page :=
  TemplateResponse name [("error", Flag true); ("message", Text message)].

(** ** The history pages *)

(** What both [history_page] handlers make of the fetched row: the stored
    text, without the wrapping of a printed tuple or of a quoted string, or a
    notice when there is no row or no text. *)
Definition shown_history (result : option (option string)) : string :=
  match result with
  | Some (Some history) =>
      if String.eqb history EmptyString
      then "No conversation history available."
      else if startswith history "('" && endswith history "',)"
      then py_slice history 2 (-3)
      else if startswith history "'" && endswith history "'"
      then py_slice history 1 (-1)
      else history
  | _ => "No conversation history available."
  end.

Section HistoryPages.
Context (E : services).

(** [SELECT history FROM users WHERE username = ?] and [fetchone()]: no
    row, or the column of the row. *)
Definition select_history {S} (username : string)
    : M S (option (option string)) :=
  if db_available E
  then do o <- get_outside;
       ret (history <$> users o !! username)
  else raise DatabaseError.

(** The guarded part of [history_page], the same in [main.py] and in
    [counseling.py]. *)
Definition history_page_body (username : string) : M unit page :=
  try_except
    (do _ <- get_db E;
     do result <- select_history username;
     ret (TemplateResponse "history.html"
            [("input_string", Text (shown_history result))]))
    (fun _ =>
       ret (TemplateResponse "history.html"
              [("input_string", Text "Error retrieving history.")])).
End HistoryPages.

Module MainPages.

(** [history_page] of [main.py]. *)
Definition history_page (E : services) (cookie : session_cookie) (o : outside)
    : outside * (exn + page) :=
  match get_current_user cookie with
  | inl (HTTPException _ _) => (o, inr (RedirectResponse "/" 302 KeepCookie))
  | inl e => (o, inl e)
  | inr username =>
      let '((_, o'), r) := history_page_body E username (tt, o) in (o', r)
  end.

(** [counsel_page] of [main.py]: the session is put into the counselling
    workflow, then the [date] column of the user is set to today.  The rows
    of the model hold no [date] column, so the [UPDATE] leaves them as they
    are; it still needs the database, and is under no [try]. *)
Definition counsel_page (E : services) (cookie : session_cookie)
    (w : gmap string Main.session * outside)
    : (gmap string Main.session * outside) * (exn + page) :=
  match get_current_user cookie with
  | inl (HTTPException _ _) => (w, inr (RedirectResponse "/" 302 KeepCookie))
  | inl e => (w, inl e)
  | inr username =>
      let user_sessions := <[username := Main.counsel_session]> w.1 in
      let '((_, o'), r) :=
        (do _ <- get_db E;
         do _ <- execute_update E (fun row => row) username;
         ret (TemplateResponse "counsel.html" [("username", Text username)]))
          (tt, w.2) in
      ((user_sessions, o'), r)
  end.

(** [login] of [main.py]. *)
Definition login (E : services) (B : bcrypt) (name password : option string)
    (db : option Sql.table) : exn + page :=
  if missing name || missing password
  then inr (failure "login.html" "Please enter both username and password")
  else
    let username := default EmptyString name in
    let password := default EmptyString password in
    if negb (db_available E) then inl DatabaseError
    else if Auth.authenticate_user B username password db
    then inr (Auth.create_session_response username "/home")
    else inr (failure "login.html" "Invalid username or password").

(** [signup] of [main.py]: the table after the request, and the answer. *)
Definition signup (E : services) (B : bcrypt)
    (firstn lastn username password : option string) (db : option Sql.table)
    : option Sql.table * (exn + page) :=
  if missing firstn || missing lastn || missing username || missing password
  then (db, inr (failure "signup.html" "All fields are required"))
  else
    let firstname := default EmptyString firstn in
    let lastname := default EmptyString lastn in
    let username := default EmptyString username in
    let password := default EmptyString password in
    if negb (db_available E) then (db, inl DatabaseError)
    else
      match Sql.select_one db ["username"] username with
      | inl e => (db, inl e)
      | inr (Some _) =>
          (db, inr (failure "signup.html"
                      "Username already exists. Please choose a different username."))
      | inr None =>
          match Auth.hash_password B password with
          | inl e => (db, inl e)
          | inr hashed_password =>
              match Sql.insert_values db
                      [Some username; Some hashed_password; Some "date";
                       Some firstname; Some lastname; Some "NA";
                       Some "Not-Diagnosed"; Some "Not-Diagnosed"] with
              | inr db' =>
                  (db', inr (Auth.create_session_response username "/home"))
              | inl _ =>
                  (db, inr (failure "signup.html"
                              "Error creating account. Please try again."))
              end
          end
      end.

(** [home] of [main.py]. *)
Definition home (E : services) (cookie : session_cookie)
    (db : option Sql.table) : exn + page :=
  match get_current_user cookie with
  | inl (HTTPException _ _) => inr (RedirectResponse "/" 302 KeepCookie)
  | inl e => inl e
  | inr username =>
      if negb (db_available E) then inl DatabaseError
      else
        match Sql.select_one db ["disorder"; "severity"; "date"] username with
        | inl e => inl e
        | inr result =>
            let '(disorder, severity, date_val, diagnosed, counseled) :=
              match result with
              | Some row =>
                  (Sql.cell row 0, Sql.cell row 1, Sql.cell row 2,
                   negb (Sql.holds (Sql.cell row 0) "Not-Diagnosed"),
                   negb (Sql.holds (Sql.cell row 2) "date"))
              | None =>
                  (Some "Not-Diagnosed", Some "Not-Diagnosed", Some "date",
                   false, false)
              end in
            inr (TemplateResponse "home.html"
                   [("username", Text username);
                    ("date", shown_value date_val);
                    ("diagnosed", Flag diagnosed);
                    ("severity", shown_value severity);
                    ("disorder", shown_value disorder);
                    ("counseled", Flag counseled)])
        end
  end.

(** [logout] of [main.py]. *)
Definition logout : page := Auth.clear_session_response "/".

End MainPages.

Module CounselingPages.

(** [history_page] of [counseling.py]. *)
Definition history_page (E : services) (cookie : session_cookie) (o : outside)
    : outside * (exn + page) :=
  match get_current_user cookie with
  | inl (HTTPException _ _) => (o, inr (TemplateResponse "landing.html" []))
  | inl e => (o, inl e)
  | inr username =>
      let '((_, o'), r) := history_page_body E username (tt, o) in (o', r)
  end.

(** [counsel_page] of [counseling.py]: the [date] column of the user is set
    to today, under no [try]; the rows of the model hold no [date] column. *)
Definition counsel_page (E : services) (cookie : session_cookie) (o : outside)
    : outside * (exn + page) :=
  match get_current_user cookie with
  | inl (HTTPException _ _) => (o, inr (TemplateResponse "landing.html" []))
  | inl e => (o, inl e)
  | inr username =>
      let '((_, o'), r) :=
        (do _ <- get_db E;
         do _ <- execute_update E (fun row => row) username;
         ret (TemplateResponse "counsel.html" [("username", Text username)]))
          (tt, o) in
      (o', r)
  end.

End CounselingPages.

Module DiagnosisPages.

(** [diagnosis_page] of [diagnosis.py]: the diagnosis session of the user
    is replaced by a new one. *)
Definition diagnosis_page (cookie : session_cookie)
    (sessions : gmap string Diagnosis.session)
    : gmap string Diagnosis.session * (exn + page) :=
  match get_current_user cookie with
  | inl (HTTPException _ _) => (sessions, inr (TemplateResponse "landing.html" []))
  | inl e => (sessions, inl e)
  | inr username =>
      (<["diagnosis_" +:+ username := Diagnosis.new_session]> sessions,
       inr (TemplateResponse "diagnosis.html" [("username", Text username)]))
  end.

End DiagnosisPages.

(** ** The PTSD answers of [/diagnosis/chat] *)

(** One point for an answer whose lower-case form is [yes] or [y]. *)
Definition ptsd_point (msg : string) : Z :=
  if str_in (lower msg) ["yes"; "y"] then 1 else 0.

Definition ptsd_points (msgs : list string) : Z :=
  foldr (fun msg acc => ptsd_point msg + acc) 0 msgs.
(** ** Sample inputs *)

(** Services that answer: the classifier picks label 1 ([Anxiety]). *)
Definition sample_services : services :=
  mkServices true (fun _ => inr 1%nat) true (fun _ _ => inr "I hear you.") true.

Definition alice : session_cookie := JsonObject (Some "alice").

Definition alice_row : user_row := mkRow "Anxiety" "Not-Diagnosed" None.

Definition alice_registered : outside :=
  mkOutside {[ "alice" := alice_row ]} ∅ [].

(** Alice on the last Anxiety item, with 3 points so far. *)
Definition alice_last_item : Main.session :=
  Main.mkSession true false 10 3 " a b c" (Some "Anxiety").


(** Alice on the first PTSD item, in [/get] and in [/diagnosis/chat]. *)
Definition alice_first_ptsd_item : Main.session :=
  Main.mkSession true false 4 0 " a b c" (Some "PTSD").

Definition alice_chat_ptsd : Diagnosis.session :=
  Diagnosis.mkSession 4 "a b c" 0 (Some "PTSD").

(** Alice on the first Anxiety item of [/diagnosis/chat], and after that
    questionnaire has ended with 9 points. *)
Definition alice_chat_anxiety : Diagnosis.session :=
  Diagnosis.mkSession 4 "a b c" 0 (Some "Anxiety").

Definition alice_chat_done : Diagnosis.session :=
  Diagnosis.mkSession (-1) "a b c" 9 (Some "Anxiety").

Definition alice_chat_depression : Diagnosis.session :=
  Diagnosis.mkSession 4 "a b c" 0 (Some "Depression").

(** A request of [/diagnosis/chat] that answers a questionnaire item. *)
Definition answer (text : string) : Diagnosis.DiagnosisRequest :=
  Diagnosis.mkRequest text 4.

(** Services whose models were never loaded, over a database that answers,
    and services whose database does not answer. *)
Definition services_without_models : services :=
  mkServices false (fun _ => inl ServiceError) false
             (fun _ _ => inl ServiceError) true.

Definition services_without_database : services :=
  mkServices true (fun _ => inr 1%nat) true (fun _ _ => inr "I hear you.") false.

Definition bob_row : user_row := mkRow "PTSD" "Mild" (Some "User: hi | AI: hello").

Definition alice_and_bob : outside :=
  mkOutside {[ "alice" := alice_row; "bob" := bob_row ]}
            {[ "counsel_bob" := ["hi"; "hello"] ]} ["x y z"].

(** Alice at the end of the narrative, and in the counselling workflow. *)
Definition alice_narrative_end : Main.session :=
  Main.mkSession true false 3 0 " a b" None.

Definition alice_chat_narrative_end : Diagnosis.session :=
  Diagnosis.mkSession 3 "a b" 0 None.

(** Bob comes back to counselling after the process was restarted: his row
    holds the history of an earlier turn, the LangChain store is empty. *)
Definition bob : session_cookie := JsonObject (Some "bob").

Definition bob_after_restart : outside :=
  mkOutside {[ "bob" := bob_row ]} ∅ [].

(** Alice right after the classification, and after her questionnaire. *)
Definition alice_classified : Main.session :=
  Main.mkSession true false 4 0 " a b c" (Some "Anxiety").

Definition alice_finished : Main.session :=
  Main.mkSession true false (-1) 9 " a b c" (Some "Anxiety").
(** A [bcrypt] whose hash of a password is the password behind a marker. *)
Definition sample_bcrypt : bcrypt :=
  mkBcrypt (fun password => inr ("$2b$" +:+ password))
           (fun password hashed => inr (String.eqb hashed ("$2b$" +:+ password))).

(** A [users] table of eight columns, as [signup] expects it, with the row
    of Bob. *)
Definition eight_columns : Sql.table :=
  Sql.mkTable
    ["username"; "password"; "date"; "firstname"; "lastname"; "history";
     "disorder"; "severity"]
    (Some "username")
    [[Some "bob"; Some "$2b$hunter2"; Some "2024-05-01"; Some "Bob"; Some "B";
      Some "NA"; Some "PTSD"; Some "Mild"]].

(** Alice on the answer that ends the Anxiety questionnaire of
    [/diagnosis/chat], with 3 points so far. *)
Definition alice_chat_last_item : Diagnosis.session :=
  Diagnosis.mkSession 9 "a b c" 3 (Some "Anxiety").
(** * Properties *)

(** ** Evaluating a handler on a symbolic state *)

Ltac unfold_monad :=
  cbv beta iota delta
    [bind ret raise lift try_except get_sess update_sess get_outside
     update_outside get_db execute_update select_current_history fst snd].

Ltac unfold_main :=
  cbv beta iota delta
    [Main.respond Main.diagnosis_workflow Main.counseling_workflow
     Main.questionnaire Main.classify Main.anxiety_items
     Main.depression_items Main.addiction_items Main.ptsd_items
     Main.ptsd_item Main.score_and_ask Main.score_and_finish
     Main.is_class Main.set_total Main.add_total Main.add_userScore
     Main.append_text Main.set_predicted_class
     Main.InDiagnosis Main.InCounselor Main.total Main.userScore
     Main.userText_diagnosis Main.predicted_class].

Ltac unfold_diagnosis :=
  cbv beta iota zeta delta
    [Diagnosis.respond Diagnosis.handle_questionnaire_response
     Diagnosis.save_severity Diagnosis.is_disorder
     Diagnosis.set_step Diagnosis.add_step Diagnosis.set_score
     Diagnosis.append_input Diagnosis.set_disorder
     Diagnosis.step Diagnosis.user_input Diagnosis.score Diagnosis.disorder
     Diagnosis.req_user_input Diagnosis.req_step].

(** Symbolic execution of a handler: in a goal [run = r -> P r], case
    analysis on the test the run is waiting for, until it has returned. *)
Ltac next_test t :=
  lazymatch t with
  | (if ?b then _ else _) _ => next_test b
  | (match ?x with _ => _ end) _ => next_test x
  | if ?b then _ else _ => next_test b
  | match ?x with _ => _ end => next_test x
  | (_, _) => fail
  | _ => destruct t eqn:?
  end.

Ltac compute_tests :=
  cbn [andb orb negb String.eqb Ascii.eqb Bool.eqb Z.eqb Z.leb Z.ltb
       Z.compare Pos.eqb Pos.compare Pos.compare_cont].

Ltac execute :=
  compute_tests;
  repeat (lazymatch goal with
          | |- ?t = _ -> _ => next_test t
          end; compute_tests).

(** To prove [run = result]: execute [run] and compare what it returns. *)
Ltac by_execution :=
  lazymatch goal with
  | |- ?run = ?result =>
      let Hx := fresh "Hx" in
      enough (forall r, run = r -> r = result) as Hx
        by (exact (Hx _ eq_refl))
  end.

Ltac z_tests :=
  repeat match goal with
         | H : (_ =? _) = true |- _ => apply Z.eqb_eq in H
         | H : (_ =? _) = false |- _ => apply Z.eqb_neq in H
         | H : (_ <=? _) = true |- _ => apply Z.leb_le in H
         | H : (_ <=? _) = false |- _ => apply Z.leb_gt in H
         | H : (_ <? _) = true |- _ => apply Z.ltb_lt in H
         | H : (_ <? _) = false |- _ => apply Z.ltb_ge in H
         end.

(** Opening the records of a handler's state, and reading their fields. *)
Ltac main_fields :=
  cbn [Main.InDiagnosis Main.InCounselor Main.total Main.userScore
       Main.userText_diagnosis Main.predicted_class Main.set_total
       Main.add_total Main.add_userScore classifier_calls store users
       with_users fst snd].

Ltac open_session s :=
  destruct s as [? ? ? ? ? ?];
  cbn [Main.InDiagnosis Main.InCounselor Main.total Main.userScore
       Main.userText_diagnosis Main.predicted_class] in *;
  subst.

Ltac store_lookups :=
  repeat match goal with
         | H : <[_ := _]> _ !! _ = _ |- _ =>
             rewrite lookup_insert_eq in H
         end;
  simplify_eq.

Ltac open_dsession s :=
  destruct s as [? ? ? ?];
  cbn [Diagnosis.step Diagnosis.user_input Diagnosis.score
       Diagnosis.disorder] in *;
  subst.

Ltac open_request req :=
  destruct req as [? ?];
  cbn [Diagnosis.req_step Diagnosis.req_user_input] in *.

Ltac diagnosis_fields :=
  cbn [Diagnosis.step Diagnosis.user_input Diagnosis.score Diagnosis.disorder
       Diagnosis.message Diagnosis.resp_disorder Diagnosis.resp_severity
       Diagnosis.completed classifier_calls store users with_users fst snd].

(** The rows a handler leaves alone. *)
Ltac row_frame :=
  cbn [fst snd users with_users with_store with_call];
  rewrite ?dom_alter_L, ?lookup_alter_ne by congruence;
  split; reflexivity.

(** The LangChain histories a handler leaves alone. *)
Ltac store_frame :=
  cbn [fst snd store with_users with_store with_call];
  rewrite ?lookup_insert_ne by congruence;
  reflexivity.

(** ** The answers a questionnaire accepts *)

Lemma likert_cases (msg : string) :
  str_in msg Main.likert_answers = true ->
  msg = "0" \/ msg = "1" \/ msg = "2" \/ msg = "3".
Proof.
  unfold str_in, Main.likert_answers. cbn [existsb].
  rewrite !orb_true_iff, !String.eqb_eq. intuition discriminate.
Qed.

Lemma int_likert (msg : string) :
  str_in msg Main.likert_answers = true ->
  exists n, int msg = inr n /\ 0 <= n <= 3.
Proof.
  intros H. apply likert_cases in H as [-> | [-> | [-> | ->]]];
    [exists 0 | exists 1 | exists 2 | exists 3]; (split; [reflexivity | lia]).
Qed.

Lemma answer_value_likert (msg : string) :
  str_in msg Main.likert_answers = true -> 0 <= answer_value msg <= 3.
Proof.
  intros H. unfold answer_value.
  destruct (int_likert msg H) as (n & -> & Hn). exact Hn.
Qed.

(** A lowered string has no capital letter left. *)
Lemma lower_ascii_idempotent (c : ascii) :
  lower_ascii (lower_ascii c) = lower_ascii c.
Proof. destruct c as [[] [] [] [] [] [] [] []]; reflexivity. Qed.

Lemma lower_idempotent (s : string) : lower (lower s) = lower s.
Proof.
  induction s as [| c s IH]; [reflexivity |].
  cbn [lower]. rewrite lower_ascii_idempotent, IH. reflexivity.
Qed.

(** So [msg.lower() in ["yes", "yES", ...]] holds exactly when the lowered
    message is [yes], and [msg.lower() in ["no", "nO"]] exactly when it is
    [no]. *)
Lemma yes_answers_spec (msg : string) :
  str_in (lower msg) Main.yes_answers = true <-> lower msg = "yes".
Proof.
  split.
  - intros H. pose proof (lower_idempotent msg) as Hidem.
    unfold str_in, Main.yes_answers in H. cbn [existsb] in H.
    rewrite !orb_true_iff, !String.eqb_eq in H.
    destruct H as [H | [H | [H | [H | [H | [H | H]]]]]];
      try exact H; try discriminate H;
      rewrite H in Hidem; discriminate Hidem.
  - intros ->. reflexivity.
Qed.

Lemma no_answers_spec (msg : string) :
  str_in (lower msg) Main.no_answers = true <-> lower msg = "no".
Proof.
  split.
  - intros H. pose proof (lower_idempotent msg) as Hidem.
    unfold str_in, Main.no_answers in H. cbn [existsb] in H.
    rewrite !orb_true_iff, !String.eqb_eq in H.
    destruct H as [H | [H | H]];
      try exact H; try discriminate H;
      rewrite H in Hidem; discriminate Hidem.
  - intros ->. reflexivity.
Qed.

Lemma no_answers_lower (msg : string) :
  lower msg = "no" -> str_in (lower msg) Main.no_answers = true.
Proof. intros ->. reflexivity. Qed.

(** ** The severity tables *)

Lemma anxiety_result_label (score : Z) :
  0 <= score ->
  (Main.anxiety_result score).1 = Diagnosis.calculate_anxiety_severity score.
Proof.
  intros H. unfold Main.anxiety_result, Diagnosis.calculate_anxiety_severity.
  repeat match goal with
         | |- context [?a <=? ?b] => destruct (Z.leb_spec a b)
         end; cbn; try reflexivity; lia.
Qed.

Lemma calculate_anxiety_severity_table (score : Z) :
  (score <= 4 -> Diagnosis.calculate_anxiety_severity score = "Minimal") /\
  (5 <= score <= 9 -> Diagnosis.calculate_anxiety_severity score = "Mild") /\
  (10 <= score <= 14 -> Diagnosis.calculate_anxiety_severity score = "Moderate") /\
  (15 <= score -> Diagnosis.calculate_anxiety_severity score = "Severe").
Proof.
  unfold Diagnosis.calculate_anxiety_severity.
  repeat split; intros H;
    repeat match goal with
           | |- context [?a <=? ?b] => destruct (Z.leb_spec a b)
           end; try reflexivity; lia.
Qed.

(** [get_response] on a user name that has a session: the body runs on that
    session and the result is written back. *)
Lemma get_response_known (E : services) (msg : string) (cookie : session_cookie)
    (u : string) (sessions : gmap string Main.session) (o : outside)
    (s : Main.session) :
  username_or_guest cookie = inr u ->
  sessions !! u = Some s ->
  Main.get_response E msg cookie (sessions, o) =
    let r := try_except (Main.respond E u msg)
                        (fun _ => ret Main.generic_failure) (s, o) in
    ((<[u := r.1.1]> sessions, r.1.2), r.2).
Proof.
  intros Hu Hs. unfold Main.get_response. rewrite Hu. cbn [fst snd].
  rewrite Hs. cbn [default]. rewrite Hs. cbn [default].
  destruct (try_except _ _ _) as [[s' o'] r]. reflexivity.
Qed.

Lemma try_except_returns {S A} (m : M S A) (h : exn -> M S A) (st st' : S * outside)
    (a : A) :
  m st = (st', inr a) -> try_except m h st = (st', inr a).
Proof. intros H. unfold try_except. rewrite H. reflexivity. Qed.


(** [except Exception: return message] keeps what the body wrote. *)
Lemma try_except_reply_state {S} (m : M S string) (x : string) (st : S * outside) :
  (try_except m (fun _ => ret x) st).1 = (m st).1.
Proof.
  unfold try_except, ret. destruct (m st) as [st' [e | a]]; reflexivity.
Qed.

(** [except Exception: raise HTTPException(500)] too, and what leaves the
    handler is a result or that one exception. *)
Lemma try_except_raise_state {S A} (m : M S A) (e0 : exn) (st : S * outside) :
  (try_except m (fun _ => raise e0) st).1 = (m st).1.
Proof.
  unfold try_except, raise. destruct (m st) as [st' [e | a]]; reflexivity.
Qed.

Lemma try_except_raise_result {S A} (m : M S A) (e0 : exn) (st : S * outside) :
  (try_except m (fun _ => raise e0) st).2
    = match (m st).2 with
      | inl _ => inl e0
      | inr a => inr a
      end.
Proof.
  unfold try_except, raise. destruct (m st) as [st' [e | a]]; reflexivity.
Qed.

Lemma try_except_reply_result {S} (m : M S string) (x : string) (st : S * outside) :
  (try_except m (fun _ => ret x) st).2
    = match (m st).2 with
      | inl _ => inr x
      | inr a => inr a
      end.
Proof.
  unfold try_except, ret. destruct (m st) as [st' [e | a]]; reflexivity.
Qed.

(** What [get_response] returns is what its guarded body returns on the
    session of the user, a new one when the user has none. *)
Lemma get_response_result (E : services) (msg : string) (cookie : session_cookie)
    (u : string) (w : gmap string Main.session * outside) :
  username_or_guest cookie = inr u ->
  (Main.get_response E msg cookie w).2
    = (try_except (Main.respond E u msg) (fun _ => ret Main.generic_failure)
         (default Main.new_session (w.1 !! u), w.2)).2.
Proof.
  intros Hu. unfold Main.get_response. rewrite Hu.
  destruct (w.1 !! u) as [s |] eqn:Hs; cbn [default].
  - rewrite Hs. cbn [default].
    destruct (try_except _ _ _) as [[s' o'] r]. reflexivity.
  - rewrite lookup_insert_eq. cbn [default].
    destruct (try_except _ _ _) as [[s' o'] r]. reflexivity.
Qed.

Lemma diagnosis_chat_result (E : services) (req : Diagnosis.DiagnosisRequest)
    (cookie : session_cookie) (u : string)
    (w : gmap string Diagnosis.session * outside) :
  username_or_guest cookie = inr u ->
  (Diagnosis.diagnosis_chat E req cookie w).2
    = (try_except (Diagnosis.respond E u req)
         (fun _ => raise Diagnosis.internal_server_error)
         (default Diagnosis.new_session (w.1 !! ("diagnosis_" +:+ u)), w.2)).2.
Proof.
  intros Hu. unfold Diagnosis.diagnosis_chat. rewrite Hu. cbv zeta.
  destruct (w.1 !! ("diagnosis_" +:+ u)) as [s |] eqn:Hs; cbn [default].
  - rewrite Hs. cbn [default].
    destruct (try_except _ _ _) as [[s' o'] r]. reflexivity.
  - rewrite lookup_insert_eq. cbn [default].
    destruct (try_except _ _ _) as [[s' o'] r]. reflexivity.
Qed.

Lemma counsel_chat_result (E : services) (creq : Counseling.CounselingRequest)
    (cookie : session_cookie) (u : string) (o : outside) :
  username_or_guest cookie = inr u ->
  Counseling.counsel_chat E creq cookie o
    = let r := try_except (Counseling.respond E u creq)
                 (fun _ => raise Counseling.internal_server_error) (tt, o) in
      (r.1.2, r.2).
Proof.
  intros Hu. unfold Counseling.counsel_chat. rewrite Hu.
  destruct (try_except _ _ _) as [[[] o'] r]. reflexivity.
Qed.

(** A classifier that raises leaves its call in the record and an exception
    in the handler. *)
Lemma predict_disorder_raises {S} (E : services) (text : string) (st : S * outside) :
  classifier_raises E text ->
  exists e, predict_disorder E text st = ((st.1, with_call text st.2), inl e).
Proof.
  intros [Hl | [[e He] | (i & Hi & Hnone)]];
    unfold predict_disorder; unfold_monad.
  - rewrite Hl. cbn [negb]. eexists. reflexivity.
  - destruct (model_loaded E); cbn [negb]; [| eexists; reflexivity].
    rewrite He. eexists. reflexivity.
  - destruct (model_loaded E); cbn [negb]; [| eexists; reflexivity].
    rewrite Hi, Hnone. eexists. reflexivity.
Qed.

(** ** Strings *)

Lemma append_cons (x : ascii) (a b : string) :
  String x a +:+ b = String x (a +:+ b).
Proof. reflexivity. Qed.

Lemma append_assoc (a b c : string) : (a +:+ b) +:+ c = a +:+ (b +:+ c).
Proof.
  induction a as [| x a IH]; [reflexivity |].
  rewrite !append_cons, IH. reflexivity.
Qed.

Lemma append_empty_r (a : string) : a +:+ EmptyString = a.
Proof.
  induction a as [| x a IH]; [reflexivity |].
  rewrite append_cons, IH. reflexivity.
Qed.

Lemma extends_refl (a : string) : extends a a.
Proof. exists EmptyString. symmetry. apply append_empty_r. Qed.

Lemma extends_append (a b : string) : extends a (a +:+ b).
Proof. exists b. reflexivity. Qed.

(** Joining a list that got two more messages appends them to the joined
    text. *)
Lemma join_snoc (sep : string) (l : list string) (x : string) :
  l <> [] -> join sep (l ++ [x]) = join sep l +:+ sep +:+ x.
Proof.
  induction l as [| a l IH]; [congruence |]. intros _.
  destruct l as [| b l].
  - reflexivity.
  - change (join sep ((a :: b :: l) ++ [x]))
      with (a +:+ sep +:+ join sep ((b :: l) ++ [x])).
    rewrite IH by discriminate.
    change (join sep (a :: b :: l)) with (a +:+ sep +:+ join sep (b :: l)).
    rewrite !append_assoc. reflexivity.
Qed.

Lemma join_extends (sep : string) (l : list string) (x y : string) :
  extends (join sep l) (join sep (l ++ [x; y])).
Proof.
  destruct l as [| a l].
  - exists (join sep [x; y]). reflexivity.
  - replace ((a :: l) ++ [x; y])%list with (((a :: l) ++ [x]) ++ [y])%list
      by (rewrite <- app_assoc; reflexivity).
    rewrite join_snoc by (destruct l; discriminate).
    rewrite join_snoc by discriminate.
    rewrite append_assoc. apply extends_append.
Qed.

(** ** The [/get] handler, branch by branch *)

Section MainBranches.
Context (E : services) (u msg : string) (s : Main.session) (o : outside).
Hypothesis Hd : Main.InDiagnosis s = true.
Hypothesis Hc : Main.InCounselor s = false.

(** A counter below 1 matches no step: nothing is written. *)
Lemma respond_below_first_step :
  Main.total s <= 0 ->
  Main.respond E u msg (s, o) = ((s, o), inr Main.thank_you).
Proof.
  intros Ht. by_execution.
  open_session s.
  unfold_main. unfold_monad. intros r. execute.
  all: intros <-; z_tests; try lia; reflexivity.
Qed.

(** An answer outside 0..3 to a Likert questionnaire. *)
Lemma respond_invalid_likert :
  4 <= Main.total s ->
  Main.predicted_class s = Some "Anxiety" \/
  Main.predicted_class s = Some "Depression" \/
  Main.predicted_class s = Some "Addiction" ->
  str_in msg Main.likert_answers = false ->
  Main.respond E u msg (s, o) = ((s, o), inr Main.reprompt_likert).
Proof.
  intros Ht Hp Hm. by_execution.
  open_session s.
  unfold_main. unfold_monad. rewrite Hm. intros r.
  destruct Hp as [-> | [-> | ->]]; compute_tests;
    execute; intros <-; z_tests; try lia; reflexivity.
Qed.

(** An answer that is neither yes nor no to a PTSD item. *)
Lemma respond_invalid_yes_no :
  4 <= Main.total s <= 9 ->
  Main.predicted_class s = Some "PTSD" ->
  str_in (lower msg) Main.yes_answers = false ->
  str_in (lower msg) Main.no_answers = false ->
  Main.respond E u msg (s, o) = ((s, o), inr Main.reprompt_yes_no).
Proof.
  intros Ht Hp Hy Hn. by_execution.
  open_session s.
  unfold_main. unfold_monad. rewrite Hy, Hn. intros r.
  compute_tests.
  execute; intros <-; z_tests; try lia; reflexivity.
Qed.

(** [no] to the first PTSD item: the counter jumps to 15 and Minimal is
    stored. *)
Lemma respond_ptsd_no_trauma :
  Main.total s = 4 ->
  Main.predicted_class s = Some "PTSD" ->
  str_in (lower msg) Main.no_answers = true ->
  db_available E = true ->
  Main.respond E u msg (s, o) =
    ((Main.set_total 15 s, with_users (alter (update_severity "Minimal") u) o),
     inr Main.ptsd_no_trauma).
Proof.
  intros Ht Hp Hn Hdb. by_execution.
  open_session s.
  unfold_main. unfold_monad. rewrite Hn, Hdb. intros r.
  compute_tests.
  execute; intros <-; reflexivity.
Qed.

(** A PTSD session whose counter is past the last item: nothing is asked
    and nothing is written. *)
Lemma respond_ptsd_past_items :
  10 <= Main.total s ->
  Main.predicted_class s = Some "PTSD" ->
  Main.respond E u msg (s, o) = ((s, o), inr Main.thank_you).
Proof.
  intros Ht Hp. by_execution.
  open_session s.
  unfold_main. unfold_monad. intros r.
  compute_tests.
  execute; intros <-; z_tests; try lia; reflexivity.
Qed.

(** A valid answer to a Likert item that is not the last one: the answer is
    added to the score, the counter moves on, and the next item is asked. *)
Lemma respond_likert_item (last : Z) :
  (Main.predicted_class s = Some "Anxiety" /\ last = 10) \/
  (Main.predicted_class s = Some "Depression" /\ last = 12) \/
  (Main.predicted_class s = Some "Addiction" /\ last = 13) ->
  4 <= Main.total s < last ->
  str_in msg Main.likert_answers = true ->
  exists q : string,
    q <> Main.reprompt_likert /\ q <> Main.thank_you /\
    Main.respond E u msg (s, o) =
      ((Main.add_total 1 (Main.add_userScore (answer_value msg) s), o), inr q).
Proof.
  intros Hp Ht Hm.
  unfold answer_value. destruct (int_likert msg Hm) as (n & Hint & _).
  rewrite Hint.
  assert (forall r, Main.respond E u msg (s, o) = r ->
            exists q, q <> Main.reprompt_likert /\ q <> Main.thank_you /\
              r = ((Main.add_total 1 (Main.add_userScore n s), o), inr q))
    as Hx; [| exact (Hx _ eq_refl)].
  open_session s.
  unfold_main. unfold_monad. rewrite Hm, Hint. intros r.
  destruct Hp as [[-> ->] | [[-> ->] | [-> ->]]];
    compute_tests;
    execute; intros <-; z_tests; try lia;
    (eexists; split; [| split; [| reflexivity]]; discriminate).
Qed.

(** The last item of a Likert questionnaire. *)
Lemma respond_likert_last_item (last : Z) (table : Z -> string * string) :
  (Main.predicted_class s = Some "Anxiety" /\ last = 10
     /\ table = Main.anxiety_result) \/
  (Main.predicted_class s = Some "Depression" /\ last = 12
     /\ table = Main.depression_result) \/
  (Main.predicted_class s = Some "Addiction" /\ last = 13
     /\ table = Main.addiction_result) ->
  Main.total s = last ->
  str_in msg Main.likert_answers = true ->
  db_available E = true ->
  Main.respond E u msg (s, o) =
    ((Main.set_total (-1) (Main.add_userScore (answer_value msg) s),
      with_users
        (alter (update_severity (table (Main.userScore s + answer_value msg)).1) u) o),
     inr (table (Main.userScore s + answer_value msg)).2).
Proof.
  intros Hp Ht Hm Hdb.
  unfold answer_value. destruct (int_likert msg Hm) as (n & Hint & _).
  rewrite Hint. by_execution.
  open_session s.
  unfold_main. unfold_monad. rewrite Hm, Hint, Hdb. intros r.
  destruct Hp as [(-> & -> & ->) | [(-> & -> & ->) | (-> & -> & ->)]];
    compute_tests;
    execute; intros <-; reflexivity.
Qed.

End MainBranches.

Section MainQuestionnaire.
Context (u msg : string) (s : Main.session).
Hypothesis Hd : Main.InDiagnosis s = true.
Hypothesis Hc : Main.InCounselor s = false.
Hypothesis Ht : 4 <= Main.total s \/ Main.total s <= 0.

(** Past the narrative, [/get] never calls the classifier, never touches the
    LangChain store, and keeps the session in the diagnosis workflow with
    its disorder and narrative; the counter stays outside the narrative
    steps. *)
Lemma respond_past_narrative (E : services) (o : outside) :
  let r := Main.respond E u msg (s, o) in
  classifier_calls r.1.2 = classifier_calls o /\
  store r.1.2 = store o /\
  Main.InDiagnosis r.1.1 = true /\
  Main.InCounselor r.1.1 = false /\
  Main.predicted_class r.1.1 = Main.predicted_class s /\
  Main.userText_diagnosis r.1.1 = Main.userText_diagnosis s /\
  (4 <= Main.total r.1.1 \/ Main.total r.1.1 <= 0).
Proof.
  intros r. assert (H : Main.respond E u msg (s, o) = r) by reflexivity.
  clearbody r. revert r H.
  open_session s.
  unfold_main. unfold_monad. intros r.
  execute.
  all: intros <-; z_tests; main_fields.
  all: repeat split; try reflexivity; lia.
Qed.

(** Past the narrative, the session [/get] leaves and the reply it gives
    depend on the session and the message only: not on the classifier, not
    on the counselling chain, not on the stored rows; the reply depends on
    the database only through whether it answers. *)
Lemma respond_deterministic (E1 E2 : services) (o1 o2 : outside) :
  let r1 := Main.respond E1 u msg (s, o1) in
  let r2 := Main.respond E2 u msg (s, o2) in
  r1.1.1 = r2.1.1 /\
  (db_available E1 = db_available E2 -> r1.2 = r2.2).
Proof.
  intros r1 r2.
  assert (H1 : Main.respond E1 u msg (s, o1) = r1) by reflexivity.
  assert (H2 : Main.respond E2 u msg (s, o2) = r2) by reflexivity.
  clearbody r1 r2. revert r2 H2. revert r1 H1.
  open_session s.
  unfold_main. unfold_monad. intros r1.
  execute.
  all: intros <- r2; execute.
  all: intros <-; z_tests; try lia; main_fields.
  all: split; [reflexivity | intros Hdb; try reflexivity; congruence].
Qed.

End MainQuestionnaire.

(** ** Failing services under [/get] *)

Section MainFailures.
Context (E : services) (u msg : string) (s : Main.session) (o : outside).

(** The third message of the narrative with a classifier that raises. *)
Lemma respond_classifier_raises :
  Main.InDiagnosis s = true -> Main.InCounselor s = false ->
  Main.total s = 3 ->
  classifier_raises E (Main.userText_diagnosis s +:+ " " +:+ msg) ->
  exists e, (Main.respond E u msg (s, o)).2 = inl e.
Proof.
  intros Hd Hc Ht Hraise.
  open_session s.
  destruct (predict_disorder_raises E _
              (Main.mkSession true false (3 + 1) userScore
                 (userText_diagnosis +:+ " " +:+ msg) predicted_class, o)
              Hraise) as [e He].
  exists e. unfold_main. unfold_monad. compute_tests. cbv beta iota.
  cbn [fst snd] in He. rewrite He. reflexivity.
Qed.

(** A counselling turn over a database that does not answer. *)
Lemma respond_counsel_no_database :
  Main.InDiagnosis s = false -> Main.InCounselor s = true ->
  db_available E = false ->
  exists e, (Main.respond E u msg (s, o)).2 = inl e.
Proof.
  intros Hd Hc Hdb.
  assert (forall r, Main.respond E u msg (s, o) = r -> exists e, r.2 = inl e)
    as Hx; [| exact (Hx _ eq_refl)].
  open_session s.
  unfold_main. unfold get_counseling_response. unfold_monad.
  rewrite Hdb. intros r. execute; intros <-; eexists; reflexivity.
Qed.

(** The last item of a questionnaire over a database that does not answer:
    the session has ended all the same. *)
Lemma respond_last_item_no_database :
  Main.InDiagnosis s = true -> Main.InCounselor s = false ->
  Main.predicted_class s = Some "Anxiety" -> Main.total s = 10 ->
  str_in msg Main.likert_answers = true ->
  db_available E = false ->
  Main.respond E u msg (s, o) =
    ((Main.set_total (-1) (Main.add_userScore (answer_value msg) s), o),
     inl DatabaseError).
Proof.
  intros Hd Hc Hp Ht Hm Hdb.
  unfold answer_value. destruct (int_likert msg Hm) as (n & Hint & _).
  rewrite Hint. by_execution.
  open_session s.
  unfold_main. unfold_monad. rewrite Hm, Hint, Hdb. intros r.
  execute; intros <-; reflexivity.
Qed.

End MainFailures.

(** ** The narrative steps of [/get] *)

Section MainNarrative.
Context (E : services) (u msg : string) (s : Main.session) (o : outside).
Hypothesis Hd : Main.InDiagnosis s = true.
Hypothesis Hc : Main.InCounselor s = false.

Lemma respond_first_message :
  Main.total s = 1 ->
  Main.respond E u msg (s, o) =
    ((Main.append_text msg (Main.add_total 1 s), o), inr Main.ask_triggers).
Proof.
  intros Ht. by_execution. open_session s.
  unfold_main. unfold_monad. intros r. execute; intros <-; reflexivity.
Qed.

Lemma respond_second_message :
  Main.total s = 2 ->
  Main.respond E u msg (s, o) =
    ((Main.append_text (" " +:+ msg) (Main.add_total 1 s), o),
     inr Main.ask_traumas).
Proof.
  intros Ht. by_execution. open_session s.
  unfold_main. unfold_monad. intros r. execute; intros <-; reflexivity.
Qed.

(** The third message: the classifier is called once, on the narrative with
    the message appended, and the counter is 4 whether or not the classifier
    and the database answer. *)
Lemma respond_third_message :
  Main.total s = 3 ->
  let r := Main.respond E u msg (s, o) in
  classifier_calls r.1.2
    = (classifier_calls o ++ [Main.userText_diagnosis s +:+ " " +:+ msg])%list /\
  Main.InDiagnosis r.1.1 = true /\
  Main.InCounselor r.1.1 = false /\
  Main.total r.1.1 = 4.
Proof.
  intros Ht r. assert (H : Main.respond E u msg (s, o) = r) by reflexivity.
  clearbody r. revert r H. open_session s.
  unfold_main. unfold predict_disorder. unfold_monad. intros r.
  execute.
  all: intros <-; main_fields; cbn [with_call classifier_calls].
  all: repeat split; reflexivity.
Qed.

End MainNarrative.

(** A run that starts past the narrative never calls the classifier. *)
Lemma get_responses_past_narrative (E : services) (cookie : session_cookie)
    (u : string) (msgs : list string) :
  username_or_guest cookie = inr u ->
  forall (sessions : gmap string Main.session) (o : outside) (s : Main.session),
    sessions !! u = Some s ->
    Main.InDiagnosis s = true -> Main.InCounselor s = false ->
    4 <= Main.total s \/ Main.total s <= 0 ->
    classifier_calls (get_responses E cookie msgs (sessions, o)).1.2
      = classifier_calls o.
Proof.
  intros Hu. induction msgs as [| msg rest IH]; intros sessions o s Hs Hd Hc Ht.
  - reflexivity.
  - cbn [get_responses].
    rewrite (get_response_known E msg cookie u sessions o s Hu Hs).
    cbv zeta. rewrite try_except_reply_state.
    destruct (respond_past_narrative u msg s Hd Hc Ht E o)
      as (Hcalls & _ & Hd' & Hc' & _ & _ & Ht').
    destruct (Main.respond E u msg (s, o)) as [[s' o'] reply] eqn:Hrun.
    cbn [fst snd] in *.
    specialize (IH (<[u := s']> sessions) o' s' (lookup_insert_eq _ _ _)
                  Hd' Hc' Ht').
    destruct (get_responses E cookie rest _) as [w2 replies].
    cbn [fst snd] in *. congruence.
Qed.

Lemma get_responses_cons (E : services) (cookie : session_cookie) (msg : string)
    (rest : list string) (w : gmap string Main.session * outside) :
  (get_responses E cookie (msg :: rest) w).1
    = (get_responses E cookie rest (Main.get_response E msg cookie w).1).1.
Proof.
  cbn [get_responses].
  destruct (Main.get_response E msg cookie w) as [w1 reply]. cbn [fst].
  destruct (get_responses E cookie rest w1) as [w2 replies]. reflexivity.
Qed.

(** A run from the first narrative step: no call during the first two
    messages, one call on the third, none after. *)
Lemma get_responses_narrative (E : services) (cookie : session_cookie)
    (u : string) (sessions : gmap string Main.session) (o : outside)
    (s : Main.session) (m1 m2 m3 : string) (rest : list string) :
  username_or_guest cookie = inr u ->
  sessions !! u = Some s ->
  Main.InDiagnosis s = true -> Main.InCounselor s = false ->
  Main.total s = 1 ->
  classifier_calls (get_responses E cookie [m1] (sessions, o)).1.2
    = classifier_calls o /\
  classifier_calls (get_responses E cookie [m1; m2] (sessions, o)).1.2
    = classifier_calls o /\
  classifier_calls
    (get_responses E cookie (m1 :: m2 :: m3 :: rest) (sessions, o)).1.2
    = (classifier_calls o
         ++ [Main.userText_diagnosis s +:+ m1 +:+ " " +:+ m2 +:+ " " +:+ m3])%list.
Proof.
  intros Hu Hs Hd Hc Ht.
  pose (s1 := Main.append_text m1 (Main.add_total 1 s)).
  pose (s2 := Main.append_text (" " +:+ m2) (Main.add_total 1 s1)).
  assert (Ht1 : Main.total s1 = 2)
    by (unfold s1, Main.append_text, Main.add_total, Main.set_total;
        cbn [Main.total]; lia).
  assert (H1 : (Main.get_response E m1 cookie (sessions, o)).1
               = (<[u := s1]> sessions, o)).
  { rewrite (get_response_known E m1 cookie u sessions o s Hu Hs).
    rewrite (try_except_returns _ _ _ _ _
               (respond_first_message E u m1 s o Hd Hc Ht)).
    reflexivity. }
  assert (H2 : (Main.get_response E m2 cookie (<[u := s1]> sessions, o)).1
               = (<[u := s2]> (<[u := s1]> sessions), o)).
  { rewrite (get_response_known E m2 cookie u _ o s1 Hu (lookup_insert_eq _ _ _)).
    rewrite (try_except_returns _ _ _ _ _
               (respond_second_message E u m2 s1 o Hd Hc Ht1)).
    reflexivity. }
  split; [| split].
  - rewrite get_responses_cons, H1. reflexivity.
  - rewrite !get_responses_cons, H1, H2. reflexivity.
  - rewrite !get_responses_cons, H1, H2.
    rewrite (get_response_known E m3 cookie u _ o s2 Hu (lookup_insert_eq _ _ _)).
    cbv zeta. rewrite try_except_reply_state.
    assert (Ht2 : Main.total s2 = 3)
      by (unfold s2, Main.append_text, Main.add_total, Main.set_total;
          cbn [Main.total]; lia).
    destruct (respond_third_message E u m3 s2 o Hd Hc Ht2)
      as (Hcalls & Hd3 & Hc3 & Ht3).
    destruct (Main.respond E u m3 (s2, o)) as [[s3 o3] reply].
    cbn [fst snd] in *.
    rewrite (get_responses_past_narrative E cookie u rest Hu _ o3 s3
               (lookup_insert_eq _ _ _) Hd3 Hc3 ltac:(lia)).
    rewrite Hcalls. unfold s2, s1.
    cbn [Main.append_text Main.add_total Main.set_total Main.userText_diagnosis].
    rewrite !append_assoc. reflexivity.
Qed.

(** ** A counselling turn *)

(** In [/get] the history written is the joined transcript LangChain holds
    for the session once the turn is added to it. *)
Lemma respond_counsel_turn (E : services) (u msg : string) (s : Main.session)
    (o : outside) (a : string) :
  Main.InDiagnosis s = false -> Main.InCounselor s = true ->
  counsel_loaded E = true -> db_available E = true ->
  rag_answer E msg (default [] (store o !! ("counsel_" +:+ u))) = inr a ->
  let transcript :=
    (default [] (store o !! ("counsel_" +:+ u)) ++ [msg; a])%list in
  let r := Main.respond E u msg (s, o) in
  r.2 = inr a /\
  r.1.1 = s /\
  users r.1.2 = alter (update_history (join " | " transcript)) u (users o).
Proof.
  intros Hd Hc Hl Hdb Hrag transcript r.
  assert (H : Main.respond E u msg (s, o) = r) by reflexivity.
  clearbody r. revert r H. subst transcript. open_session s.
  unfold_main. unfold get_counseling_response. unfold_monad.
  rewrite Hl, Hdb. intros r.
  execute; intros <-; cbn [fst snd store with_store] in *;
    store_lookups; cbn [fst snd users with_users with_store].
  repeat split.
Qed.

(** ** The score is never negative *)

Lemma respond_score_nonnegative (E : services) (u msg : string)
    (s : Main.session) (o : outside) :
  0 <= Main.userScore s ->
  0 <= Main.userScore (Main.respond E u msg (s, o)).1.1.
Proof.
  intros Hs.
  assert (forall r, Main.respond E u msg (s, o) = r -> 0 <= Main.userScore r.1.1)
    as Hx; [| exact (Hx _ eq_refl)].
  open_session s.
  unfold_main. unfold get_counseling_response, predict_disorder. unfold_monad.
  intros r. execute.
  all: intros <-; main_fields; try lia.
  all: match goal with
       | Hm : str_in ?m Main.likert_answers = true, Hi : int ?m = inr _ |- _ =>
           destruct (int_likert m Hm) as (n & Hn & Hrange);
           rewrite Hn in Hi; injection Hi as <-; lia
       end.
Qed.

(** ** A run of valid answers through a Likert questionnaire *)

Lemma get_responses_likert_items (E : services) (cookie : session_cookie)
    (u : string) (last : Z) (answers : list string) :
  username_or_guest cookie = inr u ->
  Forall (fun msg => str_in msg Main.likert_answers = true) answers ->
  forall (sessions : gmap string Main.session) (o : outside) (s : Main.session),
    sessions !! u = Some s ->
    Main.InDiagnosis s = true -> Main.InCounselor s = false ->
    (Main.predicted_class s = Some "Anxiety" /\ last = 10) \/
    (Main.predicted_class s = Some "Depression" /\ last = 12) \/
    (Main.predicted_class s = Some "Addiction" /\ last = 13) ->
    4 <= Main.total s ->
    Main.total s + Z.of_nat (length answers) <= last ->
    let r := get_responses E cookie answers (sessions, o) in
    r.1.1 !! u
      = Some (Main.mkSession true false
                (Main.total s + Z.of_nat (length answers))
                (Main.userScore s + answers_total answers)
                (Main.userText_diagnosis s) (Main.predicted_class s)) /\
    r.1.2 = o /\
    Forall (fun reply => exists q, reply = inr q /\ q <> Main.reprompt_likert
                                   /\ q <> Main.thank_you) r.2.
Proof.
  intros Hu Hall.
  induction Hall as [| msg rest Hmsg _ IH]; intros sessions o s Hs Hd Hc Hp Ht Hlen r.
  - subst r. cbn [get_responses fst snd length answers_total foldr Z.of_nat].
    rewrite !Z.add_0_r, Hs. split; [| split; [reflexivity | constructor]].
    destruct s; cbn in *; subst; reflexivity.
  - cbn [length] in Hlen. rewrite Nat2Z.inj_succ in Hlen.
    assert (Hlt : 4 <= Main.total s < last) by lia.
    destruct (respond_likert_item E u msg s o Hd Hc last Hp Hlt Hmsg)
      as (q & Hq1 & Hq2 & Hrun).
    subst r. cbn [get_responses].
    rewrite (get_response_known E msg cookie u sessions o s Hu Hs).
    rewrite (try_except_returns _ _ _ _ _ Hrun). cbv zeta. cbn [fst snd].
    set (s1 := Main.add_total 1 (Main.add_userScore (answer_value msg) s)).
    specialize (IH (<[u := s1]> sessions) o s1 (lookup_insert_eq _ _ _) Hd Hc).
    assert (Hp1 : (Main.predicted_class s1 = Some "Anxiety" /\ last = 10) \/
                  (Main.predicted_class s1 = Some "Depression" /\ last = 12) \/
                  (Main.predicted_class s1 = Some "Addiction" /\ last = 13))
      by exact Hp.
    assert (Ht1 : Main.total s1 = Main.total s + 1) by reflexivity.
    specialize (IH Hp1 ltac:(lia) ltac:(lia)). cbv zeta in IH.
    destruct (get_responses E cookie rest (<[u := s1]> sessions, o))
      as [w2 replies]. cbn [fst snd] in *.
    destruct IH as (Hsess & Ho & Hreplies).
    split; [| split].
    + rewrite Hsess. f_equal. unfold s1.
      cbn [Main.add_total Main.add_userScore Main.set_total Main.total
           Main.userScore Main.userText_diagnosis Main.predicted_class
           length answers_total foldr].
      fold (answers_total rest). rewrite Nat2Z.inj_succ.
      f_equal; lia.
    + exact Ho.
    + constructor; [exists q; repeat split; assumption | exact Hreplies].
Qed.

(** ** The [/diagnosis/chat] handler *)

(** [diagnosis_chat] on a user name that has a session. *)
Lemma diagnosis_chat_known (E : services) (req : Diagnosis.DiagnosisRequest)
    (cookie : session_cookie) (u : string)
    (sessions : gmap string Diagnosis.session) (o : outside)
    (s : Diagnosis.session) :
  username_or_guest cookie = inr u ->
  sessions !! ("diagnosis_" +:+ u) = Some s ->
  Diagnosis.diagnosis_chat E req cookie (sessions, o) =
    let r := try_except (Diagnosis.respond E u req)
                        (fun _ => raise Diagnosis.internal_server_error) (s, o) in
    ((<["diagnosis_" +:+ u := r.1.1]> sessions, r.1.2), r.2).
Proof.
  intros Hu Hs. unfold Diagnosis.diagnosis_chat. rewrite Hu. cbn [fst snd].
  rewrite Hs. cbn [default]. rewrite Hs. cbn [default].
  destruct (try_except _ _ _) as [[s' o'] r]. reflexivity.
Qed.

Section DiagnosisQuestionnaire.
Context (u : string) (req : Diagnosis.DiagnosisRequest) (s : Diagnosis.session).
Hypothesis Hstep : 4 <= Diagnosis.req_step req.

(** A request that carries a step from 4 on never calls the classifier and
    never touches the LangChain store. *)
Lemma diagnosis_respond_past_narrative (E : services) (o : outside) :
  let r := Diagnosis.respond E u req (s, o) in
  classifier_calls r.1.2 = classifier_calls o /\ store r.1.2 = store o.
Proof.
  intros r. assert (H : Diagnosis.respond E u req (s, o) = r) by reflexivity.
  clearbody r. revert r H.
  open_request req. open_dsession s.
  unfold_diagnosis. unfold_monad. intros r.
  execute.
  all: intros <-; z_tests; try lia; diagnosis_fields.
  all: split; reflexivity.
Qed.

(** Such a request is answered from the session and the message only. *)
Lemma diagnosis_respond_deterministic (E1 E2 : services) (o1 o2 : outside) :
  let r1 := Diagnosis.respond E1 u req (s, o1) in
  let r2 := Diagnosis.respond E2 u req (s, o2) in
  r1.1.1 = r2.1.1 /\
  (db_available E1 = db_available E2 -> r1.2 = r2.2).
Proof.
  intros r1 r2.
  assert (H1 : Diagnosis.respond E1 u req (s, o1) = r1) by reflexivity.
  assert (H2 : Diagnosis.respond E2 u req (s, o2) = r2) by reflexivity.
  clearbody r1 r2. revert r2 H2. revert r1 H1.
  open_request req. open_dsession s.
  unfold_diagnosis. unfold_monad. intros r1.
  execute.
  all: intros <- r2; execute.
  all: intros <-; z_tests; try lia; diagnosis_fields.
  all: split; [reflexivity | intros Hdb; try reflexivity; congruence].
Qed.

(** [no] (or [n]) to the first PTSD item. *)
Lemma diagnosis_respond_ptsd_no_trauma (E : services) (o : outside) :
  Diagnosis.disorder s = Some "PTSD" ->
  Diagnosis.step s = 4 ->
  str_in (lower (Diagnosis.req_user_input req)) ["no"; "n"] = true ->
  db_available E = true ->
  Diagnosis.respond E u req (s, o) =
    ((Diagnosis.set_step (-1) s,
      with_users (alter (update_severity "Minimal") u) o),
     inr (Some (Diagnosis.mkResponse
                  "PTSD requires a traumatic event. Consider consulting a counselor."
                  (Some "PTSD") (Some "Minimal") true))).
Proof.
  intros Hp Hs Hn Hdb. by_execution.
  open_request req. open_dsession s.
  unfold_diagnosis. unfold_monad.
  rewrite Hn, Hdb. intros r.
  execute; intros <-; z_tests; try lia; reflexivity.
Qed.

End DiagnosisQuestionnaire.

(** ** Failing services under [/diagnosis/chat] and [/counsel/chat] *)

Lemma diagnosis_respond_classifier_raises (E : services) (u : string)
    (req : Diagnosis.DiagnosisRequest) (s : Diagnosis.session) (o : outside) :
  Diagnosis.req_step req = 3 ->
  classifier_raises E
    (Diagnosis.user_input s +:+ " " +:+ Diagnosis.req_user_input req) ->
  exists e, (Diagnosis.respond E u req (s, o)).2 = inl e.
Proof.
  intros Hstep Hraise.
  open_request req. open_dsession s.
  destruct (predict_disorder_raises E _
              (Diagnosis.mkSession step (user_input +:+ " " +:+ req_user_input)
                 score disorder0, o)
              Hraise) as [e He].
  exists e. unfold_diagnosis. unfold_monad. compute_tests. cbv beta iota.
  cbn [fst snd] in He. rewrite He. reflexivity.
Qed.

Lemma counsel_respond_fails (E : services) (u : string)
    (creq : Counseling.CounselingRequest) (o : outside) :
  counsel_loaded E = false \/ db_available E = false \/
  (forall text messages, exists e, rag_answer E text messages = inl e) ->
  exists e, (Counseling.respond E u creq (tt, o)).2 = inl e.
Proof.
  intros Hfail.
  assert (forall r, Counseling.respond E u creq (tt, o) = r -> exists e, r.2 = inl e)
    as Hx; [| exact (Hx _ eq_refl)].
  destruct creq as [text sid].
  unfold Counseling.respond, get_counseling_response.
  cbv beta iota zeta delta [Counseling.req_user_input Counseling.req_session_id].
  unfold_monad. intros r.
  destruct Hfail as [Hl | [Hdb | Hrag]].
  - rewrite Hl. execute; intros <-; eexists; reflexivity.
  - rewrite Hdb. execute; intros <-; eexists; reflexivity.
  - execute; intros <-; try (eexists; reflexivity).
    all: match goal with
         | H : rag_answer _ ?t ?m = inr _ |- _ =>
             destruct (Hrag t m) as [e He]; congruence
         end.
Qed.

(** ** The narrative steps of [/diagnosis/chat] *)

(** A user without a session is served as if a new session had been
    stored. *)
Lemma diagnosis_chat_fresh (E : services) (req : Diagnosis.DiagnosisRequest)
    (cookie : session_cookie) (u : string)
    (w : gmap string Diagnosis.session * outside) :
  username_or_guest cookie = inr u ->
  w.1 !! ("diagnosis_" +:+ u) = None ->
  Diagnosis.diagnosis_chat E req cookie w =
    Diagnosis.diagnosis_chat E req cookie
      (<["diagnosis_" +:+ u := Diagnosis.new_session]> w.1, w.2).
Proof.
  intros Hu Hnone. unfold Diagnosis.diagnosis_chat. rewrite Hu. cbv zeta.
  cbn [fst snd]. rewrite Hnone, !lookup_insert_eq. reflexivity.
Qed.

Section DiagnosisNarrative.
Context (E : services) (u text : string) (s : Diagnosis.session) (o : outside).

Lemma diagnosis_respond_first_message :
  Diagnosis.respond E u (Diagnosis.mkRequest text 1) (s, o) =
    ((Diagnosis.set_step 2 (Diagnosis.append_input text s), o),
     inr (Some (Diagnosis.mkResponse Diagnosis.ask_triggers None None false))).
Proof.
  by_execution. open_dsession s.
  unfold_diagnosis. unfold_monad. intros r. execute; intros <-; reflexivity.
Qed.

Lemma diagnosis_respond_second_message :
  Diagnosis.respond E u (Diagnosis.mkRequest text 2) (s, o) =
    ((Diagnosis.set_step 3 (Diagnosis.append_input (" " +:+ text) s), o),
     inr (Some (Diagnosis.mkResponse Diagnosis.ask_traumas None None false))).
Proof.
  by_execution. open_dsession s.
  unfold_diagnosis. unfold_monad. intros r. execute; intros <-; reflexivity.
Qed.

Lemma diagnosis_respond_third_message :
  let r := Diagnosis.respond E u (Diagnosis.mkRequest text 3) (s, o) in
  classifier_calls r.1.2
    = (classifier_calls o ++ [Diagnosis.user_input s +:+ " " +:+ text])%list.
Proof.
  intros r.
  assert (H : Diagnosis.respond E u (Diagnosis.mkRequest text 3) (s, o) = r)
    by reflexivity.
  clearbody r. revert r H. open_dsession s.
  unfold_diagnosis. unfold predict_disorder. unfold_monad. intros r.
  execute.
  all: intros <-; diagnosis_fields; cbn [with_call classifier_calls].
  all: reflexivity.
Qed.

End DiagnosisNarrative.

Lemma diagnosis_chats_cons (E : services) (cookie : session_cookie)
    (req : Diagnosis.DiagnosisRequest) (rest : list Diagnosis.DiagnosisRequest)
    (w : gmap string Diagnosis.session * outside) :
  (diagnosis_chats E cookie (req :: rest) w).1
    = (diagnosis_chats E cookie rest (Diagnosis.diagnosis_chat E req cookie w).1).1.
Proof.
  cbn [diagnosis_chats].
  destruct (Diagnosis.diagnosis_chat E req cookie w) as [w1 reply]. cbn [fst].
  destruct (diagnosis_chats E cookie rest w1) as [w2 replies]. reflexivity.
Qed.

(** Requests that carry steps from 4 on never call the classifier. *)
Lemma diagnosis_chats_past_narrative (E : services) (cookie : session_cookie)
    (u : string) (reqs : list Diagnosis.DiagnosisRequest) :
  username_or_guest cookie = inr u ->
  Forall (fun req => 4 <= Diagnosis.req_step req) reqs ->
  forall (sessions : gmap string Diagnosis.session) (o : outside)
         (s : Diagnosis.session),
    sessions !! ("diagnosis_" +:+ u) = Some s ->
    classifier_calls (diagnosis_chats E cookie reqs (sessions, o)).1.2
      = classifier_calls o.
Proof.
  intros Hu Hall. induction Hall as [| req rest Hreq _ IH]; intros sessions o s Hs.
  - reflexivity.
  - rewrite diagnosis_chats_cons.
    rewrite (diagnosis_chat_known E req cookie u sessions o s Hu Hs).
    cbv zeta. cbn [fst]. rewrite try_except_raise_state.
    destruct (diagnosis_respond_past_narrative u req s Hreq E o) as [Hcalls _].
    destruct (Diagnosis.respond E u req (s, o)) as [[s' o'] reply].
    cbn [fst snd] in *.
    rewrite (IH _ o' s' (lookup_insert_eq _ _ _)). exact Hcalls.
Qed.

(** A run of [/diagnosis/chat] from a session at its start, by a client that
    numbers its first three requests 1, 2, 3 and the later ones from 4 on. *)
Lemma diagnosis_chats_narrative (E : services) (cookie : session_cookie)
    (u : string) (sessions : gmap string Diagnosis.session) (o : outside)
    (s : Diagnosis.session) (m1 m2 m3 : string)
    (rest : list Diagnosis.DiagnosisRequest) :
  username_or_guest cookie = inr u ->
  sessions !! ("diagnosis_" +:+ u) = Some s ->
  Forall (fun req => 4 <= Diagnosis.req_step req) rest ->
  classifier_calls
    (diagnosis_chats E cookie
       [Diagnosis.mkRequest m1 1; Diagnosis.mkRequest m2 2] (sessions, o)).1.2
    = classifier_calls o /\
  classifier_calls
    (diagnosis_chats E cookie
       (Diagnosis.mkRequest m1 1 :: Diagnosis.mkRequest m2 2
          :: Diagnosis.mkRequest m3 3 :: rest) (sessions, o)).1.2
    = (classifier_calls o
         ++ [Diagnosis.user_input s +:+ m1 +:+ " " +:+ m2 +:+ " " +:+ m3])%list.
Proof.
  intros Hu Hs Hrest.
  pose (s1 := Diagnosis.set_step 2 (Diagnosis.append_input m1 s)).
  pose (s2 := Diagnosis.set_step 3 (Diagnosis.append_input (" " +:+ m2) s1)).
  assert (H1 : (Diagnosis.diagnosis_chat E (Diagnosis.mkRequest m1 1) cookie
                  (sessions, o)).1
               = (<["diagnosis_" +:+ u := s1]> sessions, o)).
  { rewrite (diagnosis_chat_known E _ cookie u sessions o s Hu Hs).
    rewrite (try_except_returns _ _ _ _ _
               (diagnosis_respond_first_message E u m1 s o)).
    reflexivity. }
  assert (H2 : (Diagnosis.diagnosis_chat E (Diagnosis.mkRequest m2 2) cookie
                  (<["diagnosis_" +:+ u := s1]> sessions, o)).1
               = (<["diagnosis_" +:+ u := s2]>
                    (<["diagnosis_" +:+ u := s1]> sessions), o)).
  { rewrite (diagnosis_chat_known E _ cookie u _ o s1 Hu (lookup_insert_eq _ _ _)).
    rewrite (try_except_returns _ _ _ _ _
               (diagnosis_respond_second_message E u m2 s1 o)).
    reflexivity. }
  split.
  - rewrite !diagnosis_chats_cons, H1, H2. reflexivity.
  - rewrite !diagnosis_chats_cons, H1, H2.
    rewrite (diagnosis_chat_known E _ cookie u _ o s2 Hu (lookup_insert_eq _ _ _)).
    cbv zeta. cbn [fst]. rewrite try_except_raise_state.
    pose proof (diagnosis_respond_third_message E u m3 s2 o) as Hcalls.
    cbv zeta in Hcalls.
    destruct (Diagnosis.respond E u (Diagnosis.mkRequest m3 3) (s2, o))
      as [[s3 o3] reply].
    cbn [fst snd] in *.
    rewrite (diagnosis_chats_past_narrative E cookie u rest Hu Hrest _ o3 s3
               (lookup_insert_eq _ _ _)).
    rewrite Hcalls. unfold s2, s1.
    cbn [Diagnosis.append_input Diagnosis.set_step Diagnosis.user_input].
    rewrite !append_assoc. reflexivity.
Qed.

(** In [/counsel/chat] the history written is the stored one with the new
    entry appended. *)
Lemma counsel_respond_turn (E : services) (u : string)
    (creq : Counseling.CounselingRequest) (o : outside) (a : string) :
  counsel_loaded E = true -> db_available E = true ->
  let sid :=
    if String.eqb (Counseling.req_session_id creq) EmptyString
    then "counsel_" +:+ u else Counseling.req_session_id creq in
  rag_answer E (Counseling.req_user_input creq) (default [] (store o !! sid))
    = inr a ->
  let old :=
    match users o !! u with
    | Some row => default EmptyString (history row)
    | None => EmptyString
    end in
  let entry := "User: " +:+ Counseling.req_user_input creq +:+ " | AI: " +:+ a in
  let r := Counseling.respond E u creq (tt, o) in
  r.2 = inr (Counseling.mkResponse a sid) /\
  users r.1.2
    = alter (update_history
               (if String.eqb old EmptyString then entry
                else old +:+ " | " +:+ entry)) u (users o).
Proof.
  intros Hl Hdb sid Hrag old entry r.
  assert (H : Counseling.respond E u creq (tt, o) = r) by reflexivity.
  clearbody r. revert r H. subst sid old entry.
  destruct creq as [text sid0].
  cbn [Counseling.req_user_input Counseling.req_session_id] in *.
  unfold Counseling.respond, get_counseling_response.
  cbv beta iota zeta delta [Counseling.req_user_input Counseling.req_session_id].
  unfold_monad. rewrite Hl, Hdb. intros r.
  execute; intros <-; cbn [fst snd store with_store users] in *;
    simplify_eq; cbn [fst snd users with_users with_store];
    repeat split.
Qed.

(** The Anxiety branch of [/diagnosis/chat] once the step has reached 9: the
    answer is added and the severity of the sum is stored and returned. *)
Lemma diagnosis_respond_anxiety_last (E : services) (u : string)
    (req : Diagnosis.DiagnosisRequest) (s : Diagnosis.session) (o : outside)
    (n : Z) :
  4 <= Diagnosis.req_step req ->
  Diagnosis.disorder s = Some "Anxiety" ->
  9 <= Diagnosis.step s ->
  int (Diagnosis.req_user_input req) = inr n ->
  db_available E = true ->
  let label := Diagnosis.calculate_anxiety_severity (Diagnosis.score s + n) in
  Diagnosis.respond E u req (s, o) =
    ((Diagnosis.set_step (-1) s,
      with_users (alter (update_severity label) u) o),
     inr (Some (Diagnosis.mkResponse
                  ("The severity of your Anxiety Disorder is " +:+ label +:+ ".")
                  (Some "Anxiety") (Some label) true))).
Proof.
  intros Hreq Hp Hs Hint Hdb label. subst label. by_execution.
  open_request req. open_dsession s.
  unfold_diagnosis. unfold_monad. rewrite Hint, Hdb. intros r.
  execute; intros <-; z_tests;
    unfold Diagnosis.anxiety_questions in *; cbn [length] in *;
    try lia; reflexivity.
Qed.

(** ** The items a Likert questionnaire of [/get] asks *)

(** A valid answer at a counter that has a later item is scored and
    answered with that item. *)
Lemma respond_likert_item_asked (E : services) (u msg : string)
    (s : Main.session) (o : outside) (items : list string) (q : string) :
  Main.InDiagnosis s = true -> Main.InCounselor s = false ->
  (Main.predicted_class s = Some "Anxiety" /\ items = anxiety_later_items) \/
  (Main.predicted_class s = Some "Depression"
     /\ items = depression_later_items) \/
  (Main.predicted_class s = Some "Addiction"
     /\ items = addiction_later_items) ->
  4 <= Main.total s ->
  items !! Z.to_nat (Main.total s - 4) = Some q ->
  str_in msg Main.likert_answers = true ->
  Main.respond E u msg (s, o) =
    ((Main.add_total 1 (Main.add_userScore (answer_value msg) s), o), inr q).
Proof.
  intros Hd Hc Hp Ht Hq Hm.
  unfold answer_value. destruct (int_likert msg Hm) as (n & Hint & _).
  rewrite Hint. by_execution.
  open_session s.
  unfold_main. unfold_monad. rewrite Hm, Hint. intros r.
  destruct Hp as [[-> ->] | [[-> ->] | [-> ->]]];
    compute_tests;
    execute; intros <-; z_tests; subst;
    try (apply lookup_lt_Some in Hq; cbn [length anxiety_later_items
           depression_later_items addiction_later_items] in Hq; lia);
    vm_compute in Hq; simplify_eq; reflexivity.
Qed.

(** The replies to a run of valid answers that stays before the last item:
    the later items from the counter on, one for each answer. *)
Lemma get_responses_likert_replies (E : services) (cookie : session_cookie)
    (u : string) (items : list string) (answers : list string) :
  username_or_guest cookie = inr u ->
  Forall (fun msg => str_in msg Main.likert_answers = true) answers ->
  forall (sessions : gmap string Main.session) (o : outside) (s : Main.session),
    sessions !! u = Some s ->
    Main.InDiagnosis s = true -> Main.InCounselor s = false ->
    (Main.predicted_class s = Some "Anxiety" /\ items = anxiety_later_items) \/
    (Main.predicted_class s = Some "Depression"
       /\ items = depression_later_items) \/
    (Main.predicted_class s = Some "Addiction"
       /\ items = addiction_later_items) ->
    4 <= Main.total s ->
    (Z.to_nat (Main.total s - 4) + length answers <= length items)%nat ->
    (get_responses E cookie answers (sessions, o)).2
      = map inr (take (length answers)
                      (drop (Z.to_nat (Main.total s - 4)) items)).
Proof.
  intros Hu Hall.
  induction Hall as [| msg rest Hmsg _ IH];
    intros sessions o s Hs Hd Hc Hp Ht Hlen.
  - reflexivity.
  - cbn [length] in Hlen.
    destruct (lookup_lt_is_Some_2 items (Z.to_nat (Main.total s - 4))
                ltac:(lia)) as [q Hq].
    pose proof (respond_likert_item_asked E u msg s o items q Hd Hc Hp Ht Hq
                  Hmsg) as Hrun.
    cbn [get_responses].
    rewrite (get_response_known E msg cookie u sessions o s Hu Hs).
    rewrite (try_except_returns _ _ _ _ _ Hrun). cbv zeta. cbn [fst snd].
    set (s1 := Main.add_total 1 (Main.add_userScore (answer_value msg) s)).
    assert (Ht1 : Main.total s1 = Main.total s + 1) by reflexivity.
    assert (Hk : Z.to_nat (Main.total s1 - 4)
                 = S (Z.to_nat (Main.total s - 4))) by lia.
    specialize (IH (<[u := s1]> sessions) o s1 (lookup_insert_eq _ _ _) Hd Hc
                  Hp ltac:(lia) ltac:(lia)).
    destruct (get_responses E cookie rest (<[u := s1]> sessions, o))
      as [w2 replies]. cbn [fst snd] in *.
    rewrite IH, Hk, (drop_S _ _ _ Hq). reflexivity.
Qed.

(** ** The stated properties *)

(** C1: a completed Anxiety questionnaire maps its score to a label by fixed
    thresholds.  [calculate_anxiety_severity] gives Minimal up to 4, Mild
    from 5 to 9, Moderate from 10 to 14 and Severe from 15, so 6 is Mild.
    The [/get] handler, on the last answer, stores for the user the label
    these thresholds give the sum and replies with the message of that
    label; [/diagnosis/chat], on the answer that ends its questionnaire,
    stores and returns the label of [calculate_anxiety_severity] for the
    sum that [int] reads.  The stored row keeps its disorder and its
    history. *)
Theorem anxiety_score_to_severity :
  (forall score : Z,
      (score <= 4 -> Diagnosis.calculate_anxiety_severity score = "Minimal") /\
      (5 <= score <= 9 -> Diagnosis.calculate_anxiety_severity score = "Mild") /\
      (10 <= score <= 14 -> Diagnosis.calculate_anxiety_severity score = "Moderate") /\
      (15 <= score -> Diagnosis.calculate_anxiety_severity score = "Severe")) /\
  Diagnosis.calculate_anxiety_severity 6 = "Mild" /\
  (Main.anxiety_result 6).1 = "Mild" /\
  (forall (E : services) (msg : string) (cookie : session_cookie) (u : string)
          (sessions : gmap string Main.session) (o : outside)
          (s : Main.session) (row : user_row),
      username_or_guest cookie = inr u ->
      sessions !! u = Some s ->
      users o !! u = Some row ->
      Main.InDiagnosis s = true -> Main.InCounselor s = false ->
      Main.predicted_class s = Some "Anxiety" -> Main.total s = 10 ->
      0 <= Main.userScore s ->
      db_available E = true ->
      str_in msg Main.likert_answers = true ->
      let final := Main.userScore s + answer_value msg in
      let r := Main.get_response E msg cookie (sessions, o) in
      users r.1.2 !! u
        = Some (mkRow (disorder row) (Diagnosis.calculate_anxiety_severity final)
                      (history row)) /\
      r.2 = inr (Main.anxiety_result final).2 /\
      (Main.anxiety_result final).1 = Diagnosis.calculate_anxiety_severity final /\
      (Main.userScore <$> r.1.1 !! u) = Some final /\
      (Main.total <$> r.1.1 !! u) = Some (-1)) /\
  (forall (E : services) (req : Diagnosis.DiagnosisRequest)
          (cookie : session_cookie) (u : string)
          (sessions : gmap string Diagnosis.session) (o : outside)
          (s : Diagnosis.session) (row : user_row) (n : Z),
      username_or_guest cookie = inr u ->
      sessions !! ("diagnosis_" +:+ u) = Some s ->
      users o !! u = Some row ->
      Diagnosis.disorder s = Some "Anxiety" -> 9 <= Diagnosis.step s ->
      4 <= Diagnosis.req_step req ->
      int (Diagnosis.req_user_input req) = inr n ->
      db_available E = true ->
      let label := Diagnosis.calculate_anxiety_severity (Diagnosis.score s + n) in
      let r := Diagnosis.diagnosis_chat E req cookie (sessions, o) in
      users r.1.2 !! u = Some (mkRow (disorder row) label (history row)) /\
      r.2 = inr (Some (Diagnosis.mkResponse
                         ("The severity of your Anxiety Disorder is " +:+ label +:+ ".")
                         (Some "Anxiety") (Some label) true))).
Proof.
  split; [exact calculate_anxiety_severity_table |].
  split; [reflexivity |]. split; [reflexivity |].
  split; [| intros E req cookie u sessions o s row n Hu Hs Hrow Hp Hstep Hreq
                   Hint Hdb label r;
            subst r;
            rewrite (diagnosis_chat_known E req cookie u sessions o s Hu Hs);
            rewrite (try_except_returns _ _ _ _ _
                       (diagnosis_respond_anxiety_last E u req s o n
                          Hreq Hp Hstep Hint Hdb));
            cbn [fst snd]; split; [| reflexivity];
            unfold with_users; cbn [users];
            rewrite lookup_alter_eq, Hrow; reflexivity].
  intros E msg cookie u sessions o s row Hu Hs Hrow Hd Hc Hp Ht Hsc Hdb Hm final r.
  pose proof (answer_value_likert msg Hm) as Hn.
  assert (Hl : (Main.anxiety_result final).1
               = Diagnosis.calculate_anxiety_severity final)
    by (apply anxiety_result_label; unfold final; lia).
  subst r. rewrite (get_response_known E msg cookie u sessions o s Hu Hs).
  rewrite (try_except_returns _ _ _ _ _
             (respond_likert_last_item E u msg s o Hd Hc 10 Main.anxiety_result
                (or_introl (conj Hp (conj eq_refl eq_refl))) Ht Hm Hdb)).
  cbn [fst snd]. fold final. rewrite Hl.
  repeat split.
  - unfold with_users. cbn [users]. rewrite lookup_alter_eq, Hrow. reflexivity.
  - rewrite lookup_insert_eq. reflexivity.
  - rewrite lookup_insert_eq. reflexivity.
Qed.

Lemma anxiety_score_to_severity_example :
  let r := Main.get_response sample_services "3" alice
             ({[ "alice" := alice_last_item ]}, alice_registered) in
  let r' := Diagnosis.diagnosis_chat sample_services (answer " ٣ ") alice
              ({[ "diagnosis_alice" := alice_chat_last_item ]},
               alice_registered) in
  users r.1.2 !! "alice" = Some (mkRow "Anxiety" "Mild" None) /\
  r.2 = inr "The Severity of your Anxiety Disorder is Mild.<br>You can refer to professional help or You can also try our Anxiety Health Counsellor" /\
  users r'.1.2 !! "alice" = Some (mkRow "Anxiety" "Mild" None) /\
  r'.2 = inr (Some (Diagnosis.mkResponse
                      "The severity of your Anxiety Disorder is Mild."
                      (Some "Anxiety") (Some "Mild") true)).
Proof.
  destruct anxiety_score_to_severity as (_ & _ & _ & Hget & Hchat).
  assert (Hs : ({[ "diagnosis_alice" := alice_chat_last_item ]}
                  : gmap string Diagnosis.session) !! ("diagnosis_" +:+ "alice")
               = Some alice_chat_last_item)
    by (apply lookup_singleton_Some; split; reflexivity).
  pose proof (Hget sample_services "3" alice "alice"
                {[ "alice" := alice_last_item ]} alice_registered
                alice_last_item alice_row
                eq_refl eq_refl eq_refl eq_refl eq_refl eq_refl eq_refl
                ltac:(cbn; lia) eq_refl eq_refl) as H.
  pose proof (Hchat sample_services (answer " ٣ ") alice "alice"
                {[ "diagnosis_alice" := alice_chat_last_item ]}
                alice_registered alice_chat_last_item alice_row 3
                eq_refl Hs eq_refl eq_refl ltac:(cbn; lia) ltac:(cbn; lia)
                eq_refl eq_refl) as H'.
  cbv zeta in H, H'. cbv zeta.
  destruct H as (Hrow & Hreply & _), H' as (Hrow' & Hreply').
  split; [exact Hrow |]. split; [exact Hreply |].
  split; [exact Hrow' | exact Hreply'].
Defined.

(** C4: in a PTSD run of [/get], [no] to the first question ends the
    questionnaire at once.  The reply is the closing advice and asks
    nothing; Minimal is stored as the severity of the user, whose row keeps
    its disorder and its history; the counter becomes 15, a value no item
    matches; and from then on every message, whatever the services do, gets
    the thank-you reply and changes nothing. *)
Theorem ptsd_no_trauma_ends_questionnaire :
  forall (E : services) (msg : string) (cookie : session_cookie) (u : string)
         (sessions : gmap string Main.session) (o : outside)
         (s : Main.session) (row : user_row),
    username_or_guest cookie = inr u ->
    sessions !! u = Some s ->
    users o !! u = Some row ->
    Main.InDiagnosis s = true -> Main.InCounselor s = false ->
    Main.predicted_class s = Some "PTSD" -> Main.total s = 4 ->
    lower msg = "no" ->
    db_available E = true ->
    let r := Main.get_response E msg cookie (sessions, o) in
    r.2 = inr "PTSDs are generally caused due to a traumatic event. I would recommend you to consult our PTSD Mental Health Counsellor or Consider taking Professional Help." /\
    users r.1.2 !! u = Some (mkRow (disorder row) "Minimal" (history row)) /\
    r.1.1 !! u
      = Some (Main.mkSession true false 15 (Main.userScore s)
                (Main.userText_diagnosis s) (Some "PTSD")) /\
    (forall (E' : services) (msg' : string),
        Main.get_response E' msg' cookie r.1 = (r.1, inr Main.thank_you)) /\
    (forall (E' : services) (msgs : list string),
        get_responses E' cookie msgs r.1
          = (r.1, map (fun _ => inr Main.thank_you) msgs)).
Proof.
  intros E msg cookie u sessions o s row Hu Hs Hrow Hd Hc Hp Ht Hm Hdb r.
  assert (Hr : r = ((<[u := Main.set_total 15 s]> sessions,
                     with_users (alter (update_severity "Minimal") u) o),
                    inr Main.ptsd_no_trauma)).
  { subst r. rewrite (get_response_known E msg cookie u sessions o s Hu Hs).
    rewrite (try_except_returns _ _ _ _ _
               (respond_ptsd_no_trauma E u msg s o Hd Hc Ht Hp
                  (no_answers_lower msg Hm) Hdb)).
    reflexivity. }
  assert (Hstay : forall (E' : services) (msg' : string),
             Main.get_response E' msg' cookie r.1 = (r.1, inr Main.thank_you)).
  { intros E' msg'. rewrite Hr. cbn [fst].
    rewrite (get_response_known E' msg' cookie u _ _ (Main.set_total 15 s) Hu
               (lookup_insert_eq _ _ _)).
    rewrite (try_except_returns _ _ _ _ _
               (respond_ptsd_past_items E' u msg' (Main.set_total 15 s) _
                  Hd Hc ltac:(cbn; lia) Hp)).
    cbn [fst snd]. rewrite insert_insert_eq. reflexivity. }
  split; [rewrite Hr; reflexivity |].
  split; [rewrite Hr; cbn [fst snd]; unfold with_users; cbn [users];
          rewrite lookup_alter_eq, Hrow; reflexivity |].
  split; [rewrite Hr; cbn [fst snd]; rewrite lookup_insert_eq;
          destruct s; cbn in *; subst; reflexivity |].
  split; [exact Hstay |].
  intros E' msgs. induction msgs as [| msg' rest IH]; [reflexivity |].
  cbn [get_responses map]. rewrite Hstay, IH. reflexivity.
Qed.

Lemma ptsd_no_trauma_example :
  let r := Main.get_response sample_services "No" alice
             ({[ "alice" := alice_first_ptsd_item ]}, alice_registered) in
  users r.1.2 !! "alice" = Some (mkRow "Anxiety" "Minimal" None) /\
  r.1.1 !! "alice"
    = Some (Main.mkSession true false 15 0 " a b c" (Some "PTSD")) /\
  (Main.get_response services_without_database "yes" alice r.1).2
    = inr "Thank you for using our website. Refresh the page for another diagnosis".
Proof.
  pose proof (ptsd_no_trauma_ends_questionnaire sample_services "No" alice
                "alice" {[ "alice" := alice_first_ptsd_item ]}
                alice_registered alice_first_ptsd_item alice_row
                eq_refl eq_refl eq_refl eq_refl eq_refl eq_refl eq_refl
                eq_refl eq_refl) as H.
  cbv zeta in H. destruct H as (_ & Hrow & Hsession & Hstay & _).
  cbv zeta. split; [exact Hrow |]. split; [exact Hsession |].
  rewrite (Hstay services_without_database "yes"). reflexivity.
Defined.

(** ** The router of [diagnosis.py]

    [main.py] mounts neither router (both [include_router] calls are
    comments), so [/diagnosis/chat] is not served by the application.  What
    its handler would do differs from [/get] in three places. *)

(** An answer outside 0..3 is not refused.  The Anxiety branch adds
    whatever [int] reads, so [7] is scored and the step moves on; the PTSD
    branch takes every answer to the first item other than [no] and [n] for
    a yes. *)
Lemma diagnosis_chat_accepts_answer_out_of_domain :
  let r := Diagnosis.diagnosis_chat sample_services (answer "7") alice
             ({[ "diagnosis_alice" := alice_chat_anxiety ]}, alice_registered) in
  let r' := Diagnosis.diagnosis_chat sample_services (answer "maybe") alice
              ({[ "diagnosis_alice" := alice_chat_ptsd ]}, alice_registered) in
  r.2 = inr (Some (Diagnosis.mkResponse
                     "Not being able to stop or control worrying"
                     None None false)) /\
  r.1.1 !! "diagnosis_alice"
    = Some (Diagnosis.mkSession 5 "a b c" 7 (Some "Anxiety")) /\
  r'.2 = inr (Some (Diagnosis.mkResponse
                      "Had nightmares about it or thought about it when you did not want to?"
                      None None false)) /\
  r'.1.1 !! "diagnosis_alice"
    = Some (Diagnosis.mkSession 5 "a b c" 0 (Some "PTSD")).
Proof. vm_compute. repeat split. Qed.

(** The Anxiety questionnaire ends on the sixth answer, the last question
    of its list is never asked, and a Depression session is told the
    diagnosis is completed on its first answer, with nothing scored. *)
Lemma diagnosis_chat_anxiety_ends_on_sixth_answer :
  let r := diagnosis_chats sample_services alice
             [answer "1"; answer "1"; answer "1"; answer "1"; answer "1"; answer "1"]
             ({[ "diagnosis_alice" := alice_chat_anxiety ]}, alice_registered) in
  let r' := Diagnosis.diagnosis_chat sample_services (answer "1") alice
              ({[ "diagnosis_alice" := alice_chat_depression ]}, alice_registered) in
  r.2 = [ inr (Some (Diagnosis.mkResponse
                       "Not being able to stop or control worrying" None None false));
          inr (Some (Diagnosis.mkResponse
                       "Worrying too much about different things" None None false));
          inr (Some (Diagnosis.mkResponse "Trouble relaxing" None None false));
          inr (Some (Diagnosis.mkResponse
                       "Being so restless that it is hard to sit still" None None false));
          inr (Some (Diagnosis.mkResponse
                       "Becoming easily annoyed or irritable" None None false));
          inr (Some (Diagnosis.mkResponse
                       "The severity of your Anxiety Disorder is Mild."
                       (Some "Anxiety") (Some "Mild") true)) ] /\
  (Diagnosis.step <$> r.1.1 !! "diagnosis_alice") = Some (-1) /\
  r'.2 = inr (Some (Diagnosis.mkResponse Diagnosis.diagnosis_completed
                      None None true)) /\
  r'.1.1 !! "diagnosis_alice" = Some alice_chat_depression.
Proof. vm_compute. repeat split. Qed.

(** Step -1 does not stop the handler.  A message sent after the Anxiety
    questionnaire has ended is scored, moves the step to 0 and is answered
    with a question; and a request that carries step 3 calls the classifier
    again and stores its label again. *)
Lemma diagnosis_chat_goes_on_after_completion :
  let r := Diagnosis.diagnosis_chat sample_services (answer "2") alice
             ({[ "diagnosis_alice" := alice_chat_done ]}, alice_registered) in
  let r' := Diagnosis.diagnosis_chat sample_services
              (Diagnosis.mkRequest "d" 3) alice
              ({[ "diagnosis_alice" := alice_chat_done ]}, alice_registered) in
  r.2 = inr (Some (Diagnosis.mkResponse
                     "Worrying too much about different things"
                     None None false)) /\
  r.1.1 !! "diagnosis_alice"
    = Some (Diagnosis.mkSession 0 "a b c" 11 (Some "Anxiety")) /\
  classifier_calls r'.1.2 = ["a b c d"] /\
  r'.1.1 !! "diagnosis_alice"
    = Some (Diagnosis.mkSession 4 "a b c d" 9 (Some "Anxiety")).
Proof. vm_compute. repeat split. Qed.

(** ** The stated properties, continued *)

(** C10: a [session] cookie that is JSON but not an object (a number, a
    string, an array, [null]) is not turned into [guest].
    [get_current_user] raises [AttributeError], which is no [HTTPException],
    and each of the three chat handlers lets it through before it has looked
    at any session. *)
Theorem cookie_not_an_object_is_not_guest :
  forall (E : services) (msg : string)
         (w : gmap string Main.session * outside)
         (req : Diagnosis.DiagnosisRequest)
         (wd : gmap string Diagnosis.session * outside)
         (creq : Counseling.CounselingRequest) (o : outside),
    Main.get_response E msg JsonOther w = (w, inl AttributeError) /\
    Diagnosis.diagnosis_chat E req JsonOther wd = (wd, inl AttributeError) /\
    Counseling.counsel_chat E creq JsonOther o = (o, inl AttributeError).
Proof. intros. repeat split. Qed.

(** C6: past the classification the handler is a function of the session
    and the message.  Two runs of [/get] on the same session (in the
    diagnosis workflow, counter at 4 or more) and the same message leave the
    same session, whatever the classifier, the counselling chain and the
    stored rows are in each run, and give the same reply as soon as the
    database answers in both or in neither; the same holds for
    [/diagnosis/chat] on a request that carries a step from 4 on. *)
Theorem questionnaire_step_is_deterministic :
  (forall (E1 E2 : services) (msg : string) (cookie : session_cookie)
          (u : string) (sessions1 sessions2 : gmap string Main.session)
          (o1 o2 : outside) (s : Main.session),
      username_or_guest cookie = inr u ->
      sessions1 !! u = Some s -> sessions2 !! u = Some s ->
      Main.InDiagnosis s = true -> Main.InCounselor s = false ->
      4 <= Main.total s ->
      let r1 := Main.get_response E1 msg cookie (sessions1, o1) in
      let r2 := Main.get_response E2 msg cookie (sessions2, o2) in
      r1.1.1 !! u = r2.1.1 !! u /\
      (db_available E1 = db_available E2 -> r1.2 = r2.2)) /\
  (forall (E1 E2 : services) (req : Diagnosis.DiagnosisRequest)
          (cookie : session_cookie) (u : string)
          (sessions1 sessions2 : gmap string Diagnosis.session)
          (o1 o2 : outside) (s : Diagnosis.session),
      username_or_guest cookie = inr u ->
      sessions1 !! ("diagnosis_" +:+ u) = Some s ->
      sessions2 !! ("diagnosis_" +:+ u) = Some s ->
      4 <= Diagnosis.req_step req ->
      let r1 := Diagnosis.diagnosis_chat E1 req cookie (sessions1, o1) in
      let r2 := Diagnosis.diagnosis_chat E2 req cookie (sessions2, o2) in
      r1.1.1 !! ("diagnosis_" +:+ u) = r2.1.1 !! ("diagnosis_" +:+ u) /\
      (db_available E1 = db_available E2 -> r1.2 = r2.2)).
Proof.
  split.
  - intros E1 E2 msg cookie u sessions1 sessions2 o1 o2 s Hu Hs1 Hs2 Hd Hc Ht
           r1 r2.
    subst r1 r2.
    rewrite (get_response_known E1 msg cookie u sessions1 o1 s Hu Hs1).
    rewrite (get_response_known E2 msg cookie u sessions2 o2 s Hu Hs2).
    cbn [fst snd]. rewrite !lookup_insert_eq.
    rewrite !try_except_reply_state, !try_except_reply_result.
    destruct (respond_deterministic u msg s Hd Hc (or_introl Ht) E1 E2 o1 o2)
      as [Hsame Hreply].
    split; [congruence |].
    intros Hdb. rewrite (Hreply Hdb). reflexivity.
  - intros E1 E2 req cookie u sessions1 sessions2 o1 o2 s Hu Hs1 Hs2 Hreq r1 r2.
    subst r1 r2.
    rewrite (diagnosis_chat_known E1 req cookie u sessions1 o1 s Hu Hs1).
    rewrite (diagnosis_chat_known E2 req cookie u sessions2 o2 s Hu Hs2).
    cbn [fst snd]. rewrite !lookup_insert_eq.
    rewrite !try_except_raise_state, !try_except_raise_result.
    destruct (diagnosis_respond_deterministic u req s Hreq E1 E2 o1 o2)
      as [Hsame Hreply].
    split; [congruence |].
    intros Hdb. rewrite (Hreply Hdb). reflexivity.
Qed.

Lemma questionnaire_step_is_deterministic_example :
  (Main.get_response sample_services "3" alice
     ({[ "alice" := alice_last_item ]}, alice_registered)).2
  = (Main.get_response services_without_models "3" alice
       ({[ "alice" := alice_last_item; "bob" := Main.new_session ]},
        alice_and_bob)).2.
Proof.
  destruct questionnaire_step_is_deterministic as [Hget _].
  exact (proj2 (Hget sample_services services_without_models "3" alice "alice"
                  {[ "alice" := alice_last_item ]}
                  {[ "alice" := alice_last_item; "bob" := Main.new_session ]}
                  alice_registered alice_and_bob alice_last_item
                  eq_refl eq_refl eq_refl eq_refl eq_refl ltac:(cbn; lia))
               eq_refl).
Defined.

(** C6 as stated fails: the reply depends on one external service, the
    database.  On the same session and the same last answer, [/get]
    replies with the severity when the database answers and with the
    generic failure message when it does not; the session it leaves is the
    same. *)
Lemma questionnaire_reply_depends_on_database :
  let w : gmap string Main.session * outside :=
    ({[ "alice" := alice_last_item ]}, alice_registered) in
  let r1 := Main.get_response sample_services "3" alice w in
  let r2 := Main.get_response services_without_database "3" alice w in
  r1.2 = inr "The Severity of your Anxiety Disorder is Mild.<br>You can refer to professional help or You can also try our Anxiety Health Counsellor" /\
  r2.2 = inr "I'm sorry, I'm having trouble responding right now. Please try again later." /\
  r1.2 <> r2.2 /\
  r1.1.1 = r2.1.1.
Proof.
  cbv zeta. split; [vm_compute; reflexivity |].
  split; [vm_compute; reflexivity |].
  split; [vm_compute; discriminate | vm_compute; reflexivity].
Qed.

(** C8, as the handlers have it: an exception of the classifier, of the
    counselling chain or of the database never leaves a chat handler or a
    history page as it is.  Whenever the body of [/get] raises, the reply
    is the one generic failure message; whatever leaves [/diagnosis/chat]
    or [/counsel/chat] is a response or the one [HTTPException] with status
    500.  In particular so it is when the classifier raises on the
    completed narrative, and when the counselling chain or the database
    raises during a counselling turn.  The two history pages answer with a
    page whatever the database does, the page [Error retrieving history.]
    when it cannot be read. *)
Theorem chat_handlers_catch_service_exceptions :
  forall (E : services) (cookie : session_cookie) (u : string),
    username_or_guest cookie = inr u ->
    (forall (msg : string) (w : gmap string Main.session * outside),
        exists reply : string,
          (Main.get_response E msg cookie w).2 = inr reply /\
          forall e,
            (Main.respond E u msg
               (default Main.new_session (w.1 !! u), w.2)).2 = inl e ->
            reply = Main.generic_failure) /\
    (forall (msg : string) (sessions : gmap string Main.session) (o : outside)
            (s : Main.session),
        sessions !! u = Some s ->
        (Main.InDiagnosis s = true /\ Main.InCounselor s = false /\
         Main.total s = 3 /\
         classifier_raises E (Main.userText_diagnosis s +:+ " " +:+ msg)) \/
        (Main.InDiagnosis s = false /\ Main.InCounselor s = true /\
         db_available E = false) ->
        (Main.get_response E msg cookie (sessions, o)).2
          = inr Main.generic_failure) /\
    (forall (req : Diagnosis.DiagnosisRequest)
            (w : gmap string Diagnosis.session * outside),
        (exists resp, (Diagnosis.diagnosis_chat E req cookie w).2 = inr resp) \/
        (Diagnosis.diagnosis_chat E req cookie w).2
          = inl (HTTPException 500 "Internal server error")) /\
    (forall (req : Diagnosis.DiagnosisRequest)
            (sessions : gmap string Diagnosis.session) (o : outside)
            (s : Diagnosis.session),
        sessions !! ("diagnosis_" +:+ u) = Some s ->
        Diagnosis.req_step req = 3 ->
        classifier_raises E
          (Diagnosis.user_input s +:+ " " +:+ Diagnosis.req_user_input req) ->
        (Diagnosis.diagnosis_chat E req cookie (sessions, o)).2
          = inl (HTTPException 500 "Internal server error")) /\
    (forall (creq : Counseling.CounselingRequest) (o : outside),
        (exists resp, (Counseling.counsel_chat E creq cookie o).2 = inr resp) \/
        (Counseling.counsel_chat E creq cookie o).2
          = inl (HTTPException 500 "Internal server error")) /\
    (forall (creq : Counseling.CounselingRequest) (o : outside),
        counsel_loaded E = false \/ db_available E = false \/
        (forall text messages, exists e, rag_answer E text messages = inl e) ->
        (Counseling.counsel_chat E creq cookie o).2
          = inl (HTTPException 500 "Internal server error")) /\
    (forall o : outside,
        (exists p q : page,
            MainPages.history_page E cookie o = (o, inr p) /\
            CounselingPages.history_page E cookie o = (o, inr q)) /\
        (get_current_user cookie = inr u -> db_available E = false ->
         let failed :=
           TemplateResponse "history.html"
             [("input_string", Text "Error retrieving history.")] in
         MainPages.history_page E cookie o = (o, inr failed) /\
         CounselingPages.history_page E cookie o = (o, inr failed))).
Proof.
  intros E cookie u Hu.
  assert (Hpage : forall (v : string) (o : outside),
             exists p : page,
               history_page_body E v (tt, o) = ((tt, o), inr p) /\
               (db_available E = false ->
                p = TemplateResponse "history.html"
                      [("input_string", Text "Error retrieving history.")])).
  { intros v o. unfold history_page_body, select_history, get_db.
    unfold_monad. destruct (db_available E); eexists; split;
      try reflexivity; discriminate. }
  repeat apply conj.
  - intros msg w. rewrite (get_response_result E msg cookie u w Hu).
    rewrite try_except_reply_result.
    destruct (Main.respond E u msg _).2 as [e | reply].
    + exists Main.generic_failure. split; [reflexivity | reflexivity].
    + exists reply. split; [reflexivity | discriminate].
  - intros msg sessions o s Hs Hcase.
    rewrite (get_response_result E msg cookie u (sessions, o) Hu).
    cbn [fst snd]. rewrite Hs. cbn [default from_option id].
    rewrite try_except_reply_result.
    destruct Hcase as [(Hd & Hc & Ht & Hraise) | (Hd & Hc & Hdb)].
    + destruct (respond_classifier_raises E u msg s o Hd Hc Ht Hraise)
        as [e ->]. reflexivity.
    + destruct (respond_counsel_no_database E u msg s o Hd Hc Hdb)
        as [e ->]. reflexivity.
  - intros req w. rewrite (diagnosis_chat_result E req cookie u w Hu).
    rewrite try_except_raise_result.
    destruct (Diagnosis.respond E u req _).2 as [e | resp].
    + right. reflexivity.
    + left. exists resp. reflexivity.
  - intros req sessions o s Hs Hstep Hraise.
    rewrite (diagnosis_chat_result E req cookie u (sessions, o) Hu).
    cbn [fst snd]. rewrite Hs. cbn [default from_option id].
    rewrite try_except_raise_result.
    destruct (diagnosis_respond_classifier_raises E u req s o Hstep Hraise)
      as [e ->]. reflexivity.
  - intros creq o. rewrite (counsel_chat_result E creq cookie u o Hu).
    cbn [fst snd]. rewrite try_except_raise_result.
    destruct (Counseling.respond E u creq _).2 as [e | resp].
    + right. reflexivity.
    + left. exists resp. reflexivity.
  - intros creq o Hfail. rewrite (counsel_chat_result E creq cookie u o Hu).
    cbn [fst snd]. rewrite try_except_raise_result.
    destruct (counsel_respond_fails E u creq o Hfail) as [e ->]. reflexivity.
  - intros o. split.
    + unfold MainPages.history_page, CounselingPages.history_page.
      unfold username_or_guest in Hu.
      destruct (get_current_user cookie) as [e | v].
      * destruct e; try discriminate Hu. do 2 eexists. split; reflexivity.
      * destruct (Hpage v o) as (p & -> & _). do 2 eexists. split; reflexivity.
    + intros Hcookie Hdb failed.
      unfold MainPages.history_page, CounselingPages.history_page.
      rewrite Hcookie. destruct (Hpage u o) as (p & -> & Hp).
      rewrite (Hp Hdb). split; reflexivity.
Qed.

Lemma chat_handlers_catch_service_exceptions_example :
  (Main.get_response services_without_models "c" alice
     ({[ "alice" := alice_narrative_end ]}, alice_registered)).2
    = inr "I'm sorry, I'm having trouble responding right now. Please try again later." /\
  (Counseling.counsel_chat services_without_database
     (Counseling.mkRequest "hi" "default") alice alice_registered).2
    = inl (HTTPException 500 "Internal server error") /\
  MainPages.history_page services_without_database alice alice_registered
    = (alice_registered,
       inr (TemplateResponse "history.html"
              [("input_string", Text "Error retrieving history.")])).
Proof.
  split; [| split].
  - destruct (chat_handlers_catch_service_exceptions
                services_without_models alice "alice" eq_refl)
      as (_ & Hget & _).
    exact (Hget "c" {[ "alice" := alice_narrative_end ]} alice_registered
             alice_narrative_end eq_refl
             (or_introl (conj eq_refl (conj eq_refl
                           (conj eq_refl (or_introl eq_refl)))))).
  - destruct (chat_handlers_catch_service_exceptions
                services_without_database alice "alice" eq_refl)
      as (_ & _ & _ & _ & _ & Hcounsel & _).
    exact (Hcounsel (Counseling.mkRequest "hi" "default") alice_registered
             (or_intror (or_introl eq_refl))).
  - destruct (chat_handlers_catch_service_exceptions
                services_without_database alice "alice" eq_refl)
      as (_ & _ & _ & _ & _ & _ & Hhistory).
    exact (proj1 (proj2 (Hhistory alice_registered) eq_refl eq_refl)).
Defined.

(** C8 as stated fails on the other handlers that use the database: the
    [/counsel] pages, [/home], [/login] and [/signup] call it under no
    [try] (in [/signup] only the [INSERT] is inside one), and its exception
    leaves them as it is. *)
Lemma pages_let_database_exceptions_out :
  (MainPages.counsel_page services_without_database alice
     (∅, alice_registered)).2 = inl DatabaseError /\
  (CounselingPages.counsel_page services_without_database alice
     alice_registered).2 = inl DatabaseError /\
  MainPages.home services_without_database alice (Some eight_columns)
    = inl DatabaseError /\
  MainPages.login services_without_database sample_bcrypt (Some "bob")
    (Some "hunter2") (Some eight_columns) = inl DatabaseError /\
  (MainPages.signup services_without_database sample_bcrypt (Some "Alice")
     (Some "A") (Some "alice") (Some "secret") (Some eight_columns)).2
    = inl DatabaseError.
Proof. repeat split. Qed.

(** C5, as the handlers have it: in a diagnosis run the classifier is called
    exactly once, on the third message, with the narrative the session has
    accumulated.  In [/get] a run starts at the [/diagnosis] page, which
    stores one space as the narrative, so the argument is that space
    followed by the three messages joined by single spaces.  In
    [/diagnosis/chat] a run starts from a new session, which the
    [/diagnosis] page of [diagnosis.py] stores and which the handler
    creates for a user that has none, so the argument is the three messages
    joined by single spaces; its requests carry the steps 1, 2, 3 and then
    steps from 4 on. *)
Theorem classifier_called_once_with_narrative :
  (forall (E : services) (u : string)
          (w : gmap string Main.session * outside)
          (m1 m2 m3 : string) (rest : list string),
      u <> EmptyString ->
      let cookie := JsonObject (Some u) in
      let w0 := (Main.diagnosis_page cookie w).1 in
      classifier_calls (get_responses E cookie [m1] w0).1.2
        = classifier_calls w.2 /\
      classifier_calls (get_responses E cookie [m1; m2] w0).1.2
        = classifier_calls w.2 /\
      classifier_calls (get_responses E cookie (m1 :: m2 :: m3 :: rest) w0).1.2
        = (classifier_calls w.2
             ++ [" " +:+ m1 +:+ " " +:+ m2 +:+ " " +:+ m3])%list) /\
  (forall (E : services) (cookie : session_cookie) (u : string)
          (w : gmap string Diagnosis.session * outside)
          (m1 m2 m3 : string) (rest : list Diagnosis.DiagnosisRequest),
      username_or_guest cookie = inr u ->
      w.1 !! ("diagnosis_" +:+ u) = None ->
      Forall (fun req => 4 <= Diagnosis.req_step req) rest ->
      classifier_calls
        (diagnosis_chats E cookie
           [Diagnosis.mkRequest m1 1; Diagnosis.mkRequest m2 2] w).1.2
        = classifier_calls w.2 /\
      classifier_calls
        (diagnosis_chats E cookie
           (Diagnosis.mkRequest m1 1 :: Diagnosis.mkRequest m2 2
              :: Diagnosis.mkRequest m3 3 :: rest) w).1.2
        = (classifier_calls w.2 ++ [m1 +:+ " " +:+ m2 +:+ " " +:+ m3])%list) /\
  (forall (E : services) (cookie : session_cookie) (u : string)
          (w : gmap string Diagnosis.session * outside)
          (m1 m2 m3 : string) (rest : list Diagnosis.DiagnosisRequest),
      get_current_user cookie = inr u ->
      Forall (fun req => 4 <= Diagnosis.req_step req) rest ->
      let w0 := ((DiagnosisPages.diagnosis_page cookie w.1).1, w.2) in
      classifier_calls
        (diagnosis_chats E cookie
           [Diagnosis.mkRequest m1 1; Diagnosis.mkRequest m2 2] w0).1.2
        = classifier_calls w.2 /\
      classifier_calls
        (diagnosis_chats E cookie
           (Diagnosis.mkRequest m1 1 :: Diagnosis.mkRequest m2 2
              :: Diagnosis.mkRequest m3 3 :: rest) w0).1.2
        = (classifier_calls w.2 ++ [m1 +:+ " " +:+ m2 +:+ " " +:+ m3])%list).
Proof.
  split; [| split].
  - intros E u w m1 m2 m3 rest Hu cookie w0.
    assert (Hname : username_or_guest cookie = inr u).
    { unfold cookie, username_or_guest, get_current_user.
      destruct (String.eqb_spec u EmptyString); [contradiction | reflexivity]. }
    assert (Hw0 : w0 = (<[u := Main.diagnosis_session]> w.1, w.2)).
    { unfold w0, cookie, Main.diagnosis_page, get_current_user.
      destruct (String.eqb_spec u EmptyString); [contradiction | reflexivity]. }
    rewrite Hw0.
    exact (get_responses_narrative E cookie u _ w.2 Main.diagnosis_session
             m1 m2 m3 rest Hname (lookup_insert_eq _ _ _)
             eq_refl eq_refl eq_refl).
  - intros E cookie u w m1 m2 m3 rest Hu Hnone Hrest.
    destruct w as [sessions o]. cbn [fst snd] in *.
    cbn [diagnosis_chats].
    rewrite (diagnosis_chat_fresh E _ cookie u (sessions, o) Hu Hnone).
    exact (diagnosis_chats_narrative E cookie u
             (<["diagnosis_" +:+ u := Diagnosis.new_session]> sessions) o
             Diagnosis.new_session m1 m2 m3 rest Hu
             (lookup_insert_eq _ _ _) Hrest).
  - intros E cookie u w m1 m2 m3 rest Hu Hrest w0.
    assert (Hname : username_or_guest cookie = inr u)
      by (unfold username_or_guest; rewrite Hu; reflexivity).
    assert (Hw0 : w0 = (<["diagnosis_" +:+ u := Diagnosis.new_session]> w.1,
                        w.2))
      by (unfold w0, DiagnosisPages.diagnosis_page; rewrite Hu; reflexivity).
    rewrite Hw0.
    exact (diagnosis_chats_narrative E cookie u
             (<["diagnosis_" +:+ u := Diagnosis.new_session]> w.1) w.2
             Diagnosis.new_session m1 m2 m3 rest Hname
             (lookup_insert_eq _ _ _) Hrest).
Qed.

Lemma classifier_called_once_with_narrative_example :
  classifier_calls
    (get_responses sample_services alice ["a"; "b"; "c"; "1"; "2"]
       (Main.diagnosis_page alice (∅, alice_registered)).1).1.2
    = [" a b c"] /\
  classifier_calls
    (diagnosis_chats sample_services alice
       [Diagnosis.mkRequest "a" 1; Diagnosis.mkRequest "b" 2;
        Diagnosis.mkRequest "c" 3; answer "1"; answer "2"]
       (∅, alice_registered)).1.2
    = ["a b c"] /\
  classifier_calls
    (diagnosis_chats sample_services alice
       [Diagnosis.mkRequest "d" 1; Diagnosis.mkRequest "e" 2;
        Diagnosis.mkRequest "f" 3; answer "1"]
       ((DiagnosisPages.diagnosis_page alice
           {[ "diagnosis_alice" := alice_chat_done ]}).1,
        alice_registered)).1.2
    = ["d e f"].
Proof.
  destruct classifier_called_once_with_narrative as (Hget & Hchat & Hpage).
  split; [| split].
  - exact (proj2 (proj2 (Hget sample_services "alice" (∅, alice_registered)
                           "a" "b" "c" ["1"; "2"]
                           ltac:(discriminate)))).
  - exact (proj2 (Hchat sample_services alice "alice" (∅, alice_registered)
                    "a" "b" "c" [answer "1"; answer "2"]
                    eq_refl eq_refl
                    ltac:(repeat constructor; cbn; lia))).
  - exact (proj2 (Hpage sample_services alice "alice"
                    ({[ "diagnosis_alice" := alice_chat_done ]},
                     alice_registered)
                    "d" "e" "f" [answer "1"] eq_refl
                    ltac:(repeat constructor; cbn; lia))).
Defined.

(** C5 as stated fails on [/get]: after the [/diagnosis] page, the messages
    a, b, c reach the classifier as the text that starts with a space, not
    as the three messages joined by single spaces. *)
Lemma classifier_argument_starts_with_space :
  classifier_calls
    (get_responses sample_services alice ["a"; "b"; "c"]
       (Main.diagnosis_page alice (∅, alice_registered)).1).1.2
    = [" a b c"] /\
  " a b c" <> join " " ["a"; "b"; "c"].
Proof. split; [vm_compute; reflexivity | discriminate]. Qed.

(** C7, as the handlers have it.  A counselling turn of [/counsel/chat]
    writes the stored history back with the new entry appended: the value
    after the turn starts with the value before and ends with
    [User: <message> | AI: <answer>].  A counselling turn of [/get] writes
    the transcript LangChain holds in memory for the session, joined with
    [ | ], the message and the answer last: it extends the joined transcript
    of before the turn, whatever the stored history was. *)
Theorem counseling_turn_writes_history :
  (forall (E : services) (creq : Counseling.CounselingRequest)
          (cookie : session_cookie) (u : string) (o : outside)
          (row : user_row) (a : string),
      username_or_guest cookie = inr u ->
      users o !! u = Some row ->
      counsel_loaded E = true -> db_available E = true ->
      rag_answer E (Counseling.req_user_input creq)
        (default []
           (store o !! (if String.eqb (Counseling.req_session_id creq) EmptyString
                        then "counsel_" +:+ u
                        else Counseling.req_session_id creq)))
        = inr a ->
      let old := default EmptyString (history row) in
      let entry :=
        "User: " +:+ Counseling.req_user_input creq +:+ " | AI: " +:+ a in
      exists new : string,
        (history <$> users (Counseling.counsel_chat E creq cookie o).1 !! u)
          = Some (Some new) /\
        extends old new /\
        (exists before, new = before +:+ entry)) /\
  (forall (E : services) (msg : string) (cookie : session_cookie) (u : string)
          (sessions : gmap string Main.session) (o : outside)
          (s : Main.session) (row : user_row) (a : string),
      username_or_guest cookie = inr u ->
      sessions !! u = Some s ->
      users o !! u = Some row ->
      Main.InDiagnosis s = false -> Main.InCounselor s = true ->
      counsel_loaded E = true -> db_available E = true ->
      rag_answer E msg (default [] (store o !! ("counsel_" +:+ u))) = inr a ->
      let transcript := default [] (store o !! ("counsel_" +:+ u)) in
      let new := join " | " (transcript ++ [msg; a]) in
      (history <$> users (Main.get_response E msg cookie (sessions, o)).1.2 !! u)
        = Some (Some new) /\
      extends (join " | " transcript) new).
Proof.
  split.
  - intros E creq cookie u o row a Hu Hrow Hl Hdb Hrag old entry.
    rewrite (counsel_chat_result E creq cookie u o Hu). cbv zeta. cbn [fst].
    rewrite try_except_raise_state.
    destruct (counsel_respond_turn E u creq o a Hl Hdb Hrag) as [_ Husers].
    rewrite Husers, Hrow. fold old. fold entry.
    rewrite lookup_alter_eq, Hrow. cbn [fmap option_fmap option_map history update_history].
    destruct (String.eqb_spec old EmptyString) as [Hold | Hold].
    + exists entry. split; [reflexivity |]. split.
      * rewrite Hold. exists entry. reflexivity.
      * exists EmptyString. reflexivity.
    + exists (old +:+ " | " +:+ entry). split; [reflexivity |]. split.
      * apply extends_append.
      * exists (old +:+ " | "). rewrite append_assoc. reflexivity.
  - intros E msg cookie u sessions o s row a Hu Hs Hrow Hd Hc Hl Hdb Hrag
           transcript new.
    rewrite (get_response_known E msg cookie u sessions o s Hu Hs).
    cbv zeta. cbn [fst snd]. rewrite try_except_reply_state.
    destruct (respond_counsel_turn E u msg s o a Hd Hc Hl Hdb Hrag)
      as (_ & _ & Husers).
    rewrite Husers. fold transcript. fold new.
    rewrite lookup_alter_eq, Hrow.
    split; [reflexivity | apply join_extends].
Qed.

Lemma counseling_turn_writes_history_example :
  (exists new : string,
      (history <$> users (Counseling.counsel_chat sample_services
                            (Counseling.mkRequest "again" "default") bob
                            bob_after_restart).1 !! "bob")
        = Some (Some new) /\
      extends "User: hi | AI: hello" new /\
      (exists before, new = before +:+ "User: again | AI: I hear you.")) /\
  (history <$> users (Main.get_response sample_services "again" bob
                        ({[ "bob" := Main.counsel_session ]}, alice_and_bob)).1.2
                 !! "bob")
    = Some (Some "hi | hello | again | I hear you.").
Proof.
  destruct counseling_turn_writes_history as [Hchat Hget].
  split.
  - exact (Hchat sample_services (Counseling.mkRequest "again" "default")
             bob "bob" bob_after_restart bob_row "I hear you."
             eq_refl eq_refl eq_refl eq_refl eq_refl).
  - exact (proj1 (Hget sample_services "again" bob "bob"
                    {[ "bob" := Main.counsel_session ]} alice_and_bob
                    Main.counsel_session bob_row "I hear you."
                    eq_refl eq_refl eq_refl eq_refl eq_refl eq_refl eq_refl
                    eq_refl)).
Defined.

(** C7 as stated fails on [/get]: Bob's stored history from before the
    restart is overwritten by the transcript of the new process, which does
    not start with it and carries no [User:] and [AI:] labels. *)
Lemma get_counseling_turn_overwrites_history :
  (history <$> users (Main.get_response sample_services "again" bob
                        ({[ "bob" := Main.counsel_session ]},
                         bob_after_restart)).1.2 !! "bob")
    = Some (Some "again | I hear you.") /\
  history bob_row = Some "User: hi | AI: hello" /\
  ~ extends "User: hi | AI: hello" "again | I hear you.".
Proof.
  split; [vm_compute; reflexivity |]. split; [reflexivity |].
  intros [rest Hrest]. discriminate Hrest.
Qed.

(** ** The questionnaire of [/get]: answers out of domain, lengths, the end *)

(** C2: an answer outside its domain to a pending item of [/get] is answered
    with the re-prompt and changes nothing: no session, no row. *)
Theorem get_reprompts_without_advancing :
  forall (E : services) (msg : string) (cookie : session_cookie) (u : string)
         (sessions : gmap string Main.session) (o : outside) (s : Main.session),
    username_or_guest cookie = inr u ->
    sessions !! u = Some s ->
    Main.InDiagnosis s = true -> Main.InCounselor s = false ->
    (4 <= Main.total s ->
     Main.predicted_class s = Some "Anxiety" \/
     Main.predicted_class s = Some "Depression" \/
     Main.predicted_class s = Some "Addiction" ->
     str_in msg Main.likert_answers = false ->
     Main.get_response E msg cookie (sessions, o)
       = ((sessions, o), inr Main.reprompt_likert)) /\
    (4 <= Main.total s <= 9 ->
     Main.predicted_class s = Some "PTSD" ->
     lower msg <> "yes" -> lower msg <> "no" ->
     Main.get_response E msg cookie (sessions, o)
       = ((sessions, o), inr Main.reprompt_yes_no)).
Proof.
  intros E msg cookie u sessions o s Hu Hs Hd Hc. split.
  - intros Ht Hp Hm.
    rewrite (get_response_known E msg cookie u sessions o s Hu Hs).
    rewrite (try_except_returns _ _ _ _ _
               (respond_invalid_likert E u msg s o Hd Hc Ht Hp Hm)).
    cbn [fst snd]. rewrite (insert_id _ _ _ Hs). reflexivity.
  - intros Ht Hp Hyes Hno.
    assert (Hy : str_in (lower msg) Main.yes_answers = false)
      by (apply not_true_is_false; rewrite yes_answers_spec; exact Hyes).
    assert (Hn : str_in (lower msg) Main.no_answers = false)
      by (apply not_true_is_false; rewrite no_answers_spec; exact Hno).
    rewrite (get_response_known E msg cookie u sessions o s Hu Hs).
    rewrite (try_except_returns _ _ _ _ _
               (respond_invalid_yes_no E u msg s o Hd Hc Ht Hp Hy Hn)).
    cbn [fst snd]. rewrite (insert_id _ _ _ Hs). reflexivity.
Qed.

Lemma get_reprompts_without_advancing_example :
  Main.get_response sample_services "7" alice
    ({[ "alice" := alice_last_item ]}, alice_registered)
    = (({[ "alice" := alice_last_item ]}, alice_registered),
       inr "Please Provide Answers in Required Format !") /\
  Main.get_response sample_services "maybe" alice
    ({[ "alice" := alice_first_ptsd_item ]}, alice_registered)
    = (({[ "alice" := alice_first_ptsd_item ]}, alice_registered),
       inr "Please Provide Answer in Required Format").
Proof.
  split.
  - exact (proj1 (get_reprompts_without_advancing sample_services "7" alice
                    "alice" {[ "alice" := alice_last_item ]} alice_registered
                    alice_last_item eq_refl eq_refl eq_refl eq_refl)
                 ltac:(cbn; lia) (or_introl eq_refl) eq_refl).
  - exact (proj2 (get_reprompts_without_advancing sample_services "maybe" alice
                    "alice" {[ "alice" := alice_first_ptsd_item ]}
                    alice_registered alice_first_ptsd_item
                    eq_refl eq_refl eq_refl eq_refl)
                 ltac:(cbn; lia) eq_refl ltac:(discriminate)
                 ltac:(discriminate)).
Defined.

(** C3: in [/get] a Likert questionnaire has a fixed length: from the state
    the classification leaves (counter 4, the first item asked), the
    Anxiety questionnaire takes 7 valid answers, the Depression one 9 and
    the Addiction one 10, each worth 0 to 3 points.  All but the last are
    answered with the next item of the questionnaire, in order, and write
    no row; the last one sets the counter to -1, completes the score with
    the sum of all the answers, and stores and reports the severity of that
    sum, in a row that keeps its disorder and its history. *)
Theorem get_questionnaire_lengths :
  forall (E : services) (cookie : session_cookie) (u : string)
         (sessions : gmap string Main.session) (o : outside)
         (s : Main.session) (row : user_row)
         (items : nat) (questions : list string)
         (table : Z -> string * string)
         (answers : list string) (last_answer : string),
    (Main.predicted_class s = Some "Anxiety" /\ items = 7%nat
       /\ questions = anxiety_later_items /\ table = Main.anxiety_result) \/
    (Main.predicted_class s = Some "Depression" /\ items = 9%nat
       /\ questions = depression_later_items
       /\ table = Main.depression_result) \/
    (Main.predicted_class s = Some "Addiction" /\ items = 10%nat
       /\ questions = addiction_later_items
       /\ table = Main.addiction_result) ->
    username_or_guest cookie = inr u ->
    sessions !! u = Some s ->
    users o !! u = Some row ->
    Main.InDiagnosis s = true -> Main.InCounselor s = false ->
    Main.total s = 4 ->
    db_available E = true ->
    Forall (fun msg => str_in msg Main.likert_answers = true) answers ->
    str_in last_answer Main.likert_answers = true ->
    S (length answers) = items ->
    let r := get_responses E cookie answers (sessions, o) in
    let r' := Main.get_response E last_answer cookie r.1 in
    let final :=
      Main.userScore s + answers_total answers + answer_value last_answer in
    Forall (fun msg => 0 <= answer_value msg <= 3) (answers ++ [last_answer])
    /\
    (Main.total <$> r.1.1 !! u) = Some (4 + Z.of_nat (length answers)) /\
    r.1.2 = o /\
    r.2 = map inr questions /\
    (Main.total <$> r'.1.1 !! u) = Some (-1) /\
    (Main.userScore <$> r'.1.1 !! u) = Some final /\
    users r'.1.2 !! u
      = Some (mkRow (disorder row) (table final).1 (history row)) /\
    r'.2 = inr (table final).2.
Proof.
  intros E cookie u sessions o s row items questions table answers last_answer
         Hcase Hu Hs Hrow Hd Hc Ht Hdb Hall Hlast Hlen r r' final.
  set (last := 3 + Z.of_nat items).
  assert (Hp : (Main.predicted_class s = Some "Anxiety" /\ last = 10) \/
               (Main.predicted_class s = Some "Depression" /\ last = 12) \/
               (Main.predicted_class s = Some "Addiction" /\ last = 13)).
  { unfold last.
    destruct Hcase as [(? & -> & _) | [(? & -> & _) | (? & -> & _)]];
      [left | right; left | right; right]; split; (assumption || reflexivity). }
  assert (Hq : ((Main.predicted_class s = Some "Anxiety"
                   /\ questions = anxiety_later_items) \/
                (Main.predicted_class s = Some "Depression"
                   /\ questions = depression_later_items) \/
                (Main.predicted_class s = Some "Addiction"
                   /\ questions = addiction_later_items)) /\
               length questions = length answers).
  { destruct Hcase as [(? & Hi & -> & _) | [(? & Hi & -> & _) | (? & Hi & -> & _)]];
      (split; [tauto | cbn [length anxiety_later_items depression_later_items
                              addiction_later_items]; lia]). }
  destruct Hq as [Hq Hqlen].
  assert (Hbound : Main.total s + Z.of_nat (length answers) <= last)
    by (unfold last; lia).
  destruct (get_responses_likert_items E cookie u last answers Hu Hall
              sessions o s Hs Hd Hc Hp ltac:(lia) Hbound)
    as (Hsess & Ho & _).
  pose proof (get_responses_likert_replies E cookie u questions answers Hu Hall
                sessions o s Hs Hd Hc Hq ltac:(lia)
                ltac:(rewrite Ht, Hqlen; cbn; lia)) as Hreplies.
  rewrite Ht in Hreplies. change (Z.to_nat (4 - 4)) with 0%nat in Hreplies.
  rewrite drop_0, <- Hqlen, firstn_all in Hreplies.
  fold r in Hsess, Ho, Hreplies.
  set (s' := Main.mkSession true false
               (Main.total s + Z.of_nat (length answers))
               (Main.userScore s + answers_total answers)
               (Main.userText_diagnosis s) (Main.predicted_class s)) in *.
  assert (Hp' : (Main.predicted_class s' = Some "Anxiety" /\ last = 10
                   /\ table = Main.anxiety_result) \/
                (Main.predicted_class s' = Some "Depression" /\ last = 12
                   /\ table = Main.depression_result) \/
                (Main.predicted_class s' = Some "Addiction" /\ last = 13
                   /\ table = Main.addiction_result)).
  { unfold last. cbn [s' Main.predicted_class].
    destruct Hcase as [(? & -> & _ & ?) | [(? & -> & _ & ?) | (? & -> & _ & ?)]];
      [left | right; left | right; right]; repeat split;
      (assumption || reflexivity). }
  assert (Ht' : Main.total s' = last)
    by (unfold last; cbn [s' Main.total]; lia).
  split.
  { apply Forall_app. split.
    - eapply Forall_impl; [exact Hall |]. intros msg Hmsg.
      exact (answer_value_likert msg Hmsg).
    - constructor; [exact (answer_value_likert last_answer Hlast) | constructor]. }
  split; [rewrite Hsess; unfold s'; rewrite Ht; reflexivity |].
  split; [exact Ho |]. split; [exact Hreplies |].
  subst r'. destruct r as [[sessions' o'] replies]. cbn [fst snd] in *. subst o'.
  rewrite (get_response_known E last_answer cookie u sessions' o s' Hu Hsess).
  rewrite (try_except_returns _ _ _ _ _
             (respond_likert_last_item E u last_answer s' o eq_refl eq_refl
                last table Hp' Ht' Hlast Hdb)).
  cbn [fst snd]. cbn [s' Main.userScore]. fold final.
  split; [rewrite lookup_insert_eq; reflexivity |].
  split; [rewrite lookup_insert_eq; reflexivity |].
  split; [| reflexivity].
  unfold with_users. cbn [users]. rewrite lookup_alter_eq, Hrow. reflexivity.
Qed.

Lemma get_questionnaire_lengths_example :
  let r := get_responses sample_services alice ["1"; "1"; "1"; "1"; "1"; "1"]
             ({[ "alice" := alice_classified ]},
              alice_registered) in
  let r' := Main.get_response sample_services "0" alice r.1 in
  r.2 = [ inr "Not being able to stop or control worrying";
          inr "Worrying too much about different things";
          inr "Trouble relaxing";
          inr "Being so restless that it is hard to sit still";
          inr "Becoming easily annoyed or irritable";
          inr "Feeling afraid, as if something awful might happen" ] /\
  (Main.total <$> r.1.1 !! "alice") = Some 10 /\
  users r'.1.2 !! "alice" = Some (mkRow "Anxiety" "Mild" None) /\
  r'.2 = inr "The Severity of your Anxiety Disorder is Mild.<br>You can refer to professional help or You can also try our Anxiety Health Counsellor".
Proof.
  pose proof (get_questionnaire_lengths sample_services alice "alice"
                {[ "alice" := alice_classified ]}
                alice_registered
                alice_classified
                alice_row 7%nat anxiety_later_items Main.anxiety_result
                ["1"; "1"; "1"; "1"; "1"; "1"] "0"
                (or_introl (conj eq_refl (conj eq_refl (conj eq_refl eq_refl))))
                eq_refl eq_refl eq_refl eq_refl eq_refl eq_refl eq_refl
                ltac:(repeat constructor) eq_refl eq_refl) as H.
  cbv zeta in H. cbv zeta.
  destruct H as (_ & Htotal & _ & Hreplies & _ & _ & Hrow & Hreply).
  split; [exact Hreplies |]. split; [exact Htotal |].
  split; [exact Hrow | exact Hreply].
Defined.

(** C9: in [/get] the counter -1 is final: every later message is answered with
    the thank-you text and changes nothing, whatever the services do. *)
Theorem get_completed_run_is_absorbing :
  forall (E : services) (msg : string) (cookie : session_cookie) (u : string)
         (sessions : gmap string Main.session) (o : outside) (s : Main.session),
    username_or_guest cookie = inr u ->
    sessions !! u = Some s ->
    Main.InDiagnosis s = true -> Main.InCounselor s = false ->
    Main.total s = -1 ->
    Main.get_response E msg cookie (sessions, o)
      = ((sessions, o), inr Main.thank_you).
Proof.
  intros E msg cookie u sessions o s Hu Hs Hd Hc Ht.
  rewrite (get_response_known E msg cookie u sessions o s Hu Hs).
  rewrite (try_except_returns _ _ _ _ _
             (respond_below_first_step E u msg s o Hd Hc ltac:(lia))).
  cbn [fst snd]. rewrite (insert_id _ _ _ Hs). reflexivity.
Qed.

Lemma get_completed_run_is_absorbing_example :
  Main.get_response services_without_database "3" alice
    ({[ "alice" := alice_finished ]},
     alice_registered)
    = (({[ "alice" := alice_finished ]},
        alice_registered),
       inr "Thank you for using our website. Refresh the page for another diagnosis").
Proof.
  exact (get_completed_run_is_absorbing services_without_database "3" alice
           "alice" {[ "alice" := alice_finished ]} alice_registered
           alice_finished
           eq_refl eq_refl eq_refl eq_refl eq_refl).
Defined.

(** X4: a request whose cookie [get_current_user] refuses with an
    [HTTPException] (no cookie, no JSON, an object without a user name) is
    served as [guest]: each chat handler treats it as it treats a request
    without cookie, and [/get] touches no session but the one of [guest]. *)
Theorem refused_cookie_is_served_as_guest :
  forall (cookie : session_cookie) (status : Z) (detail : string),
    get_current_user cookie = inl (HTTPException status detail) ->
    username_or_guest cookie = inr "guest" /\
    (forall (E : services) (msg : string)
            (w : gmap string Main.session * outside),
        Main.get_response E msg cookie w = Main.get_response E msg NoCookie w /\
        forall other : string,
          other <> "guest" ->
          (Main.get_response E msg cookie w).1.1 !! other = w.1 !! other) /\
    (forall (E : services) (req : Diagnosis.DiagnosisRequest)
            (w : gmap string Diagnosis.session * outside),
        Diagnosis.diagnosis_chat E req cookie w
          = Diagnosis.diagnosis_chat E req NoCookie w) /\
    (forall (E : services) (creq : Counseling.CounselingRequest) (o : outside),
        Counseling.counsel_chat E creq cookie o
          = Counseling.counsel_chat E creq NoCookie o).
Proof.
  intros cookie status detail Hrefused.
  assert (Hguest : username_or_guest cookie = inr "guest")
    by (unfold username_or_guest; rewrite Hrefused; reflexivity).
  split; [exact Hguest |]. split; [| split].
  - intros E msg w. split.
    + unfold Main.get_response. rewrite Hguest. reflexivity.
    + intros other Hother. unfold Main.get_response. rewrite Hguest.
      destruct (try_except _ _ _) as [[s' o'] r]. cbn [fst snd].
      rewrite lookup_insert_ne by congruence.
      destruct (w.1 !! "guest"); [reflexivity |].
      rewrite lookup_insert_ne by congruence. reflexivity.
  - intros E req w. unfold Diagnosis.diagnosis_chat. rewrite Hguest. reflexivity.
  - intros E creq o. unfold Counseling.counsel_chat. rewrite Hguest. reflexivity.
Qed.

Lemma refused_cookie_is_served_as_guest_example :
  username_or_guest NotJson = inr "guest" /\
  username_or_guest (JsonObject None) = inr "guest".
Proof.
  split.
  - exact (proj1 (refused_cookie_is_served_as_guest NotJson 401
                    "Invalid session" eq_refl)).
  - exact (proj1 (refused_cookie_is_served_as_guest (JsonObject None) 401
                    "Invalid session" eq_refl)).
Defined.

(** X5: the score [/get] keeps is never negative: it starts at 0 and every
    handler keeps it at 0 or above in every session. *)
Theorem get_score_never_negative :
  forall (E : services) (msg : string) (cookie : session_cookie)
         (w : gmap string Main.session * outside),
    (forall u s, w.1 !! u = Some s -> 0 <= Main.userScore s) ->
    (forall u s,
        (Main.get_response E msg cookie w).1.1 !! u = Some s ->
        0 <= Main.userScore s) /\
    (forall u s,
        (Main.diagnosis_page cookie w).1.1 !! u = Some s ->
        0 <= Main.userScore s).
Proof.
  intros E msg cookie w Hinv. split.
  - intros u s. unfold Main.get_response.
    destruct (username_or_guest cookie) as [e | name]; [apply Hinv |].
    cbv zeta.
    set (sessions := match w.1 !! name with
                     | Some _ => w.1
                     | None => <[name := Main.new_session]> w.1
                     end).
    assert (Hinv' : forall u s, sessions !! u = Some s -> 0 <= Main.userScore s).
    { intros u0 s0. unfold sessions.
      destruct (w.1 !! name) eqn:Hname; [apply Hinv |].
      destruct (decide (name = u0)) as [<- | Hne].
      - rewrite lookup_insert_eq. intros [= <-]. cbn. lia.
      - rewrite lookup_insert_ne by assumption. apply Hinv. }
    assert (Hcur : 0 <= Main.userScore (default Main.new_session (sessions !! name))).
    { destruct (sessions !! name) eqn:Hcur; [exact (Hinv' _ _ Hcur) | cbn; lia]. }
    pose proof (respond_score_nonnegative E name msg _ w.2 Hcur) as Hnew.
    rewrite <- (try_except_reply_state _ Main.generic_failure) in Hnew.
    destruct (try_except _ _ _) as [[s' o'] r]. cbn [fst snd] in *.
    destruct (decide (name = u)) as [<- | Hne].
    + rewrite lookup_insert_eq. intros [= <-]. exact Hnew.
    + rewrite lookup_insert_ne by assumption. apply Hinv'.
  - intros u s. unfold Main.diagnosis_page.
    destruct (get_current_user cookie) as [[] | name]; try apply Hinv.
    cbn [fst snd].
    destruct (decide (name = u)) as [<- | Hne].
    + rewrite lookup_insert_eq. intros [= <-]. cbn. lia.
    + rewrite lookup_insert_ne by assumption. apply Hinv.
Qed.

Lemma get_score_never_negative_example :
  0 <= Main.userScore
         (Main.mkSession true false (-1) 6 " a b c" (Some "Anxiety")).
Proof.
  refine (proj1 (get_score_never_negative sample_services "3" alice
                   ({[ "alice" := alice_last_item ]}, alice_registered) _)
                "alice" _ _).
  - intros u s H. cbn [fst] in H.
    apply lookup_singleton_Some in H as [_ <-]. cbn. lia.
  - vm_compute. reflexivity.
Defined.

(** * More of the [/get] handler *)

(** ** The PTSD questionnaire *)

Lemma yes_value_range (msg : string) : 0 <= yes_value msg <= 1.
Proof. unfold yes_value. destruct (String.eqb _ _); lia. Qed.

Lemma yes_total_range (msgs : list string) :
  0 <= yes_total msgs <= Z.of_nat (length msgs).
Proof.
  induction msgs as [| msg rest IH]; [cbn; lia |].
  cbn [yes_total foldr length]. fold (yes_total rest).
  pose proof (yes_value_range msg). lia.
Qed.

Lemma yes_total_app (l1 l2 : list string) :
  yes_total (l1 ++ l2) = yes_total l1 + yes_total l2.
Proof.
  induction l1 as [| msg rest IH]; [reflexivity |].
  cbn [app yes_total foldr]. fold (yes_total (rest ++ l2)) (yes_total rest).
  rewrite IH. lia.
Qed.

(** What the two membership tests of a PTSD item give for an answer. *)
Lemma yes_or_no_tests (msg : string) :
  yes_or_no msg ->
  (str_in (lower msg) Main.yes_answers = true /\ yes_value msg = 1) \/
  (str_in (lower msg) Main.yes_answers = false /\
   str_in (lower msg) Main.no_answers = true /\ yes_value msg = 0).
Proof.
  unfold yes_value. intros [H | H]; rewrite H; [left | right]; repeat split.
Qed.

Section PtsdItems.
Context (E : services) (u msg : string) (s : Main.session) (o : outside).
Hypothesis Hd : Main.InDiagnosis s = true.
Hypothesis Hc : Main.InCounselor s = false.
Hypothesis Hp : Main.predicted_class s = Some "PTSD".

(** [yes] to the first item: the next item is asked, nothing is scored. *)
Lemma respond_ptsd_first_yes :
  Main.total s = 4 ->
  lower msg = "yes" ->
  Main.respond E u msg (s, o)
    = ((Main.add_total 1 s, o), inr Main.pcptsd_2).
Proof.
  intros Ht Hm. by_execution. open_session s.
  unfold_main. unfold_monad. rewrite Hm.
  change (str_in "yes" Main.no_answers) with false.
  change (str_in "yes" Main.yes_answers) with true. intros r.
  execute; intros <-; reflexivity.
Qed.

(** An item from the second to the fifth: [yes] scores a point, either
    answer moves on. *)
Lemma respond_ptsd_scored_item :
  5 <= Main.total s <= 8 ->
  yes_or_no msg ->
  exists q : string,
    q <> Main.reprompt_yes_no /\ q <> Main.thank_you /\
    Main.respond E u msg (s, o)
      = ((Main.add_total 1 (Main.add_userScore (yes_value msg) s), o), inr q).
Proof.
  intros Ht Hm.
  assert (forall r, Main.respond E u msg (s, o) = r ->
            exists q, q <> Main.reprompt_yes_no /\ q <> Main.thank_you /\
              r = ((Main.add_total 1 (Main.add_userScore (yes_value msg) s), o),
                   inr q))
    as Hx; [| exact (Hx _ eq_refl)].
  open_session s. unfold_main. unfold_monad.
  destruct (yes_or_no_tests msg Hm) as [[Hy ->] | (Hy & Hn & ->)];
    rewrite Hy; try rewrite Hn; rewrite ?Z.add_0_r; intros r;
    execute; intros <-; z_tests; try lia;
    (eexists; split; [| split; [| reflexivity]]; discriminate).
Qed.

(** The same, with the item that is asked. *)
Lemma respond_ptsd_item_asked (q : string) :
  5 <= Main.total s <= 8 ->
  ptsd_later_items !! Z.to_nat (Main.total s - 4) = Some q ->
  yes_or_no msg ->
  Main.respond E u msg (s, o)
    = ((Main.add_total 1 (Main.add_userScore (yes_value msg) s), o), inr q).
Proof.
  intros Ht Hq Hm. by_execution.
  open_session s. unfold_main. unfold_monad.
  destruct (yes_or_no_tests msg Hm) as [[Hy ->] | (Hy & Hn & ->)];
    rewrite Hy; try rewrite Hn; rewrite ?Z.add_0_r; intros r;
    execute; intros <-; z_tests; subst; try lia;
    vm_compute in Hq; simplify_eq; reflexivity.
Qed.

(** The sixth item ends the questionnaire and stores the severity of the
    score. *)
Lemma respond_ptsd_last_item :
  Main.total s = 9 ->
  yes_or_no msg ->
  db_available E = true ->
  let final := Main.userScore s + yes_value msg in
  Main.respond E u msg (s, o)
    = ((Main.set_total (-1) (Main.add_userScore (yes_value msg) s),
        with_users (alter (update_severity (Main.ptsd_result final).1) u) o),
       inr (Main.ptsd_result final).2).
Proof.
  intros Ht Hm Hdb final. subst final. by_execution.
  open_session s. unfold_main. unfold_monad.
  destruct (yes_or_no_tests msg Hm) as [[Hy ->] | (Hy & Hn & ->)];
    rewrite Hy; try rewrite Hn; rewrite Hdb, ?Z.add_0_r; intros r;
    execute; intros <-; reflexivity.
Qed.

End PtsdItems.

(** A run of yes/no answers through the scored PTSD items. *)
Lemma get_responses_ptsd_items (E : services) (cookie : session_cookie)
    (u : string) (answers : list string) :
  username_or_guest cookie = inr u ->
  Forall yes_or_no answers ->
  forall (sessions : gmap string Main.session) (o : outside) (s : Main.session),
    sessions !! u = Some s ->
    Main.InDiagnosis s = true -> Main.InCounselor s = false ->
    Main.predicted_class s = Some "PTSD" ->
    5 <= Main.total s ->
    Main.total s + Z.of_nat (length answers) <= 9 ->
    let r := get_responses E cookie answers (sessions, o) in
    r.1.1 !! u
      = Some (Main.mkSession true false
                (Main.total s + Z.of_nat (length answers))
                (Main.userScore s + yes_total answers)
                (Main.userText_diagnosis s) (Some "PTSD")) /\
    r.1.2 = o /\
    Forall (fun reply => exists q, reply = inr q /\ q <> Main.reprompt_yes_no
                                   /\ q <> Main.thank_you) r.2.
Proof.
  intros Hu Hall.
  induction Hall as [| msg rest Hmsg _ IH]; intros sessions o s Hs Hd Hc Hp Ht Hlen r.
  - subst r. cbn [get_responses fst snd length yes_total foldr Z.of_nat].
    rewrite !Z.add_0_r, Hs. split; [| split; [reflexivity | constructor]].
    destruct s; cbn in *; subst; reflexivity.
  - cbn [length] in Hlen. rewrite Nat2Z.inj_succ in Hlen.
    destruct (respond_ptsd_scored_item E u msg s o Hd Hc Hp ltac:(lia) Hmsg)
      as (q & Hq1 & Hq2 & Hrun).
    subst r. cbn [get_responses].
    rewrite (get_response_known E msg cookie u sessions o s Hu Hs).
    rewrite (try_except_returns _ _ _ _ _ Hrun). cbv zeta. cbn [fst snd].
    set (s1 := Main.add_total 1 (Main.add_userScore (yes_value msg) s)).
    assert (Hp1 : Main.predicted_class s1 = Some "PTSD") by exact Hp.
    assert (Ht1 : Main.total s1 = Main.total s + 1) by reflexivity.
    specialize (IH (<[u := s1]> sessions) o s1 (lookup_insert_eq _ _ _) Hd Hc
                  Hp1 ltac:(lia) ltac:(lia)).
    cbv zeta in IH.
    destruct (get_responses E cookie rest (<[u := s1]> sessions, o))
      as [w2 replies]. cbn [fst snd] in *.
    destruct IH as (Hsess & Ho & Hreplies).
    split; [| split].
    + rewrite Hsess. f_equal. unfold s1.
      cbn [Main.add_total Main.add_userScore Main.set_total Main.total
           Main.userScore Main.userText_diagnosis Main.predicted_class
           length yes_total foldr].
      fold (yes_total rest). rewrite Nat2Z.inj_succ.
      f_equal; lia.
    + exact Ho.
    + constructor; [exists q; repeat split; assumption | exact Hreplies].
Qed.

(** The replies to such a run: the later items from the counter on. *)
Lemma get_responses_ptsd_replies (E : services) (cookie : session_cookie)
    (u : string) (answers : list string) :
  username_or_guest cookie = inr u ->
  Forall yes_or_no answers ->
  forall (sessions : gmap string Main.session) (o : outside) (s : Main.session),
    sessions !! u = Some s ->
    Main.InDiagnosis s = true -> Main.InCounselor s = false ->
    Main.predicted_class s = Some "PTSD" ->
    5 <= Main.total s ->
    Main.total s + Z.of_nat (length answers) <= 9 ->
    (get_responses E cookie answers (sessions, o)).2
      = map inr (take (length answers)
                      (drop (Z.to_nat (Main.total s - 4)) ptsd_later_items)).
Proof.
  intros Hu Hall.
  induction Hall as [| msg rest Hmsg _ IH];
    intros sessions o s Hs Hd Hc Hp Ht Hlen.
  - reflexivity.
  - cbn [length] in Hlen. rewrite Nat2Z.inj_succ in Hlen.
    destruct (lookup_lt_is_Some_2 ptsd_later_items
                (Z.to_nat (Main.total s - 4))
                ltac:(cbn [length ptsd_later_items]; lia)) as [q Hq].
    pose proof (respond_ptsd_item_asked E u msg s o Hd Hc Hp q ltac:(lia) Hq
                  Hmsg) as Hrun.
    cbn [get_responses].
    rewrite (get_response_known E msg cookie u sessions o s Hu Hs).
    rewrite (try_except_returns _ _ _ _ _ Hrun). cbv zeta. cbn [fst snd].
    set (s1 := Main.add_total 1 (Main.add_userScore (yes_value msg) s)).
    assert (Hp1 : Main.predicted_class s1 = Some "PTSD") by exact Hp.
    assert (Ht1 : Main.total s1 = Main.total s + 1) by reflexivity.
    assert (Hk : Z.to_nat (Main.total s1 - 4)
                 = S (Z.to_nat (Main.total s - 4))) by lia.
    specialize (IH (<[u := s1]> sessions) o s1 (lookup_insert_eq _ _ _) Hd Hc
                  Hp1 ltac:(lia) ltac:(lia)).
    destruct (get_responses E cookie rest (<[u := s1]> sessions, o))
      as [w2 replies]. cbn [fst snd] in *.
    rewrite IH, Hk, (drop_S _ _ _ Hq). reflexivity.
Qed.

(** X6: in [/get] the PTSD questionnaire takes six answers.  After [yes] to
    the first item, which scores nothing, four yes/no answers are answered
    with the next item, in order, and write no row; the sixth answer sets
    the counter to -1, stores Mild as the severity when fewer than three of
    the five scored answers were [yes] and Moderate/Severe otherwise, in a
    row that keeps its disorder and its history, and replies with the
    message of that severity. *)
Theorem get_ptsd_questionnaire :
  forall (E : services) (cookie : session_cookie) (u : string)
         (sessions : gmap string Main.session) (o : outside)
         (s : Main.session) (row : user_row)
         (first : string) (answers : list string) (last_answer : string),
    username_or_guest cookie = inr u ->
    sessions !! u = Some s ->
    users o !! u = Some row ->
    Main.InDiagnosis s = true -> Main.InCounselor s = false ->
    Main.predicted_class s = Some "PTSD" ->
    Main.total s = 4 -> Main.userScore s = 0 ->
    db_available E = true ->
    lower first = "yes" ->
    Forall yes_or_no answers -> length answers = 4%nat ->
    yes_or_no last_answer ->
    let r := get_responses E cookie (first :: answers) (sessions, o) in
    let r' := Main.get_response E last_answer cookie r.1 in
    let yes := yes_total (answers ++ [last_answer]) in
    (Main.total <$> r.1.1 !! u) = Some 9 /\
    r.1.2 = o /\
    r.2 = map inr ptsd_later_items /\
    (Main.total <$> r'.1.1 !! u) = Some (-1) /\
    (Main.userScore <$> r'.1.1 !! u) = Some yes /\
    0 <= yes <= 5 /\
    users r'.1.2 !! u
      = Some (mkRow (disorder row)
                    (if yes <? 3 then "Mild" else "Moderate/Severe")
                    (history row)) /\
    r'.2 = inr (if yes <? 3
                then "The Severity of your PTSD Disorder is Mild.<br>You can refer to professional help or You can also try our PTSD Health Counsellor"
                else "The Severity of your PTSD Disorder is Moderate/Severe.<br>You can try our PTSD Health Counsellor, but I strongly recommend taking professional help").
Proof.
  intros E cookie u sessions o s row first answers last_answer
         Hu Hs Hrow Hd Hc Hp Ht Hscore Hdb Hfirst Hall Hlen Hlast r r' yes.
  assert (Hyes : 0 <= yes <= 5).
  { unfold yes. pose proof (yes_total_range (answers ++ [last_answer])) as H.
    rewrite length_app, Hlen in H. cbn in H. lia. }
  set (s1 := Main.add_total 1 s).
  assert (Hstep : Main.get_response E first cookie (sessions, o)
                  = ((<[u := s1]> sessions, o), inr Main.pcptsd_2)).
  { rewrite (get_response_known E first cookie u sessions o s Hu Hs).
    rewrite (try_except_returns _ _ _ _ _
               (respond_ptsd_first_yes E u first s o Hd Hc Hp Ht Hfirst)).
    reflexivity. }
  assert (Ht1 : Main.total s1 = 5) by (cbn; lia).
  destruct (get_responses_ptsd_items E cookie u answers Hu Hall
              (<[u := s1]> sessions) o s1 (lookup_insert_eq _ _ _) Hd Hc Hp
              ltac:(lia) ltac:(lia))
    as (Hsess & Ho & _).
  pose proof (get_responses_ptsd_replies E cookie u answers Hu Hall
                (<[u := s1]> sessions) o s1 (lookup_insert_eq _ _ _) Hd Hc Hp
                ltac:(lia) ltac:(lia)) as Hreplies.
  rewrite Ht1, Hlen in Hreplies.
  change (map inr (take 4 (drop (Z.to_nat (5 - 4)) ptsd_later_items)))
    with (map (@inr exn string)
              [Main.pcptsd_3; Main.pcptsd_4; Main.pcptsd_5; Main.pcptsd_6])
    in Hreplies.
  subst r r'. cbn [get_responses]. rewrite Hstep.
  destruct (get_responses E cookie answers (<[u := s1]> sessions, o))
    as [[sessions' o'] replies]. cbn [fst snd] in *. subst o'.
  set (s' := Main.mkSession true false
               (Main.total s1 + Z.of_nat (length answers))
               (Main.userScore s1 + yes_total answers)
               (Main.userText_diagnosis s1) (Some "PTSD")) in *.
  assert (Ht' : Main.total s' = 9) by (cbn [s' Main.total]; lia).
  assert (Hfinal : Main.userScore s' + yes_value last_answer = yes).
  { unfold yes. rewrite yes_total_app. cbn [s' Main.userScore s1
      Main.add_total Main.set_total yes_total foldr]. lia. }
  split; [rewrite Hsess, <- Ht'; reflexivity |].
  split; [reflexivity |].
  split; [rewrite Hreplies; reflexivity |].
  rewrite (get_response_known E last_answer cookie u sessions' o s' Hu Hsess).
  rewrite (try_except_returns _ _ _ _ _
             (respond_ptsd_last_item E u last_answer s' o eq_refl eq_refl
                eq_refl Ht' Hlast Hdb)).
  cbn [fst snd]. rewrite Hfinal.
  split; [rewrite lookup_insert_eq; reflexivity |].
  split; [rewrite lookup_insert_eq;
          cbn [fmap option_fmap option_map Main.userScore Main.set_total
               Main.add_userScore]; rewrite Hfinal; reflexivity |].
  split; [exact Hyes |].
  unfold Main.ptsd_result.
  replace (0 <=? yes) with true by (symmetry; apply Z.leb_le; lia).
  cbn [andb].
  split.
  - unfold with_users. cbn [users]. rewrite lookup_alter_eq, Hrow.
    destruct (yes <? 3); reflexivity.
  - destruct (yes <? 3); reflexivity.
Qed.

Lemma get_ptsd_questionnaire_example :
  let r := get_responses sample_services alice
             ["Yes"; "yes"; "no"; "YES"; "no"]
             ({[ "alice" := alice_first_ptsd_item ]}, alice_registered) in
  let r' := Main.get_response sample_services "no" alice r.1 in
  r.2 = [ inr "Had nightmares about it or thought about it when you did not want to?";
          inr "Tried hard not to think about it or went out of your way to avoid situations that reminded you of it?";
          inr "Were constantly on guard, watchful or easily startled?";
          inr "Felt numb or detached from others, activities, or your surroundings?";
          inr "Felt guilty or unable to stop blaming yourself or others for the event or any problems the event may have caused" ] /\
  users r'.1.2 !! "alice" = Some (mkRow "Anxiety" "Mild" None) /\
  r'.2 = inr "The Severity of your PTSD Disorder is Mild.<br>You can refer to professional help or You can also try our PTSD Health Counsellor".
Proof.
  pose proof (get_ptsd_questionnaire sample_services alice "alice"
                {[ "alice" := alice_first_ptsd_item ]} alice_registered
                alice_first_ptsd_item alice_row "Yes"
                ["yes"; "no"; "YES"; "no"] "no"
                eq_refl eq_refl eq_refl eq_refl eq_refl eq_refl eq_refl eq_refl
                eq_refl eq_refl
                ltac:(repeat constructor;
                      first [left; reflexivity | right; reflexivity])
                eq_refl (or_intror eq_refl)) as H.
  cbv zeta in H. cbv zeta.
  destruct H as (_ & _ & Hreplies & _ & _ & _ & Hrow & Hreply).
  split; [exact Hreplies |]. split; [exact Hrow | exact Hreply].
Defined.

(** ** The score stays within the questionnaire's range *)

Lemma respond_score_bounded (E : services) (u msg : string)
    (s : Main.session) (o : outside) :
  score_bounded s ->
  score_bounded (Main.respond E u msg (s, o)).1.1.
Proof.
  intros Hs.
  assert (forall r, Main.respond E u msg (s, o) = r -> score_bounded r.1.1)
    as Hx; [| exact (Hx _ eq_refl)].
  unfold score_bounded in *. open_session s.
  unfold_main. unfold get_counseling_response, predict_disorder. unfold_monad.
  intros r. execute.
  all: intros <-; main_fields; z_tests.
  all: try match goal with
           | Hm : str_in ?m Main.likert_answers = true, Hi : int ?m = inr _ |- _ =>
               destruct (int_likert m Hm) as (n & Hn & Hrange);
               rewrite Hn in Hi; injection Hi as <-
           end.
  all: lia.
Qed.

(** X7: the score of a [/get] session stays within the range of the
    questionnaires: it is 0 until the first item is answered, grows by at
    most three points for each item answered, and lies between 0 and 30 in
    every session, after every [/get] request and every visit of the
    [/diagnosis] page. *)
Theorem get_score_stays_in_range :
  forall (E : services) (msg : string) (cookie : session_cookie)
         (w : gmap string Main.session * outside),
    (forall u s, w.1 !! u = Some s -> score_bounded s) ->
    (forall u s,
        (Main.get_response E msg cookie w).1.1 !! u = Some s ->
        score_bounded s) /\
    (forall u s,
        (Main.diagnosis_page cookie w).1.1 !! u = Some s -> score_bounded s).
Proof.
  intros E msg cookie w Hinv.
  assert (Hnew : score_bounded Main.new_session)
    by (unfold score_bounded; cbn; lia).
  split.
  - intros u s. unfold Main.get_response.
    destruct (username_or_guest cookie) as [e | name]; [apply Hinv |].
    cbv zeta.
    set (sessions := match w.1 !! name with
                     | Some _ => w.1
                     | None => <[name := Main.new_session]> w.1
                     end).
    assert (Hinv' : forall u s, sessions !! u = Some s -> score_bounded s).
    { intros u0 s0. unfold sessions.
      destruct (w.1 !! name) eqn:Hname; [apply Hinv |].
      destruct (decide (name = u0)) as [<- | Hne].
      - rewrite lookup_insert_eq. intros [= <-]. exact Hnew.
      - rewrite lookup_insert_ne by assumption. apply Hinv. }
    assert (Hcur : score_bounded (default Main.new_session (sessions !! name))).
    { destruct (sessions !! name) eqn:Hcur; [exact (Hinv' _ _ Hcur) | exact Hnew]. }
    pose proof (respond_score_bounded E name msg _ w.2 Hcur) as Hafter.
    rewrite <- (try_except_reply_state _ Main.generic_failure) in Hafter.
    destruct (try_except _ _ _) as [[s' o'] r]. cbn [fst snd] in *.
    destruct (decide (name = u)) as [<- | Hne].
    + rewrite lookup_insert_eq. intros [= <-]. exact Hafter.
    + rewrite lookup_insert_ne by assumption. apply Hinv'.
  - intros u s. unfold Main.diagnosis_page.
    destruct (get_current_user cookie) as [[] | name]; try apply Hinv.
    cbn [fst snd].
    destruct (decide (name = u)) as [<- | Hne].
    + rewrite lookup_insert_eq. intros [= <-]. unfold score_bounded. cbn. lia.
    + rewrite lookup_insert_ne by assumption. apply Hinv.
Qed.

Lemma get_score_stays_in_range_example :
  score_bounded (Main.mkSession true false (-1) 6 " a b c" (Some "Anxiety")).
Proof.
  refine (proj1 (get_score_stays_in_range sample_services "3" alice
                   ({[ "alice" := alice_last_item ]}, alice_registered) _)
                "alice" _ _).
  - intros u s H. cbn [fst] in H.
    apply lookup_singleton_Some in H as [_ <-].
    unfold score_bounded. cbn. lia.
  - vm_compute. reflexivity.
Defined.

(** ** A request touches the caller's session and row only *)

Section RowFrame.
Context (E : services) (u other : string) (o : outside).
Hypothesis Hother : other <> u.

Lemma respond_row_frame (msg : string) (s : Main.session) :
  let r := Main.respond E u msg (s, o) in
  users r.1.2 !! other = users o !! other /\
  dom (users r.1.2) = dom (users o).
Proof.
  intros r. assert (H : Main.respond E u msg (s, o) = r) by reflexivity.
  clearbody r. revert r H. open_session s.
  unfold_main. unfold get_counseling_response, predict_disorder. unfold_monad.
  intros r. execute.
  all: intros <-; row_frame.
Qed.

Lemma diagnosis_respond_row_frame (req : Diagnosis.DiagnosisRequest)
    (s : Diagnosis.session) :
  let r := Diagnosis.respond E u req (s, o) in
  users r.1.2 !! other = users o !! other /\
  dom (users r.1.2) = dom (users o).
Proof.
  intros r. assert (H : Diagnosis.respond E u req (s, o) = r) by reflexivity.
  clearbody r. revert r H. open_request req. open_dsession s.
  unfold_diagnosis. unfold predict_disorder. unfold_monad.
  intros r. execute.
  all: intros <-; row_frame.
Qed.

Lemma counsel_respond_row_frame (creq : Counseling.CounselingRequest) :
  let r := Counseling.respond E u creq (tt, o) in
  users r.1.2 !! other = users o !! other /\
  dom (users r.1.2) = dom (users o).
Proof.
  intros r. assert (H : Counseling.respond E u creq (tt, o) = r) by reflexivity.
  clearbody r. revert r H. destruct creq as [text sid].
  unfold Counseling.respond, get_counseling_response.
  cbv beta iota zeta delta [Counseling.req_user_input Counseling.req_session_id].
  unfold_monad. intros r. execute.
  all: intros <-; row_frame.
Qed.

End RowFrame.

Section StoreFrame.
Context (E : services) (u : string) (o : outside).

Lemma respond_store_frame (msg : string) (s : Main.session) (key : string) :
  key <> "counsel_" +:+ u ->
  store (Main.respond E u msg (s, o)).1.2 !! key = store o !! key.
Proof.
  intros Hkey.
  assert (forall r, Main.respond E u msg (s, o) = r ->
                    store r.1.2 !! key = store o !! key) as Hx;
    [| exact (Hx _ eq_refl)].
  open_session s.
  unfold_main. unfold get_counseling_response, predict_disorder. unfold_monad.
  intros r. execute.
  all: intros <-; store_frame.
Qed.

Lemma diagnosis_respond_store_frame (req : Diagnosis.DiagnosisRequest)
    (s : Diagnosis.session) :
  store (Diagnosis.respond E u req (s, o)).1.2 = store o.
Proof.
  assert (forall r, Diagnosis.respond E u req (s, o) = r ->
                    store r.1.2 = store o) as Hx;
    [| exact (Hx _ eq_refl)].
  open_request req. open_dsession s.
  unfold_diagnosis. unfold predict_disorder. unfold_monad.
  intros r. execute.
  all: intros <-; reflexivity.
Qed.

Lemma counsel_respond_store_frame (creq : Counseling.CounselingRequest)
    (key : string) :
  key <> (if String.eqb (Counseling.req_session_id creq) EmptyString
          then "counsel_" +:+ u else Counseling.req_session_id creq) ->
  store (Counseling.respond E u creq (tt, o)).1.2 !! key = store o !! key.
Proof.
  intros Hkey.
  assert (forall r, Counseling.respond E u creq (tt, o) = r ->
                    store r.1.2 !! key = store o !! key) as Hx;
    [| exact (Hx _ eq_refl)].
  destruct creq as [text sid].
  cbn [Counseling.req_user_input Counseling.req_session_id] in *.
  unfold Counseling.respond, get_counseling_response.
  cbv beta iota zeta delta [Counseling.req_user_input Counseling.req_session_id].
  unfold_monad. intros r. execute.
  all: intros <-; store_frame.
Qed.

End StoreFrame.

Lemma append_cancel (p a b : string) : p +:+ a = p +:+ b -> a = b.
Proof.
  induction p as [| c p IH]; [exact (fun H => H) |].
  rewrite !append_cons. intros [= H]. exact (IH H).
Qed.

(** X8: a chat request touches no row and no session of another user.
    Whatever the services do, [/get], [/diagnosis/chat] and [/counsel/chat]
    leave the row of every other user name as it was and neither create nor
    delete a row; [/get] and [/diagnosis/chat] leave every other session as
    it was.  Of the histories LangChain keeps, [/get] touches none but the
    one of its caller, [/diagnosis/chat] none, and [/counsel/chat] none but
    the one the request names, which need not be the caller's. *)
Theorem chat_request_touches_only_the_caller :
  forall (E : services) (cookie : session_cookie) (u other : string),
    username_or_guest cookie = inr u ->
    other <> u ->
    (forall (msg : string) (w : gmap string Main.session * outside),
        let r := Main.get_response E msg cookie w in
        r.1.1 !! other = w.1 !! other /\
        users r.1.2 !! other = users w.2 !! other /\
        dom (users r.1.2) = dom (users w.2) /\
        (forall key : string,
            key <> "counsel_" +:+ u ->
            store r.1.2 !! key = store w.2 !! key) /\
        store r.1.2 !! ("counsel_" +:+ other)
          = store w.2 !! ("counsel_" +:+ other)) /\
    (forall (req : Diagnosis.DiagnosisRequest)
            (w : gmap string Diagnosis.session * outside),
        let r := Diagnosis.diagnosis_chat E req cookie w in
        r.1.1 !! ("diagnosis_" +:+ other) = w.1 !! ("diagnosis_" +:+ other) /\
        users r.1.2 !! other = users w.2 !! other /\
        dom (users r.1.2) = dom (users w.2) /\
        store r.1.2 = store w.2) /\
    (forall (creq : Counseling.CounselingRequest) (o : outside),
        let r := Counseling.counsel_chat E creq cookie o in
        let named :=
          if String.eqb (Counseling.req_session_id creq) EmptyString
          then "counsel_" +:+ u else Counseling.req_session_id creq in
        users r.1 !! other = users o !! other /\
        dom (users r.1) = dom (users o) /\
        (forall key : string,
            key <> named -> store r.1 !! key = store o !! key)).
Proof.
  intros E cookie u other Hu Hother.
  assert (Hcounsel : "counsel_" +:+ other <> "counsel_" +:+ u).
  { intros Heq. apply Hother. exact (append_cancel _ _ _ Heq). }
  split; [| split].
  - intros msg w r. subst r. unfold Main.get_response. rewrite Hu. cbv zeta.
    set (sessions := match w.1 !! u with
                     | Some _ => w.1
                     | None => <[u := Main.new_session]> w.1
                     end).
    assert (Hsess : sessions !! other = w.1 !! other).
    { unfold sessions. destruct (w.1 !! u); [reflexivity |].
      apply lookup_insert_ne. congruence. }
    pose proof (respond_row_frame E u other w.2 Hother msg
                  (default Main.new_session (sessions !! u))) as Hrows.
    pose proof (respond_store_frame E u w.2 msg
                  (default Main.new_session (sessions !! u))) as Hstore.
    cbv zeta in Hrows.
    rewrite <- (try_except_reply_state _ Main.generic_failure) in Hrows.
    rewrite <- (try_except_reply_state _ Main.generic_failure) in Hstore.
    destruct (try_except _ _ _) as [[s' o'] reply]. cbn [fst snd] in *.
    rewrite lookup_insert_ne by congruence.
    destruct Hrows as [Hrow Hdom].
    split; [exact Hsess |]. split; [exact Hrow |]. split; [exact Hdom |].
    split; [exact Hstore | exact (Hstore _ Hcounsel)].
  - intros req w r. subst r. unfold Diagnosis.diagnosis_chat. rewrite Hu.
    cbv zeta.
    set (sessions := match w.1 !! ("diagnosis_" +:+ u) with
                     | Some _ => w.1
                     | None => <["diagnosis_" +:+ u := Diagnosis.new_session]> w.1
                     end).
    assert (Hkey : "diagnosis_" +:+ u <> "diagnosis_" +:+ other).
    { intros Heq. apply Hother. symmetry. exact (append_cancel _ _ _ Heq). }
    assert (Hsess : sessions !! ("diagnosis_" +:+ other)
                    = w.1 !! ("diagnosis_" +:+ other)).
    { unfold sessions. destruct (w.1 !! ("diagnosis_" +:+ u)); [reflexivity |].
      apply lookup_insert_ne. exact Hkey. }
    pose proof (diagnosis_respond_row_frame E u other w.2 Hother req
                  (default Diagnosis.new_session
                     (sessions !! ("diagnosis_" +:+ u)))) as Hrows.
    pose proof (diagnosis_respond_store_frame E u w.2 req
                  (default Diagnosis.new_session
                     (sessions !! ("diagnosis_" +:+ u)))) as Hstore.
    cbv zeta in Hrows.
    rewrite <- (try_except_raise_state _ Diagnosis.internal_server_error)
      in Hrows.
    rewrite <- (try_except_raise_state _ Diagnosis.internal_server_error)
      in Hstore.
    destruct (try_except _ _ _) as [[s' o'] reply]. cbn [fst snd] in *.
    rewrite lookup_insert_ne by exact Hkey. tauto.
  - intros creq o r named. subst r named.
    rewrite (counsel_chat_result E creq cookie u o Hu). cbv zeta. cbn [fst].
    rewrite try_except_raise_state.
    destruct (counsel_respond_row_frame E u other o Hother creq)
      as [Hrow Hdom].
    split; [exact Hrow |]. split; [exact Hdom |].
    intros key Hkey. exact (counsel_respond_store_frame E u o creq key Hkey).
Qed.

Lemma chat_request_touches_only_the_caller_example :
  let r := Main.get_response sample_services "hello" alice
             ({[ "alice" := Main.counsel_session ]}, alice_and_bob) in
  users r.1.2 !! "bob"
    = Some (mkRow "PTSD" "Mild" (Some "User: hi | AI: hello")) /\
  store r.1.2 !! "counsel_bob" = Some ["hi"; "hello"].
Proof.
  pose proof (proj1 (chat_request_touches_only_the_caller
                       sample_services alice "alice" "bob"
                       eq_refl ltac:(discriminate))
                    "hello"
                    ({[ "alice" := Main.counsel_session ]}, alice_and_bob))
    as H.
  cbv zeta in H. destruct H as (_ & Hrow & _ & _ & Hstore).
  cbv zeta. split.
  - rewrite Hrow. reflexivity.
  - etransitivity; [exact Hstore | reflexivity].
Defined.

(** ** Outside the two workflows *)

Lemma respond_keeps_workflow (E : services) (u msg : string)
    (s : Main.session) (o : outside) :
  let r := Main.respond E u msg (s, o) in
  Main.InDiagnosis r.1.1 = Main.InDiagnosis s /\
  Main.InCounselor r.1.1 = Main.InCounselor s.
Proof.
  intros r. assert (H : Main.respond E u msg (s, o) = r) by reflexivity.
  clearbody r. revert r H. open_session s.
  unfold_main. unfold get_counseling_response, predict_disorder. unfold_monad.
  intros r. execute.
  all: intros <-; main_fields; split; reflexivity.
Qed.

Lemma respond_outside_workflows (E : services) (u msg : string)
    (s : Main.session) (o : outside) :
  Main.InDiagnosis s = Main.InCounselor s ->
  Main.respond E u msg (s, o) = ((s, o), inr Main.visit_a_page).
Proof.
  intros Hflags. by_execution. open_session s.
  match goal with b : bool |- _ => destruct b end;
    unfold_main; unfold_monad; intros r;
    execute; intros <-; reflexivity.
Qed.

(** X9: [/get] serves a workflow only to a session a page has opened.  A
    request never changes the two workflow flags of the caller's session;
    and when the caller has no session yet, or a session with neither or
    both flags set, the reply is the invitation to visit a page, no service
    is called and no row is written. *)
Theorem get_outside_workflows :
  forall (E : services) (msg : string) (cookie : session_cookie) (u : string)
         (w : gmap string Main.session * outside),
    username_or_guest cookie = inr u ->
    let before := default Main.new_session (w.1 !! u) in
    let r := Main.get_response E msg cookie w in
    (exists after : Main.session,
        r.1.1 !! u = Some after /\
        Main.InDiagnosis after = Main.InDiagnosis before /\
        Main.InCounselor after = Main.InCounselor before) /\
    (Main.InDiagnosis before = Main.InCounselor before ->
     r.2 = inr Main.visit_a_page /\
     r.1.2 = w.2 /\
     r.1.1 !! u = Some before).
Proof.
  intros E msg cookie u w Hu before r.
  assert (Hr : r = let x := try_except (Main.respond E u msg)
                              (fun _ => ret Main.generic_failure)
                              (before, w.2) in
                   ((<[u := x.1.1]>
                       (match w.1 !! u with
                        | Some _ => w.1
                        | None => <[u := Main.new_session]> w.1
                        end), x.1.2), x.2)).
  { subst r before. unfold Main.get_response. rewrite Hu. cbv zeta.
    destruct (w.1 !! u) as [s |] eqn:Hs; cbn [default from_option id].
    - rewrite Hs. cbn [default from_option id].
      destruct (try_except _ _ _) as [[s' o'] reply]. reflexivity.
    - rewrite lookup_insert_eq. cbn [default from_option id].
      destruct (try_except _ _ _) as [[s' o'] reply]. reflexivity. }
  rewrite Hr. cbv zeta. cbn [fst snd]. split.
  - eexists. split; [apply lookup_insert_eq |].
    rewrite try_except_reply_state.
    exact (respond_keeps_workflow E u msg before w.2).
  - intros Hflags.
    rewrite (try_except_returns _ _ _ _ _
               (respond_outside_workflows E u msg before w.2 Hflags)).
    cbn [fst snd]. repeat split. apply lookup_insert_eq.
Qed.

Lemma get_outside_workflows_example :
  (Main.get_response sample_services "hello" NoCookie (∅, alice_registered)).2
    = inr Main.visit_a_page.
Proof.
  exact (proj1 (proj2 (get_outside_workflows sample_services "hello" NoCookie
                         "guest" (∅, alice_registered) eq_refl)
                      eq_refl)).
Defined.

(** * The history pages *)

(** ** Reversal, prefixes, suffixes and slices *)

Lemma rev_onto_accumulator (s acc : string) :
  rev_onto s acc = rev_onto s EmptyString +:+ acc.
Proof.
  revert acc. induction s as [| c s IH]; intros acc; [reflexivity |].
  cbn [rev_onto]. rewrite (IH (String c acc)), (IH (String c EmptyString)).
  rewrite append_assoc. reflexivity.
Qed.

Lemma rev_onto_append (a b acc : string) :
  rev_onto (a +:+ b) acc = rev_onto b (rev_onto a acc).
Proof.
  revert acc. induction a as [| c a IH]; intros acc; [reflexivity |].
  rewrite append_cons. cbn [rev_onto]. apply IH.
Qed.

Lemma startswith_append (p x : string) : startswith (p +:+ x) p = true.
Proof.
  induction p as [| c p IH]; [reflexivity |].
  rewrite append_cons. cbn [startswith]. rewrite Ascii.eqb_refl. exact IH.
Qed.

Lemma startswith_extended (s p x : string) :
  startswith s p = true -> startswith (s +:+ x) p = true.
Proof.
  revert s. induction p as [| c p IH]; intros s H; [reflexivity |].
  destruct s as [| d s]; [discriminate H |].
  rewrite append_cons. cbn [startswith] in *.
  apply andb_true_iff in H as [-> H]. exact (IH s H).
Qed.

Lemma endswith_append (x suffix : string) : endswith (x +:+ suffix) suffix = true.
Proof.
  unfold endswith. rewrite rev_onto_append.
  rewrite (rev_onto_accumulator suffix (rev_onto x EmptyString)).
  apply startswith_append.
Qed.

Lemma length_append (a b : string) :
  String.length (a +:+ b) = (String.length a + String.length b)%nat.
Proof.
  induction a as [| c a IH]; [reflexivity |].
  rewrite append_cons. cbn [String.length Nat.add]. rewrite IH. reflexivity.
Qed.

Lemma substring_whole_prefix (h t : string) :
  String.substring 0 (String.length h) (h +:+ t) = h.
Proof.
  induction h as [| c h IH].
  - cbn [String.length]. destruct t; reflexivity.
  - rewrite append_cons. cbn [String.length String.substring].
    rewrite IH. reflexivity.
Qed.

Lemma substring_skip_prefix (a s : string) (m : nat) :
  String.substring (String.length a) m (a +:+ s) = String.substring 0 m s.
Proof.
  induction a as [| c a IH]; [reflexivity |].
  rewrite append_cons. cbn [String.length String.substring]. exact IH.
Qed.

(** The slice that drops a prefix and a suffix that is not empty gives the
    text between them. *)
Lemma py_slice_between (a h b : string) :
  b <> EmptyString ->
  py_slice (a +:+ h +:+ b) (Z.of_nat (String.length a))
           (- Z.of_nat (String.length b)) = h.
Proof.
  intros Hb.
  assert (Hlen : (0 < String.length b)%nat)
    by (destruct b; [contradiction | cbn; lia]).
  unfold py_slice. rewrite !length_append.
  set (la := String.length a). set (lh := String.length h).
  set (lb := String.length b) in *.
  destruct (Z.ltb_spec (Z.of_nat la) 0) as [Hneg | _]; [lia |].
  destruct (Z.ltb_spec (- Z.of_nat lb) 0) as [_ | Hpos]; [| lia].
  replace (Z.to_nat (Z.min (Z.of_nat la) (Z.of_nat (la + (lh + lb)))))
    with la by lia.
  replace (Z.to_nat
             (Z.max (- Z.of_nat lb + Z.of_nat (la + (lh + lb))) 0
              - Z.min (Z.of_nat la) (Z.of_nat (la + (lh + lb)))))
    with lh by lia.
  unfold la, lh. rewrite substring_skip_prefix. apply substring_whole_prefix.
Qed.

(** ** What is shown of a stored history *)

Lemma shown_printed_tuple (h : string) :
  shown_history (Some (Some ("('" +:+ h +:+ "',)"))) = h.
Proof.
  unfold shown_history.
  rewrite (startswith_append "('" (h +:+ "',)")).
  replace (endswith ("('" +:+ h +:+ "',)") "',)") with true
    by (rewrite <- (append_assoc "('" h "',)"); symmetry; apply endswith_append).
  replace (String.eqb ("('" +:+ h +:+ "',)") EmptyString) with false
    by reflexivity.
  cbn [andb].
  exact (py_slice_between "('" h "',)" ltac:(discriminate)).
Qed.

Lemma shown_quoted (h : string) :
  shown_history (Some (Some ("'" +:+ h +:+ "'"))) = h.
Proof.
  unfold shown_history.
  replace (startswith ("'" +:+ h +:+ "'") "('") with false by reflexivity.
  rewrite (startswith_append "'" (h +:+ "'")).
  replace (endswith ("'" +:+ h +:+ "'") "'") with true
    by (rewrite <- (append_assoc "'" h "'"); symmetry; apply endswith_append).
  replace (String.eqb ("'" +:+ h +:+ "'") EmptyString) with false
    by reflexivity.
  cbn [andb].
  exact (py_slice_between "'" h "'" ltac:(discriminate)).
Qed.

Lemma shown_unquoted (h : string) :
  h <> EmptyString ->
  startswith h "'" = false -> startswith h "('" = false ->
  shown_history (Some (Some h)) = h.
Proof.
  intros Hne Hq Ht. unfold shown_history.
  destruct (String.eqb_spec h EmptyString); [contradiction |].
  rewrite Hq, Ht. reflexivity.
Qed.

(** A history that starts with [User: ] is shown as it is stored. *)
Lemma shown_labelled (h : string) :
  startswith h "User: " = true -> shown_history (Some (Some h)) = h.
Proof.
  intros H. destruct h as [| c h]; [discriminate H |].
  cbn [startswith] in H. apply andb_true_iff in H as [Hc _].
  apply Ascii.eqb_eq in Hc. subst c.
  apply shown_unquoted; [discriminate | reflexivity | reflexivity].
Qed.

(** X10: what the history pages show of the stored text.  The wrapping of
    a printed one-element tuple and the wrapping of a quoted string are
    taken off and give the wrapped text back; a text that starts neither
    with a quote nor with the opening of such a tuple is shown as it is; and
    a missing row, a NULL and an empty text are shown as the notice that
    there is no history. *)
Theorem shown_history_unwraps :
  (forall h : string, shown_history (Some (Some ("('" +:+ h +:+ "',)"))) = h) /\
  (forall h : string, shown_history (Some (Some ("'" +:+ h +:+ "'"))) = h) /\
  (forall h : string,
      h <> EmptyString ->
      startswith h "'" = false -> startswith h "('" = false ->
      shown_history (Some (Some h)) = h) /\
  shown_history None = "No conversation history available." /\
  shown_history (Some None) = "No conversation history available." /\
  shown_history (Some (Some EmptyString)) = "No conversation history available.".
Proof.
  split; [exact shown_printed_tuple |].
  split; [exact shown_quoted |].
  split; [exact shown_unquoted |].
  repeat split.
Qed.

Lemma shown_history_unwraps_example :
  shown_history (Some (Some "('User: hi | AI: hello',)")) = "User: hi | AI: hello" /\
  shown_history (Some (Some "hi | hello")) = "hi | hello".
Proof.
  destruct shown_history_unwraps as (Htuple & _ & Hplain & _).
  split.
  - exact (Htuple "User: hi | AI: hello").
  - exact (Hplain "hi | hello" ltac:(discriminate) eq_refl eq_refl).
Defined.

(** ** The two handlers *)

Lemma history_page_body_reads (E : services) (u : string) (o : outside) :
  history_page_body E u (tt, o)
  = ((tt, o),
     inr (TemplateResponse "history.html"
            [("input_string",
              Text (if db_available E
                    then shown_history (history <$> users o !! u)
                    else "Error retrieving history."))])).
Proof.
  unfold history_page_body, select_history, get_db. unfold_monad.
  destruct (db_available E); reflexivity.
Qed.

Lemma try_except_no_exception {S A} (m : M S A) (h : exn -> M S A)
    (st : S * outside) (a : A) :
  (m st).2 = inr a -> try_except m h st = m st.
Proof.
  unfold try_except. destruct (m st) as [st' [e | b]]; [discriminate | reflexivity].
Qed.

(** X11: the history pages of [main.py] and of [counseling.py] never answer
    with an exception and never change what is stored, whatever the
    database does, for every cookie that [get_current_user] accepts or
    refuses with an [HTTPException].  A refused cookie is sent to the
    landing page (by a redirection in [main.py], by rendering it in
    [counseling.py]); an accepted one gets [history.html] with the stored
    history of that user as [shown_history] presents it, or with the text
    [Error retrieving history.] when the database cannot be read. *)
Theorem history_pages_never_fail (E : services) (cookie : session_cookie)
    (o : outside) :
  cookie <> JsonOther ->
  let shown (u : string) :=
    TemplateResponse "history.html"
      [("input_string",
        Text (if db_available E
              then shown_history (history <$> users o !! u)
              else "Error retrieving history."))] in
  MainPages.history_page E cookie o
    = (o, inr (match get_current_user cookie with
               | inr u => shown u
               | inl _ => RedirectResponse "/" 302 KeepCookie
               end)) /\
  CounselingPages.history_page E cookie o
    = (o, inr (match get_current_user cookie with
               | inr u => shown u
               | inl _ => TemplateResponse "landing.html" []
               end)).
Proof.
  intros Hc shown. subst shown.
  unfold MainPages.history_page, CounselingPages.history_page.
  destruct cookie as [| | [u |] |]; cbn [get_current_user];
    try contradiction; try (split; reflexivity).
  destruct (String.eqb u EmptyString); [split; reflexivity |].
  rewrite history_page_body_reads. split; reflexivity.
Qed.

Lemma history_pages_never_fail_example :
  MainPages.history_page services_without_database alice alice_registered
    = (alice_registered,
       inr (TemplateResponse "history.html"
              [("input_string", Text "Error retrieving history.")])) /\
  CounselingPages.history_page sample_services NotJson alice_registered
    = (alice_registered, inr (TemplateResponse "landing.html" [])).
Proof.
  split.
  - exact (proj1 (history_pages_never_fail services_without_database
                    alice alice_registered ltac:(discriminate))).
  - exact (proj2 (history_pages_never_fail sample_services NotJson
                    alice_registered ltac:(discriminate))).
Defined.

(** X12: what [/counsel/chat] stores, the history pages show.  For a
    registered user whose stored history is empty or starts with [User: ],
    after a turn of [/counsel/chat] that the chain answers both history
    pages show exactly the stored text, the earlier history followed by the
    new exchange, and that text starts with [User: ] again, so that the
    same holds after every later turn. *)
Theorem history_pages_show_counsel_turns (E : services) (u : string)
    (creq : Counseling.CounselingRequest) (o : outside) (row : user_row)
    (a : string) :
  u <> EmptyString ->
  counsel_loaded E = true -> db_available E = true ->
  users o !! u = Some row ->
  let old := default EmptyString (history row) in
  old = EmptyString \/ startswith old "User: " = true ->
  let sid :=
    if String.eqb (Counseling.req_session_id creq) EmptyString
    then "counsel_" +:+ u else Counseling.req_session_id creq in
  rag_answer E (Counseling.req_user_input creq) (default [] (store o !! sid))
    = inr a ->
  let cookie := JsonObject (Some u) in
  let o' := (Counseling.counsel_chat E creq cookie o).1 in
  let entry := "User: " +:+ Counseling.req_user_input creq +:+ " | AI: " +:+ a in
  let text := if String.eqb old EmptyString then entry
              else old +:+ " | " +:+ entry in
  let shown := TemplateResponse "history.html" [("input_string", Text text)] in
  history <$> users o' !! u = Some (Some text) /\
  MainPages.history_page E cookie o' = (o', inr shown) /\
  CounselingPages.history_page E cookie o' = (o', inr shown) /\
  startswith text "User: " = true.
Proof.
  intros Hu Hl Hdb Hrow old Hold sid Hrag cookie o' entry text shown.
  assert (Hcookie : get_current_user cookie = inr u).
  { subst cookie. cbn [get_current_user].
    destruct (String.eqb_spec u EmptyString); [contradiction | reflexivity]. }
  assert (Hguest : username_or_guest cookie = inr u)
    by (unfold username_or_guest; rewrite Hcookie; reflexivity).
  destruct (counsel_respond_turn E u creq o a Hl Hdb Hrag) as [Hres Husers].
  rewrite Hrow in Husers. fold old entry text in Husers.
  assert (Ho' : users o' = alter (update_history text) u (users o)).
  { subst o'. rewrite (counsel_chat_result E creq cookie u o Hguest).
    cbv zeta. cbn [fst].
    rewrite (try_except_no_exception _ _ _ _ Hres). exact Husers. }
  assert (Htext : startswith text "User: " = true).
  { subst text. destruct (String.eqb_spec old EmptyString) as [_ | Hne].
    - subst entry. apply startswith_append.
    - destruct Hold as [Hold | Hold]; [contradiction |].
      apply startswith_extended. exact Hold. }
  assert (Hstored : history <$> users o' !! u = Some (Some text)).
  { rewrite Ho', lookup_alter_eq, Hrow. reflexivity. }
  assert (Hpage : history_page_body E u (tt, o') = ((tt, o'), inr shown)).
  { rewrite history_page_body_reads, Hdb, Hstored.
    rewrite (shown_labelled text Htext). reflexivity. }
  split; [exact Hstored |].
  unfold MainPages.history_page, CounselingPages.history_page.
  rewrite Hcookie, Hpage. repeat split. exact Htext.
Qed.

Lemma history_pages_show_counsel_turns_example :
  let o' := (Counseling.counsel_chat sample_services
               (Counseling.mkRequest "hello" EmptyString) alice
               alice_registered).1 in
  MainPages.history_page sample_services alice o'
    = (o', inr (TemplateResponse "history.html"
                  [("input_string", Text "User: hello | AI: I hear you.")])).
Proof.
  destruct (history_pages_show_counsel_turns sample_services "alice"
              (Counseling.mkRequest "hello" EmptyString) alice_registered
              alice_row "I hear you." ltac:(discriminate) eq_refl eq_refl
              eq_refl (or_introl eq_refl) eq_refl) as (_ & H & _).
  exact H.
Defined.

(** * The pages that open a workflow *)

(** ** [/counsel] and the counselling turns of [/get] *)

(** A counselling turn of [/get] leaves the session as it is, calls no
    classifier, and changes no disorder and no severity. *)
Lemma respond_counselling_frame (E : services) (u msg : string)
    (s : Main.session) (o : outside) :
  Main.InDiagnosis s = false -> Main.InCounselor s = true ->
  let r := Main.respond E u msg (s, o) in
  r.1.1 = s /\
  classifier_calls r.1.2 = classifier_calls o /\
  forall v : string,
    disorder <$> users r.1.2 !! v = disorder <$> users o !! v /\
    severity <$> users r.1.2 !! v = severity <$> users o !! v.
Proof.
  intros Hd Hc r.
  assert (H : Main.respond E u msg (s, o) = r) by reflexivity.
  clearbody r. revert r H. open_session s.
  unfold_main. unfold get_counseling_response. unfold_monad.
  intros r. execute.
  all: intros <-; cbn [fst snd users with_users with_store classifier_calls].
  all: split; [reflexivity |]; split; [reflexivity |]; intros v.
  all: try (split; reflexivity).
  all: destruct (decide (v = u)) as [-> | Hv];
    [rewrite lookup_alter_eq | rewrite lookup_alter_ne by congruence];
    [destruct (users _ !! u); split; reflexivity | split; reflexivity].
Qed.

(** Any number of counselling turns of [/get]. *)
Lemma get_responses_counselling (E : services) (cookie : session_cookie)
    (u : string) (msgs : list string) :
  username_or_guest cookie = inr u ->
  forall (sessions : gmap string Main.session) (o : outside) (s : Main.session),
    sessions !! u = Some s ->
    Main.InDiagnosis s = false -> Main.InCounselor s = true ->
    let w := (get_responses E cookie msgs (sessions, o)).1 in
    w.1 !! u = Some s /\
    classifier_calls w.2 = classifier_calls o /\
    forall v : string,
      disorder <$> users w.2 !! v = disorder <$> users o !! v /\
      severity <$> users w.2 !! v = severity <$> users o !! v.
Proof.
  intros Hu. induction msgs as [| msg rest IH]; intros sessions o s Hs Hd Hc.
  - cbn [get_responses fst snd]. repeat split. exact Hs.
  - cbv zeta. rewrite get_responses_cons.
    rewrite (get_response_known E msg cookie u sessions o s Hu Hs).
    cbv zeta. cbn [fst]. rewrite try_except_reply_state.
    destruct (respond_counselling_frame E u msg s o Hd Hc)
      as (Hsess & Hcalls & Hrows).
    destruct (Main.respond E u msg (s, o)) as [[s' o'] reply].
    cbn [fst snd] in *. subst s'.
    destruct (IH (<[u := s]> sessions) o' s (lookup_insert_eq _ _ _) Hd Hc)
      as (Hs' & Hcalls' & Hrows').
    split; [exact Hs' |]. split; [congruence |].
    intros v. destruct (Hrows v) as [H1 H2], (Hrows' v) as [H3 H4].
    split; congruence.
Qed.

(** X13: the counselling chat never touches the diagnosis.  Once a
    signed-in user has opened the [/counsel] page, whether or not the
    database could be written then, any number of messages to [/get] leave
    the session in the counselling workflow as the page set it, call the
    classifier not once, and change the disorder and the severity of no
    stored row, whatever the chain and the database do. *)
Theorem counsel_page_keeps_the_diagnosis (E E' : services)
    (cookie : session_cookie) (u : string) (msgs : list string)
    (w : gmap string Main.session * outside) :
  get_current_user cookie = inr u ->
  let opened := (MainPages.counsel_page E cookie w).1 in
  let after := (get_responses E' cookie msgs opened).1 in
  after.1 !! u = Some Main.counsel_session /\
  classifier_calls after.2 = classifier_calls w.2 /\
  forall v : string,
    disorder <$> users after.2 !! v = disorder <$> users w.2 !! v /\
    severity <$> users after.2 !! v = severity <$> users w.2 !! v.
Proof.
  intros Hu opened after.
  assert (Hguest : username_or_guest cookie = inr u)
    by (unfold username_or_guest; rewrite Hu; reflexivity).
  assert (Hframe : exists o',
             opened = (<[u := Main.counsel_session]> w.1, o') /\
             classifier_calls o' = classifier_calls w.2 /\
             forall v : string, users o' !! v = users w.2 !! v).
  { subst opened. destruct w as [sessions o]. cbn [fst snd].
    unfold MainPages.counsel_page. rewrite Hu.
    unfold get_db, execute_update. unfold_monad.
    destruct (db_available E); cbn [fst snd].
    - exists (with_users (alter (fun row => row) u) o).
      split; [reflexivity |]. split; [reflexivity |].
      intros v. cbn [users with_users].
      destruct (decide (v = u)) as [-> | Hv];
        [rewrite lookup_alter_eq | rewrite lookup_alter_ne by congruence];
        [destruct (users o !! u); reflexivity | reflexivity].
    - exists o. repeat split. }
  destruct Hframe as (o' & Ho & Hcalls & Husers).
  subst after. rewrite Ho.
  destruct (get_responses_counselling E' cookie u msgs Hguest
              (<[u := Main.counsel_session]> w.1) o' Main.counsel_session
              (lookup_insert_eq _ _ _) eq_refl eq_refl)
    as (Hs & Hcalls' & Hrows).
  split; [exact Hs |]. split; [congruence |].
  intros v. destruct (Hrows v) as [H1 H2]. rewrite <- (Husers v).
  split; assumption.
Qed.

Lemma counsel_page_keeps_the_diagnosis_example :
  let opened := (MainPages.counsel_page services_without_database alice
                   ({[ "alice" := alice_last_item ]}, alice_registered)).1 in
  let after := (get_responses sample_services alice ["hello"; "3"] opened).1 in
  after.1 !! "alice" = Some Main.counsel_session /\
  classifier_calls after.2 = [] /\
  disorder <$> users after.2 !! "alice" = Some "Anxiety".
Proof.
  destruct (counsel_page_keeps_the_diagnosis services_without_database
              sample_services alice "alice" ["hello"; "3"]
              ({[ "alice" := alice_last_item ]}, alice_registered) eq_refl)
    as (Hs & Hcalls & Hrows).
  split; [exact Hs |]. split; [exact Hcalls |].
  exact (proj1 (Hrows "alice")).
Defined.

(** ** [/diagnosis] of [diagnosis.py] and the narrative of [/diagnosis/chat] *)

(** What the third request leaves in the session, whether or not the
    classifier answers. *)
Lemma diagnosis_respond_third_session (E : services) (u text : string)
    (s : Diagnosis.session) (o : outside) :
  let r := Diagnosis.respond E u (Diagnosis.mkRequest text 3) (s, o) in
  Diagnosis.user_input r.1.1 = Diagnosis.user_input s +:+ " " +:+ text /\
  Diagnosis.score r.1.1 = Diagnosis.score s.
Proof.
  intros r.
  assert (H : Diagnosis.respond E u (Diagnosis.mkRequest text 3) (s, o) = r)
    by reflexivity.
  clearbody r. revert r H. open_dsession s.
  unfold_diagnosis. unfold predict_disorder. unfold_monad. intros r.
  execute.
  all: intros <-; diagnosis_fields; split; reflexivity.
Qed.

(** The three narrative requests, from any session. *)
Lemma diagnosis_chats_narrative_run (E : services) (cookie : session_cookie)
    (u : string) (sessions : gmap string Diagnosis.session) (o : outside)
    (s : Diagnosis.session) (m1 m2 m3 : string) :
  username_or_guest cookie = inr u ->
  sessions !! ("diagnosis_" +:+ u) = Some s ->
  let w := (diagnosis_chats E cookie
              [Diagnosis.mkRequest m1 1; Diagnosis.mkRequest m2 2;
               Diagnosis.mkRequest m3 3] (sessions, o)).1 in
  let narrative := Diagnosis.user_input s +:+ m1 +:+ " " +:+ m2 +:+ " " +:+ m3 in
  (exists s' : Diagnosis.session,
      w.1 !! ("diagnosis_" +:+ u) = Some s' /\
      Diagnosis.user_input s' = narrative /\
      Diagnosis.score s' = Diagnosis.score s) /\
  classifier_calls w.2 = (classifier_calls o ++ [narrative])%list.
Proof.
  intros Hu Hs w narrative.
  pose (s1 := Diagnosis.set_step 2 (Diagnosis.append_input m1 s)).
  pose (s2 := Diagnosis.set_step 3 (Diagnosis.append_input (" " +:+ m2) s1)).
  assert (H1 : (Diagnosis.diagnosis_chat E (Diagnosis.mkRequest m1 1) cookie
                  (sessions, o)).1
               = (<["diagnosis_" +:+ u := s1]> sessions, o)).
  { rewrite (diagnosis_chat_known E _ cookie u sessions o s Hu Hs).
    rewrite (try_except_returns _ _ _ _ _
               (diagnosis_respond_first_message E u m1 s o)).
    reflexivity. }
  assert (H2 : (Diagnosis.diagnosis_chat E (Diagnosis.mkRequest m2 2) cookie
                  (<["diagnosis_" +:+ u := s1]> sessions, o)).1
               = (<["diagnosis_" +:+ u := s2]>
                    (<["diagnosis_" +:+ u := s1]> sessions), o)).
  { rewrite (diagnosis_chat_known E _ cookie u _ o s1 Hu (lookup_insert_eq _ _ _)).
    rewrite (try_except_returns _ _ _ _ _
               (diagnosis_respond_second_message E u m2 s1 o)).
    reflexivity. }
  subst w. rewrite !diagnosis_chats_cons, H1, H2.
  rewrite (diagnosis_chat_known E _ cookie u _ o s2 Hu (lookup_insert_eq _ _ _)).
  cbv zeta. cbn [fst diagnosis_chats]. rewrite try_except_raise_state.
  pose proof (diagnosis_respond_third_message E u m3 s2 o) as Hcalls.
  pose proof (diagnosis_respond_third_session E u m3 s2 o) as [Htext Hscore].
  cbv zeta in Hcalls, Htext, Hscore.
  destruct (Diagnosis.respond E u (Diagnosis.mkRequest m3 3) (s2, o))
    as [[s3 o3] reply].
  cbn [fst snd] in *.
  assert (Hn : Diagnosis.user_input s2 +:+ " " +:+ m3 = narrative).
  { subst narrative s2 s1.
    cbn [Diagnosis.append_input Diagnosis.set_step Diagnosis.user_input].
    rewrite !append_assoc. reflexivity. }
  split.
  - exists s3. split; [apply lookup_insert_eq |].
    split; [congruence |]. rewrite Hscore. reflexivity.
  - rewrite Hcalls, Hn. reflexivity.
Qed.

(** X14: in [/diagnosis/chat] only the page starts a run anew.  Whatever
    session an earlier run has left, three narrative requests (steps 1, 2
    and 3) sent without opening the [/diagnosis] page of [diagnosis.py]
    first call the classifier on the earlier narrative followed, without a
    separator, by the three new messages, and enter the questionnaire with
    the earlier score; sent after the page was opened, they call it on the
    three messages joined by single spaces, and enter with score 0. *)
Theorem diagnosis_chat_run_restarts_at_the_page_only (E : services)
    (cookie : session_cookie) (u : string)
    (sessions : gmap string Diagnosis.session) (o : outside)
    (s : Diagnosis.session) (m1 m2 m3 : string) :
  get_current_user cookie = inr u ->
  sessions !! ("diagnosis_" +:+ u) = Some s ->
  let run := [Diagnosis.mkRequest m1 1; Diagnosis.mkRequest m2 2;
              Diagnosis.mkRequest m3 3] in
  let narrative := m1 +:+ " " +:+ m2 +:+ " " +:+ m3 in
  let continued := (diagnosis_chats E cookie run (sessions, o)).1 in
  let restarted :=
    (diagnosis_chats E cookie run
       ((DiagnosisPages.diagnosis_page cookie sessions).1, o)).1 in
  (classifier_calls continued.2
     = (classifier_calls o ++ [Diagnosis.user_input s +:+ narrative])%list /\
   Diagnosis.score <$> continued.1 !! ("diagnosis_" +:+ u)
     = Some (Diagnosis.score s)) /\
  (classifier_calls restarted.2 = (classifier_calls o ++ [narrative])%list /\
   Diagnosis.score <$> restarted.1 !! ("diagnosis_" +:+ u) = Some 0).
Proof.
  intros Hu Hs run narrative continued restarted.
  assert (Hguest : username_or_guest cookie = inr u)
    by (unfold username_or_guest; rewrite Hu; reflexivity).
  split.
  - destruct (diagnosis_chats_narrative_run E cookie u sessions o s m1 m2 m3
                Hguest Hs) as [(s' & Hs' & _ & Hscore) Hcalls].
    fold run continued in Hs', Hcalls. split.
    + exact Hcalls.
    + rewrite Hs'. cbn [fmap option_fmap option_map]. rewrite Hscore.
      reflexivity.
  - assert (Hpage : (DiagnosisPages.diagnosis_page cookie sessions).1
                    = <["diagnosis_" +:+ u := Diagnosis.new_session]> sessions)
      by (unfold DiagnosisPages.diagnosis_page; rewrite Hu; reflexivity).
    subst restarted. rewrite Hpage.
    destruct (diagnosis_chats_narrative_run E cookie u
                (<["diagnosis_" +:+ u := Diagnosis.new_session]> sessions) o
                Diagnosis.new_session m1 m2 m3 Hguest (lookup_insert_eq _ _ _))
      as [(s' & Hs' & _ & Hscore) Hcalls].
    fold run in Hs', Hcalls. split.
    + exact Hcalls.
    + rewrite Hs'. cbn [fmap option_fmap option_map]. rewrite Hscore.
      reflexivity.
Qed.

Lemma diagnosis_chat_run_restarts_at_the_page_only_example :
  let run := [Diagnosis.mkRequest "d" 1; Diagnosis.mkRequest "e" 2;
              Diagnosis.mkRequest "f" 3] in
  let sessions : gmap string Diagnosis.session :=
    {[ "diagnosis_alice" := alice_chat_done ]} in
  classifier_calls
    (diagnosis_chats sample_services alice run (sessions, alice_registered)).1.2
    = ["a b cd e f"] /\
  classifier_calls
    (diagnosis_chats sample_services alice run
       ((DiagnosisPages.diagnosis_page alice sessions).1, alice_registered)).1.2
    = ["d e f"].
Proof.
  assert (Hs : ({[ "diagnosis_alice" := alice_chat_done ]}
                  : gmap string Diagnosis.session) !! ("diagnosis_" +:+ "alice")
               = Some alice_chat_done)
    by (apply lookup_singleton_Some; split; reflexivity).
  destruct (diagnosis_chat_run_restarts_at_the_page_only sample_services alice
              "alice" {[ "diagnosis_alice" := alice_chat_done ]}
              alice_registered alice_chat_done "d" "e" "f" eq_refl Hs)
    as [[H1 _] [H2 _]].
  split; [exact H1 | exact H2].
Defined.

(** * The PTSD questionnaire of [/diagnosis/chat] *)

Lemma diagnosis_chat_returns (E : services) (req : Diagnosis.DiagnosisRequest)
    (cookie : session_cookie) (u : string)
    (sessions : gmap string Diagnosis.session) (o o' : outside)
    (s s' : Diagnosis.session) (a : option Diagnosis.DiagnosisResponse) :
  username_or_guest cookie = inr u ->
  sessions !! ("diagnosis_" +:+ u) = Some s ->
  Diagnosis.respond E u req (s, o) = ((s', o'), inr a) ->
  Diagnosis.diagnosis_chat E req cookie (sessions, o)
    = ((<["diagnosis_" +:+ u := s']> sessions, o'), inr a).
Proof.
  intros Hu Hs Hr.
  rewrite (diagnosis_chat_known E req cookie u sessions o s Hu Hs).
  rewrite (try_except_returns _ _ _ _ _ Hr). reflexivity.
Qed.

Section PtsdChat.
Context (E : services) (u : string) (req : Diagnosis.DiagnosisRequest)
        (s : Diagnosis.session) (o : outside).
Hypothesis Hstep : 4 <= Diagnosis.req_step req.
Hypothesis Hptsd : Diagnosis.disorder s = Some "PTSD".

(** Any answer to the first item but [no] and [n] goes on. *)
Lemma diagnosis_respond_ptsd_trauma :
  Diagnosis.step s = 4 ->
  str_in (lower (Diagnosis.req_user_input req)) ["no"; "n"] = false ->
  Diagnosis.respond E u req (s, o) =
    ((Diagnosis.set_step 5 s, o),
     inr (Some (Diagnosis.mkResponse
                  "Had nightmares about it or thought about it when you did not want to?"
                  None None false))).
Proof.
  intros Hs Hn. by_execution.
  open_request req. open_dsession s.
  unfold_diagnosis. unfold_monad. rewrite Hn. intros r.
  execute; intros <-; z_tests; try lia; reflexivity.
Qed.

(** The session steps 5, 6 and 7: the answer is scored and the next
    question of the list is asked. *)
Lemma diagnosis_respond_ptsd_item :
  5 <= Diagnosis.step s <= 7 ->
  exists q : string,
    Diagnosis.ptsd_questions !! Z.to_nat (Diagnosis.step s - 5) = Some q /\
    Diagnosis.respond E u req (s, o) =
      ((Diagnosis.mkSession (Diagnosis.step s + 1) (Diagnosis.user_input s)
          (Diagnosis.score s + ptsd_point (Diagnosis.req_user_input req))
          (Some "PTSD"), o),
       inr (Some (Diagnosis.mkResponse q None None false))).
Proof.
  intros Hs.
  assert (Hcases : Diagnosis.step s = 5 \/ Diagnosis.step s = 6
                   \/ Diagnosis.step s = 7) by lia.
  unfold ptsd_point.
  open_request req. open_dsession s.
  destruct Hcases as [-> | [-> | ->]]; eexists; (split; [reflexivity |]);
    by_execution; unfold_diagnosis; unfold_monad; intros r;
    execute; intros <-; z_tests;
    unfold Diagnosis.ptsd_questions in *; cbn [length] in *; try lia;
    match goal with
    | H : py_index _ _ = _ |- _ => vm_compute in H; simplify_eq
    end; reflexivity.
Qed.

(** From the session step 8 on, the answer is scored and ends the run. *)
Lemma diagnosis_respond_ptsd_last :
  8 <= Diagnosis.step s ->
  db_available E = true ->
  let points := Diagnosis.score s + ptsd_point (Diagnosis.req_user_input req) in
  let label := if 3 <=? points then "Moderate/Severe" else "Mild" in
  Diagnosis.respond E u req (s, o) =
    ((Diagnosis.set_step (-1) s,
      with_users (alter (update_severity label) u) o),
     inr (Some (Diagnosis.mkResponse
                  ("The severity of your PTSD is " +:+ label +:+ ".")
                  (Some "PTSD") (Some label) true))).
Proof.
  intros Hs Hdb points label. subst points label. unfold ptsd_point.
  by_execution.
  open_request req. open_dsession s.
  unfold_diagnosis. unfold_monad. rewrite Hdb. intros r.
  execute; intros <-; z_tests;
    unfold Diagnosis.ptsd_questions in *; cbn [length] in *;
    try lia; reflexivity.
Qed.

End PtsdChat.

Lemma ptsd_item_reply (E : services) (u : string)
    (req : Diagnosis.DiagnosisRequest) (o : outside) (text : string)
    (points : Z) (k : Z) (q : string) :
  4 <= Diagnosis.req_step req ->
  5 <= k <= 7 ->
  Diagnosis.ptsd_questions !! Z.to_nat (k - 5) = Some q ->
  Diagnosis.respond E u req
    (Diagnosis.mkSession k text points (Some "PTSD"), o) =
    ((Diagnosis.mkSession (k + 1) text
        (points + ptsd_point (Diagnosis.req_user_input req)) (Some "PTSD"), o),
     inr (Some (Diagnosis.mkResponse q None None false))).
Proof.
  intros Hreq Hk Hq.
  destruct (diagnosis_respond_ptsd_item E u req
              (Diagnosis.mkSession k text points (Some "PTSD")) o Hreq
              eq_refl Hk) as (q' & Hq' & Hrun).
  cbn [Diagnosis.step Diagnosis.user_input Diagnosis.score] in Hq', Hrun.
  rewrite Hq in Hq'. injection Hq' as <-. exact Hrun.
Qed.

(** X15: the PTSD questionnaire of [/diagnosis/chat], from the state the
    classification leaves (session step 4) and with a database that
    answers.  Every answer to the trauma question other than [no] and [n]
    goes on; then four answers are scored, one point for each whose
    lower-case form is [yes] or [y] and none for any other text; the fourth
    of them ends the run, with [Moderate/Severe] from three points on and
    [Mild] below, stored as the severity of the user.  The questions asked
    are the one about nightmares and the first three of the list: its last
    question is never asked. *)
Theorem diagnosis_chat_ptsd_questionnaire (E : services)
    (cookie : session_cookie) (u : string)
    (sessions : gmap string Diagnosis.session) (o : outside)
    (s : Diagnosis.session) (r0 r1 r2 r3 r4 : Diagnosis.DiagnosisRequest) :
  username_or_guest cookie = inr u ->
  sessions !! ("diagnosis_" +:+ u) = Some s ->
  Diagnosis.disorder s = Some "PTSD" ->
  Diagnosis.step s = 4 ->
  db_available E = true ->
  Forall (fun r => 4 <= Diagnosis.req_step r) [r0; r1; r2; r3; r4] ->
  str_in (lower (Diagnosis.req_user_input r0)) ["no"; "n"] = false ->
  let points :=
    Diagnosis.score s
    + ptsd_points (map Diagnosis.req_user_input [r1; r2; r3; r4]) in
  let label := if 3 <=? points then "Moderate/Severe" else "Mild" in
  let ask (q : string) : exn + option Diagnosis.DiagnosisResponse :=
    inr (Some (Diagnosis.mkResponse q None None false)) in
  let run := diagnosis_chats E cookie [r0; r1; r2; r3; r4] (sessions, o) in
  run.2
    = [ ask "Had nightmares about it or thought about it when you did not want to?";
        ask "Tried hard not to think about it or went out of your way to avoid situations that reminded you of it?";
        ask "Were constantly on guard, watchful or easily startled?";
        ask "Felt numb or detached from others, activities, or your surroundings?";
        inr (Some (Diagnosis.mkResponse
                     ("The severity of your PTSD is " +:+ label +:+ ".")
                     (Some "PTSD") (Some label) true)) ] /\
  users run.1.2 = alter (update_severity label) u (users o) /\
  Diagnosis.step <$> run.1.1 !! ("diagnosis_" +:+ u) = Some (-1).
Proof.
  intros Hu Hs Hptsd Hstep Hdb Hreqs Hyes points label ask run.
  apply Forall_cons in Hreqs as [H0 Hreqs].
  apply Forall_cons in Hreqs as [H1 Hreqs].
  apply Forall_cons in Hreqs as [H2 Hreqs].
  apply Forall_cons in Hreqs as [H3 Hreqs].
  apply Forall_cons in Hreqs as [H4 _].
  destruct s as [k text c d].
  cbn [Diagnosis.step Diagnosis.disorder Diagnosis.score] in *. subst k d.
  subst run. cbn [diagnosis_chats].
  rewrite (diagnosis_chat_returns E r0 cookie u _ o _ _ _ _ Hu Hs
             (diagnosis_respond_ptsd_trauma E u r0
                (Diagnosis.mkSession 4 text c (Some "PTSD")) o H0 eq_refl
                eq_refl Hyes)).
  unfold Diagnosis.set_step.
  cbn [Diagnosis.step Diagnosis.user_input Diagnosis.score Diagnosis.disorder].
  rewrite (diagnosis_chat_returns E r1 cookie u _ o _ _ _ _ Hu
             (lookup_insert_eq _ _ _)
             (ptsd_item_reply E u r1 o text c 5 _ H1 ltac:(lia) eq_refl)).
  rewrite (diagnosis_chat_returns E r2 cookie u _ o _ _ _ _ Hu
             (lookup_insert_eq _ _ _)
             (ptsd_item_reply E u r2 o text _ (5 + 1) _ H2 ltac:(lia) eq_refl)).
  rewrite (diagnosis_chat_returns E r3 cookie u _ o _ _ _ _ Hu
             (lookup_insert_eq _ _ _)
             (ptsd_item_reply E u r3 o text _ (5 + 1 + 1) _ H3 ltac:(lia)
                eq_refl)).
  rewrite (diagnosis_chat_returns E r4 cookie u _ o _ _ _ _ Hu
             (lookup_insert_eq _ _ _)
             (diagnosis_respond_ptsd_last E u r4
                (Diagnosis.mkSession (5 + 1 + 1 + 1) text _ (Some "PTSD")) o
                H4 eq_refl ltac:(cbn [Diagnosis.step]; lia) Hdb)).
  cbn [fst snd Diagnosis.score Diagnosis.req_user_input].
  assert (Hpoints :
            c + ptsd_point (Diagnosis.req_user_input r1)
              + ptsd_point (Diagnosis.req_user_input r2)
              + ptsd_point (Diagnosis.req_user_input r3)
              + ptsd_point (Diagnosis.req_user_input r4) = points).
  { subst points. cbn [map ptsd_points foldr]. lia. }
  rewrite Hpoints. fold label.
  split; [reflexivity |]. split; [reflexivity |].
  rewrite lookup_insert_eq. reflexivity.
Qed.

Lemma diagnosis_chat_ptsd_questionnaire_example :
  let run :=
    diagnosis_chats sample_services alice
      [answer "maybe"; answer "yes"; answer "Y"; answer "often"; answer "yes"]
      ({[ "diagnosis_alice" := alice_chat_ptsd ]}, alice_registered) in
  severity <$> users run.1.2 !! "alice" = Some "Moderate/Severe".
Proof.
  assert (Hs : ({[ "diagnosis_alice" := alice_chat_ptsd ]}
                  : gmap string Diagnosis.session) !! ("diagnosis_" +:+ "alice")
               = Some alice_chat_ptsd)
    by (apply lookup_singleton_Some; split; reflexivity).
  destruct (diagnosis_chat_ptsd_questionnaire sample_services alice "alice"
              {[ "diagnosis_alice" := alice_chat_ptsd ]} alice_registered
              alice_chat_ptsd (answer "maybe") (answer "yes") (answer "Y")
              (answer "often") (answer "yes") eq_refl Hs eq_refl eq_refl
              eq_refl ltac:(repeat constructor; cbn; lia) eq_refl)
    as (_ & Hrow & _).
  cbv zeta. rewrite Hrow. vm_compute. reflexivity.
Defined.

(** * Accounts: [signup], [login] and [home] *)

(** ** The statements on the table *)

Lemma select_one_single (db : option Sql.table) (col u : string)
    (row : list Sql.value) :
  Sql.select_one db [col] u = inr (Some row) -> row = [Sql.cell row 0].
Proof.
  unfold Sql.select_one. destruct db as [t |]; [| discriminate].
  destruct (Sql.column_index "username" (Sql.columns t)); [| discriminate].
  cbn [Sql.column_indexes].
  destruct (Sql.column_index col (Sql.columns t)); [| discriminate].
  destruct (List.filter _ _); [discriminate |].
  intros H. injection H as <-. reflexivity.
Qed.

Lemma insert_values_arity (t : Sql.table) (values : list Sql.value) :
  length values <> length (Sql.columns t) ->
  Sql.insert_values (Some t) values = inl DatabaseError.
Proof.
  intros H. unfold Sql.insert_values.
  destruct (Nat.eqb_spec (length values) (length (Sql.columns t)));
    [contradiction | reflexivity].
Qed.

(** ** [signup] against the table of [init_db] *)

(** X16: [signup] registers nobody in a [users] table that has not exactly
    eight columns, and the table [init_db] creates has nine.  Whatever the
    form holds and whatever [bcrypt] and the database do, the table stays
    as it is and no session cookie is set; a complete form with a user name
    that is free is answered with the page [Error creating account. Please
    try again.] *)
Theorem signup_needs_eight_columns (E : services) (B : bcrypt)
    (firstn lastn username password : option string) (t : Sql.table) :
  length (Sql.columns t) <> 8%nat ->
  let r := MainPages.signup E B firstn lastn username password (Some t) in
  r.1 = Some t /\
  (forall p : page, r.2 = inr p ->
     exists message : string, p = failure "signup.html" message) /\
  (missing firstn || missing lastn || missing username || missing password
     = false ->
   db_available E = true ->
   Sql.select_one (Some t) ["username"] (default EmptyString username)
     = inr None ->
   (exists hashed, hashpw B (default EmptyString password) = inr hashed) ->
   r.2 = inr (failure "signup.html" "Error creating account. Please try again.")).
Proof.
  intros Hcols r. subst r. unfold MainPages.signup.
  destruct (missing firstn || missing lastn || missing username
            || missing password) eqn:Hform.
  { cbn [fst snd]. split; [reflexivity |]. split; [| discriminate].
    intros p H. injection H as <-. eexists. reflexivity. }
  destruct (db_available E) eqn:Hdb; cbn [negb].
  2:{ cbn [fst snd]. repeat split; discriminate. }
  destruct (Sql.select_one (Some t) ["username"] (default EmptyString username))
    as [e | [row |]] eqn:Hsel.
  { cbn [fst snd]. repeat split; discriminate. }
  { cbn [fst snd]. split; [reflexivity |]. split; [| discriminate].
    intros p H. injection H as <-. eexists. reflexivity. }
  unfold Auth.hash_password.
  destruct (hashpw B (default EmptyString password)) as [e | hashed] eqn:Hhash.
  { cbn [fst snd]. split; [reflexivity |]. split; [discriminate |].
    intros _ _ _ [h Hh]. discriminate Hh. }
  rewrite insert_values_arity by (cbn [length]; congruence).
  cbn [fst snd]. split; [reflexivity |]. split; [| reflexivity].
  intros p H. injection H as <-. eexists. reflexivity.
Qed.

Lemma signup_needs_eight_columns_example :
  MainPages.signup sample_services sample_bcrypt (Some "Alice") (Some "A")
    (Some "alice") (Some "secret") (Database.init_db None)
  = (Database.init_db None,
     inr (failure "signup.html" "Error creating account. Please try again.")).
Proof.
  pose proof (signup_needs_eight_columns sample_services sample_bcrypt
                (Some "Alice") (Some "A") (Some "alice") (Some "secret")
                (Sql.mkTable Database.users_columns (Some "username") [])
                ltac:(cbn; lia)) as H.
  cbv zeta in H. destruct H as (Hdb & _ & Hpage).
  apply injective_projections.
  - exact Hdb.
  - exact (Hpage eq_refl eq_refl eq_refl (ex_intro _ _ eq_refl)).
Defined.

(** ** [login] *)

Lemma authenticate_user_accepts (B : bcrypt) (u p : string)
    (db : option Sql.table) :
  Auth.authenticate_user B u p db = true <->
  exists h : string,
    Sql.select_one db ["password"] u = inr (Some [Some h]) /\
    checkpw B p h = inr true.
Proof.
  unfold Auth.authenticate_user, Auth.verify_password. split.
  - destruct (Sql.select_one db ["password"] u) as [e | [row |]] eqn:Hsel;
      try discriminate.
    pose proof (select_one_single _ _ _ _ Hsel) as Hrow.
    destruct (Sql.cell row 0) as [h |]; [| discriminate].
    destruct (checkpw B p h) as [e | b] eqn:Hcheck; [discriminate |].
    intros ->. exists h. rewrite Hrow. split; [reflexivity | assumption].
  - intros (h & -> & Hcheck). cbn [Sql.cell lookup list_lookup default from_option id].
    rewrite Hcheck. reflexivity.
Qed.

(** X17: [login] never fails while the database opens, and grants a session
    exactly to a user name and a password, both not empty, for which the
    table holds a row of that name whose password column [bcrypt] accepts.
    A missing table or column, a [NULL] in the password column and an
    exception of [bcrypt] are all answered like a wrong password.  The
    cookie of a granted session is one [get_current_user] accepts as that
    user. *)
Theorem login_grants_a_session (E : services) (B : bcrypt)
    (name password : option string) (db : option Sql.table) :
  db_available E = true ->
  let r := MainPages.login E B name password db in
  let granted (u : string) := Auth.create_session_response u "/home" in
  ((exists message : string, r = inr (failure "login.html" message))
   \/ (exists u : string,
          r = inr (granted u) /\ name = Some u /\
          get_current_user (JsonObject (Some u)) = inr u)) /\
  (forall u : string,
     r = inr (granted u) <->
     name = Some u /\ u <> EmptyString /\
     exists p h : string,
       password = Some p /\ p <> EmptyString /\
       Sql.select_one db ["password"] u = inr (Some [Some h]) /\
       checkpw B p h = inr true).
Proof.
  intros Hdb r granted. subst r granted. unfold MainPages.login.
  rewrite Hdb. cbn [negb].
  destruct name as [u |]; cbn [missing orb].
  2:{ split; [left; eexists; reflexivity |].
      intros v. split; [discriminate | intros (H & _); discriminate H]. }
  destruct (String.eqb_spec u EmptyString) as [-> | Hu]; cbn [orb].
  { split; [left; eexists; reflexivity |].
    intros v. split; [discriminate |].
    intros (H & Hv & _). injection H as <-. contradiction. }
  destruct password as [p |]; cbn [missing].
  2:{ split; [left; eexists; reflexivity |].
      intros v. split; [discriminate |].
      intros (_ & _ & p & h & H & _). discriminate H. }
  destruct (String.eqb_spec p EmptyString) as [-> | Hp].
  { split; [left; eexists; reflexivity |].
    intros v. split; [discriminate |].
    intros (_ & _ & p & h & H & Hp & _). injection H as <-. contradiction. }
  cbn [default from_option id].
  destruct (Auth.authenticate_user B u p db) eqn:Hauth.
  - split.
    + right. exists u. split; [reflexivity |]. split; [reflexivity |].
      cbn [get_current_user].
      destruct (String.eqb_spec u EmptyString); [contradiction | reflexivity].
    + intros v. split.
      * intros H. injection H as <-. split; [reflexivity |].
        split; [exact Hu |].
        apply authenticate_user_accepts in Hauth as (h & Hsel & Hcheck).
        exists p, h. repeat split; assumption.
      * intros (Hv & _ & _). injection Hv as <-. reflexivity.
  - split; [left; eexists; reflexivity |].
    intros v. split; [discriminate |].
    intros (Hv & _ & p' & h & Hp' & _ & Hsel & Hcheck).
    injection Hv as <-. injection Hp' as <-.
    assert (Auth.authenticate_user B u p db = true)
      by (apply authenticate_user_accepts; exists h; split; assumption).
    congruence.
Qed.

Lemma login_grants_a_session_example :
  MainPages.login sample_services sample_bcrypt (Some "bob") (Some "hunter2")
    (Some eight_columns)
    = inr (Auth.create_session_response "bob" "/home") /\
  MainPages.login sample_services sample_bcrypt (Some "bob") (Some "hunter3")
    (Some eight_columns)
    <> inr (Auth.create_session_response "bob" "/home").
Proof.
  split.
  - apply (proj2 (login_grants_a_session sample_services sample_bcrypt
                    (Some "bob") (Some "hunter2") (Some eight_columns)
                    eq_refl)).
    split; [reflexivity |]. split; [discriminate |].
    exists "hunter2", "$2b$hunter2".
    repeat split; try discriminate; reflexivity.
  - vm_compute. discriminate.
Defined.

(** ** [signup], then [login] and [home] *)

Lemma column_at_index (t : Sql.table) (name : string) (i : nat) :
  column_at t name i = true ->
  Sql.column_index name (Sql.columns t) = Some i.
Proof.
  unfold column_at. destruct (Sql.column_index name (Sql.columns t)) as [j |];
    [| discriminate].
  intros H. apply Nat.eqb_eq in H. congruence.
Qed.

Lemma filter_nil_existsb {A} (f : A -> bool) (l : list A) :
  List.filter f l = [] -> existsb f l = false.
Proof.
  induction l as [| x l IH]; [reflexivity |].
  cbn [List.filter existsb]. destruct (f x); [discriminate |]. exact IH.
Qed.

Lemma select_one_free (t : Sql.table) (u : string) (k : nat) :
  Sql.column_index "username" (Sql.columns t) = Some k ->
  Sql.select_one (Some t) ["username"] u = inr None ->
  List.filter (fun row => Sql.holds (Sql.cell row k) u) (Sql.records t) = [].
Proof.
  intros Hk. unfold Sql.select_one. cbn [Sql.column_indexes]. rewrite Hk.
  destruct (List.filter _ _); [reflexivity | discriminate].
Qed.

Lemma select_one_added (t : Sql.table) (names : list string)
    (wanted : list nat) (u : string) (values : list Sql.value) :
  Sql.column_index "username" (Sql.columns t) = Some 0%nat ->
  Sql.column_indexes names (Sql.columns t) = Some wanted ->
  List.filter (fun row => Sql.holds (Sql.cell row 0) u) (Sql.records t) = [] ->
  Sql.cell values 0 = Some u ->
  Sql.select_one
    (Some (Sql.mkTable (Sql.columns t) (Sql.primary_key t)
                       (Sql.records t ++ [values])%list))
    names u
  = inr (Some (map (Sql.cell values) wanted)).
Proof.
  intros Hk Hwanted Hfree Hcell. unfold Sql.select_one.
  cbn [Sql.columns Sql.records]. rewrite Hk, Hwanted.
  rewrite List.filter_app, Hfree. cbn [List.filter app].
  rewrite Hcell. cbn [Sql.holds]. rewrite String.eqb_refl. reflexivity.
Qed.

(** X18: on a [users] table that fits [signup], with a database that
    opens, a complete form with a user name that is free and a password
    that [bcrypt] hashes registers the user and grants a session.  From
    then on [login] grants that user a session exactly for the passwords
    [bcrypt] accepts against the stored hash, a second [signup] under the
    same name is refused and changes nothing, and [home] shows the user as
    neither diagnosed nor counselled. *)
Theorem signup_then_login_and_home (E : services) (B : bcrypt)
    (t : Sql.table) (firstname lastname u password hashed : string) :
  fits_signup t = true ->
  db_available E = true ->
  firstname <> EmptyString -> lastname <> EmptyString ->
  u <> EmptyString -> password <> EmptyString ->
  Sql.select_one (Some t) ["username"] u = inr None ->
  hashpw B password = inr hashed ->
  let r := MainPages.signup E B (Some firstname) (Some lastname) (Some u)
             (Some password) (Some t) in
  let granted := Auth.create_session_response u "/home" in
  r.2 = inr granted /\
  (forall p : string,
     p <> EmptyString ->
     MainPages.login E B (Some u) (Some p) r.1
     = inr (if Auth.verify_password B p (Some hashed) then granted
            else failure "login.html" "Invalid username or password")) /\
  (forall (B' : bcrypt) (firstn lastn p : option string),
     missing firstn || missing lastn || missing p = false ->
     MainPages.signup E B' firstn lastn (Some u) p r.1
     = (r.1, inr (failure "signup.html"
                    "Username already exists. Please choose a different username."))) /\
  MainPages.home E (JsonObject (Some u)) r.1
  = inr (TemplateResponse "home.html"
           [("username", Text u); ("date", Text "date");
            ("diagnosed", Flag false); ("severity", Text "Not-Diagnosed");
            ("disorder", Text "Not-Diagnosed"); ("counseled", Flag false)]).
Proof.
  intros Hfits Hdb Hfn Hln Hu Hp Hfree Hhash r granted.
  unfold fits_signup in Hfits.
  apply andb_true_iff in Hfits as [Hfits Hkey].
  apply andb_true_iff in Hfits as [Hfits Hseverity].
  apply andb_true_iff in Hfits as [Hfits Hdisorder].
  apply andb_true_iff in Hfits as [Hfits Hdate].
  apply andb_true_iff in Hfits as [Hfits Hpassword].
  apply andb_true_iff in Hfits as [Hfits Husername].
  apply Nat.eqb_eq in Hfits.
  apply column_at_index in Husername, Hpassword, Hdate, Hdisorder, Hseverity.
  assert (Hnone := select_one_free t u 0 Husername Hfree).
  set (values := [Some u; Some hashed; Some "date"; Some firstname;
                  Some lastname; Some "NA"; Some "Not-Diagnosed";
                  Some "Not-Diagnosed"] : list Sql.value).
  set (t' := Sql.mkTable (Sql.columns t) (Sql.primary_key t)
                         (Sql.records t ++ [values])%list).
  assert (Hinsert : Sql.insert_values (Some t) values = inr (Some t')).
  { unfold Sql.insert_values. rewrite Hfits. cbn [length Nat.eqb negb].
    destruct (Sql.primary_key t) as [key |]; [| reflexivity].
    rewrite (column_at_index t key 0 Hkey).
    cbn [Sql.cell values lookup list_lookup default from_option id].
    rewrite (filter_nil_existsb _ _ Hnone). reflexivity. }
  assert (Hr : r = (Some t', inr granted)).
  { subst r. unfold MainPages.signup. cbn [missing].
    destruct (String.eqb_spec firstname EmptyString); [contradiction |].
    destruct (String.eqb_spec lastname EmptyString); [contradiction |].
    destruct (String.eqb_spec u EmptyString); [contradiction |].
    destruct (String.eqb_spec password EmptyString); [contradiction |].
    cbn [orb default from_option id]. rewrite Hdb. cbn [negb].
    rewrite Hfree. unfold Auth.hash_password. rewrite Hhash.
    fold values. rewrite Hinsert. reflexivity. }
  assert (Hselect : forall (names : list string) (wanted : list nat),
             Sql.column_indexes names (Sql.columns t) = Some wanted ->
             Sql.select_one (Some t') names u
             = inr (Some (map (Sql.cell values) wanted))).
  { intros names wanted Hwanted.
    apply select_one_added; [assumption | exact Hwanted | exact Hnone |].
    reflexivity. }
  rewrite Hr. cbn [fst snd]. split; [reflexivity |].
  split; [| split].
  - intros p Hne. unfold MainPages.login. cbn [missing].
    destruct (String.eqb_spec u EmptyString); [contradiction |].
    destruct (String.eqb_spec p EmptyString); [contradiction |].
    cbn [orb default from_option id]. rewrite Hdb. cbn [negb].
    unfold Auth.authenticate_user.
    rewrite (Hselect ["password"] [1%nat]).
    2:{ cbn [Sql.column_indexes]. rewrite Hpassword. reflexivity. }
    cbn [map Sql.cell values lookup list_lookup default from_option id].
    destruct (Auth.verify_password B p (Some hashed)); reflexivity.
  - intros B' firstn lastn p Hform. unfold MainPages.signup.
    apply orb_false_iff in Hform as [Hform Hpw].
    rewrite Hform, Hpw. cbn [missing].
    destruct (String.eqb_spec u EmptyString); [contradiction |].
    cbn [orb default from_option id]. rewrite Hdb. cbn [negb].
    rewrite (Hselect ["username"] [0%nat]).
    2:{ cbn [Sql.column_indexes]. rewrite Husername. reflexivity. }
    reflexivity.
  - unfold MainPages.home. cbn [get_current_user].
    destruct (String.eqb_spec u EmptyString); [contradiction |].
    rewrite Hdb. cbn [negb].
    rewrite (Hselect ["disorder"; "severity"; "date"] [6%nat; 7%nat; 2%nat]).
    2:{ cbn [Sql.column_indexes]. rewrite Hdisorder, Hseverity, Hdate.
        reflexivity. }
    reflexivity.
Qed.

Lemma signup_then_login_and_home_example :
  let r := MainPages.signup sample_services sample_bcrypt (Some "Alice")
             (Some "A") (Some "alice") (Some "secret") (Some eight_columns) in
  r.2 = inr (Auth.create_session_response "alice" "/home") /\
  MainPages.login sample_services sample_bcrypt (Some "alice") (Some "secret")
    r.1
  = inr (Auth.create_session_response "alice" "/home") /\
  MainPages.login sample_services sample_bcrypt (Some "alice") (Some "Secret")
    r.1
  = inr (failure "login.html" "Invalid username or password").
Proof.
  destruct (signup_then_login_and_home sample_services sample_bcrypt
              eight_columns "Alice" "A" "alice" "secret" "$2b$secret"
              eq_refl eq_refl ltac:(discriminate) ltac:(discriminate)
              ltac:(discriminate) ltac:(discriminate) eq_refl eq_refl)
    as (Hsignup & Hlogin & _).
  split; [exact Hsignup |]. split.
  - exact (Hlogin "secret" ltac:(discriminate)).
  - exact (Hlogin "Secret" ltac:(discriminate)).
Defined.
